(** * scripts/bundle.js: the production build script of a React VR project

    A shallow embedding of [scripts/bundle.js] and of the parts of the
    JavaScript runtime it calls (strings, one regular expression, the
    POSIX flavour of Node's [path], a directory tree for [fs], promises),
    followed by the properties of the script.

    Conventions of the model.
    - Characters are bytes ([ascii]); a JavaScript string is a [string],
      the UTF-8 bytes of its characters.
    - The platform is POSIX: [path] is [path.posix], [path.sep] is ["/"],
      [/^win/.test(process.platform)] is false.
    - The file system is a finite tree; symbolic links are left out.
    - A spawned child is seen through the code of its [close] event only;
      what the child itself does to the disk is not part of the model.
    - An asynchronous operation is observed at the step at which its last
      callback runs; the order of these steps is an input of the run. *)

From Stdlib Require Import Bool Arith List ZArith Lia Ascii String Permutation.
From Stdlib Require Import DecimalString SpecFloat.
Import ListNotations.

Local Open Scope list_scope.
Local Open Scope string_scope.

Set Warnings "-register-all".

(* ================================================================== *)
(** * Part I: definitions *)
(* ================================================================== *)

(** ** Results of fallible operations *)

Inductive result (E A : Type) : Type :=
| Ok (a : A)
| Err (e : E).
Arguments Ok {E A} a.
Arguments Err {E A} e.

(** ** JavaScript strings *)

Module Str.

Fixpoint drop (n : nat) (s : string) : string :=
  match n, s with
  | O, _ => s
  | S _, EmptyString => EmptyString
  | S n', String _ s' => drop n' s'
  end.

Fixpoint take (n : nat) (s : string) : string :=
  match n, s with
  | O, _ => EmptyString
  | S _, EmptyString => EmptyString
  | S n', String c s' => String c (take n' s')
  end.

(** [s.startsWith(p)] *)
Fixpoint startsWith (p s : string) : bool :=
  match p, s with
  | EmptyString, _ => true
  | String _ _, EmptyString => false
  | String a p', String b s' => Ascii.eqb a b && startsWith p' s'
  end.

(** [s.endsWith(p)]; this is what [/p$/.test(s)] decides for a literal
    [p] (no [m] flag). *)
Definition endsWith (p s : string) : bool :=
  Nat.leb (String.length p) (String.length s)
  && String.eqb (drop (String.length s - String.length p) s) p.

(** [s.indexOf(p)]; [None] stands for [-1]. *)
Fixpoint indexOf (p s : string) : option nat :=
  if startsWith p s then Some 0
  else match s with
       | EmptyString => None
       | String _ s' => option_map S (indexOf p s')
       end.

(** [s.indexOf(p) !== -1] *)
Definition includes (p s : string) : bool :=
  match indexOf p s with Some _ => true | None => false end.

(** [s.split(sep)] for a separator of one character: never empty. *)
Fixpoint split (sep : ascii) (s : string) : list string :=
  match s with
  | EmptyString => [EmptyString]
  | String c s' =>
      if Ascii.eqb c sep then EmptyString :: split sep s'
      else match split sep s' with
           | h :: t => String c h :: t
           | [] => [String c EmptyString]
           end
  end.

(** [l.join(sep)] *)
Fixpoint join (sep : string) (l : list string) : string :=
  match l with
  | [] => EmptyString
  | [x] => x
  | x :: rest => x ++ sep ++ join sep rest
  end.

(** The [GetSubstitution] step of [String.prototype.replace] when the
    pattern is a string (no captures): [$$], [$&], [$`] and [$'] are
    expanded in the replacement text, everything else is literal. *)
Fixpoint getSubstitution (matched before after r : string) : string :=
  match r with
  | EmptyString => EmptyString
  | String "$" (String "$" r') =>
      String "$" (getSubstitution matched before after r')
  | String "$" (String "&" r') =>
      matched ++ getSubstitution matched before after r'
  | String "$" (String "`" r') =>
      before ++ getSubstitution matched before after r'
  | String "$" (String "'" r') =>
      after ++ getSubstitution matched before after r'
  | String c r' => String c (getSubstitution matched before after r')
  end.

(** [s.replace(p, r)] for a string pattern [p]: only the first
    occurrence of [p] is replaced. *)
Definition replace (s p r : string) : string :=
  match indexOf p s with
  | None => s
  | Some i =>
      let before := take i s in
      let after := drop (i + String.length p) s in
      before ++ getSubstitution p before after r ++ after
  end.

(** Decimal text of an integer, as [String(n)] gives it. *)
Definition ofZ (z : Z) : string := NilZero.string_of_int (Z.to_int z).

Definition isEmpty (s : string) : bool :=
  match s with EmptyString => true | _ => false end.

End Str.

(** ** Regular expressions

    A backtracking matcher for the fragment the script uses: literal
    characters, negated character classes, concatenation and the greedy
    [+].  Capture groups do not matter to [String.prototype.match] with
    the [g] flag, which returns the matched texts only. *)

Module Regex.

Inductive t : Type :=
| Lit (c : ascii)
| NoneOf (cs : list ascii)
| Cat (r1 r2 : t)
| Plus (r : t).

Fixpoint lits (s : string) (k : t) : t :=
  match s with
  | EmptyString => k
  | String c s' => Cat (Lit c) (lits s' k)
  end.

(** [run r s k]: match [r] at the start of [s], then hand the rest of
    the input to the continuation [k]; the first success wins, as in a
    backtracking engine.  A greedy [+] first tries one more iteration
    and falls back to the continuation; an iteration of the bodies used
    here reads a character, so that one iteration more than the length
    of the input is never reached. *)
Fixpoint run (r : t) (s : string) (k : string -> option string)
  : option string :=
  match r with
  | Lit c =>
      match s with
      | String c' s' => if Ascii.eqb c' c then k s' else None
      | EmptyString => None
      end
  | NoneOf cs =>
      match s with
      | String c' s' => if existsb (Ascii.eqb c') cs then None else k s'
      | EmptyString => None
      end
  | Cat r1 r2 => run r1 s (fun s1 => run r2 s1 k)
  | Plus r1 =>
      (fix loop (n : nat) (s0 : string) {struct n} : option string :=
         match n with
         | O => None
         | S n' =>
             run r1 s0 (fun s1 =>
               match loop n' s1 with
               | Some out => Some out
               | None => k s1
               end)
         end) (S (String.length s)) s
  end.

(** One attempt at one start position: the input left after the match. *)
Definition matchAt (r : t) (s : string) : option string := run r s Some.

(** The successive matches of a [g] regular expression: after a match
    the search resumes where the match ended ([lastIndex]); after an
    empty match or a failure it resumes one character further. *)
Fixpoint scan (fuel : nat) (r : t) (s : string) : list string :=
  match fuel with
  | O => []
  | S fuel' =>
      match matchAt r s with
      | Some rest =>
          let m := Str.take (String.length s - String.length rest) s in
          if Str.isEmpty m
          then match s with
               | EmptyString => [m]
               | String _ s' => m :: scan fuel' r s'
               end
          else m :: scan fuel' r rest
      | None =>
          match s with
          | EmptyString => []
          | String _ s' => scan fuel' r s'
          end
      end
  end.

(** [s.match(r)] for a [g] regular expression: [null] ([None]) when
    nothing matches, the array of matched texts otherwise. *)
Definition jsMatch (r : t) (s : string) : option (list string) :=
  match scan (S (String.length s)) r s with
  | [] => None
  | l => Some l
  end.

End Regex.

(** ** Node's [path] module, POSIX flavour *)

Module Path.

Definition sep : string := "/".

Definition isDot (s : string) : bool := String.eqb s ".".
Definition isDotDot (s : string) : bool := String.eqb s "..".

(** The last element of a list of strings that is not empty, or [""]. *)
Fixpoint lastNonEmpty (l : list string) (found : string) : string :=
  match l with
  | [] => found
  | x :: rest => lastNonEmpty rest (if Str.isEmpty x then found else x)
  end.

Definition isAbsolute (p : string) : bool :=
  match p with
  | String "/" _ => true
  | _ => false
  end.

(** [p.charCodeAt(p.length - 1) === 47] *)
Fixpoint hasTrailingSep (p : string) : bool :=
  match p with
  | EmptyString => false
  | String c EmptyString => Ascii.eqb c "/"
  | String _ p' => hasTrailingSep p'
  end.

(** One segment of [normalizeString]; the segments kept so far are held
    innermost first.  Empty segments and ["."] are dropped, [".."]
    removes the segment before it, or is kept when there is none and
    the path is relative. *)
Definition normalizeStep (allowAboveRoot : bool) (kept : list string)
    (seg : string) : list string :=
  if Str.isEmpty seg || isDot seg then kept
  else if isDotDot seg then
    match kept with
    | top :: rest =>
        if isDotDot top
        then (if allowAboveRoot then seg :: kept else kept)
        else rest
    | [] => if allowAboveRoot then [seg] else []
    end
  else seg :: kept.

Definition normalizeString (p : string) (allowAboveRoot : bool) : string :=
  Str.join "/"
    (rev (fold_left (normalizeStep allowAboveRoot) (Str.split "/" p) [])).

(** [path.normalize(p)] *)
Definition normalize (p : string) : string :=
  if Str.isEmpty p then "."
  else
    let isAbs := isAbsolute p in
    let trailing := hasTrailingSep p in
    let p1 := normalizeString p (negb isAbs) in
    let p2 := if Str.isEmpty p1 && negb isAbs then "." else p1 in
    let p3 := if negb (Str.isEmpty p2) && trailing then p2 ++ "/" else p2 in
    if isAbs then "/" ++ p3 else p3.

(** [path.join(...args)]: the non-empty arguments joined by ["/"], then
    normalized. *)
Definition join (args : list string) : string :=
  match filter (fun a => negb (Str.isEmpty a)) args with
  | [] => "."
  | parts => normalize (Str.join "/" parts)
  end.

(** The right-to-left loop of [path.resolve]: arguments are prepended
    until an absolute one is met; [revArgs] is the argument list
    reversed, and the working directory stands behind the first
    argument. *)
Fixpoint resolveLoop (cwd : string) (revArgs : list string)
    (resolvedPath : string) : string * bool :=
  match revArgs with
  | [] =>
      if Str.isEmpty cwd then (resolvedPath, false)
      else (cwd ++ "/" ++ resolvedPath, isAbsolute cwd)
  | p :: rest =>
      if Str.isEmpty p then resolveLoop cwd rest resolvedPath
      else if isAbsolute p then (p ++ "/" ++ resolvedPath, true)
      else resolveLoop cwd rest (p ++ "/" ++ resolvedPath)
  end.

(** [path.resolve(...args)] in a process whose working directory is
    [cwd]. *)
Definition resolve (cwd : string) (args : list string) : string :=
  let '(resolvedPath, resolvedAbsolute) := resolveLoop cwd (rev args) "" in
  let p := normalizeString resolvedPath (negb resolvedAbsolute) in
  if resolvedAbsolute then "/" ++ p
  else if Str.isEmpty p then "." else p.

(** [path.basename(p)]: the last non-empty segment. *)
Definition basename (p : string) : string :=
  lastNonEmpty (Str.split "/" p) "".

(** [path.basename(p, ext)]: empty when [p] is [ext] itself; otherwise a
    trailing [ext] is removed from the base name unless the base name is
    [ext] itself. *)
Definition basenameExt (p ext : string) : string :=
  let b := basename p in
  if negb (Str.isEmpty ext) && String.eqb p ext then ""
  else if Str.endsWith ext b && negb (String.eqb b ext)
  then Str.take (String.length b - String.length ext) b
  else b.

(** Position of the last ["."] of [s], counted from [i]. *)
Fixpoint lastDot (s : string) (i : nat) (found : option nat) : option nat :=
  match s with
  | EmptyString => found
  | String c s' =>
      lastDot s' (S i) (if Ascii.eqb c "." then Some i else found)
  end.

(** [path.extname(p)]: from the last ["."] of the base name to its end;
    empty when there is no dot, when the only dot opens the base name,
    and for [".."]. *)
Definition extname (p : string) : string :=
  let b := basename p in
  if isDotDot b then ""
  else match lastDot b 0 None with
       | None => ""
       | Some O => ""
       | Some i => Str.drop i b
       end.

End Path.

(** ** JSON values, as [require] yields them for a [.json] file *)

Module Json.

Inductive value : Type :=
| Null
| Bool (b : bool)
| Number (x : spec_float)
| Text (s : string)
| Array (items : list value)
| Object (fields : list (string * value)).

(** [ToBoolean]; [None] is [undefined]. *)
Definition truthy (v : option value) : bool :=
  match v with
  | None => false
  | Some Null => false
  | Some (Bool b) => b
  | Some (Number (S754_zero _)) => false
  | Some (Number S754_nan) => false
  | Some (Number _) => true
  | Some (Text s) => negb (Str.isEmpty s)
  | Some (Array _) => true
  | Some (Object _) => true
  end.

Fixpoint assoc (key : string) (fields : list (string * value))
  : option value :=
  match fields with
  | [] => None
  | (k, v) :: rest => if String.eqb k key then Some v else assoc key rest
  end.

(** [v[key]] for a key that no prototype defines (such as
    ["dependencies"] or ["react-vr"]): an own property of an object,
    [undefined] on anything else. *)
Definition get (v : value) (key : string) : option value :=
  match v with
  | Object fields => assoc key fields
  | _ => None
  end.

End Json.

(** ** The file system: a finite tree of directories and files *)

Module Fs.

Inductive node : Type :=
| File (data : string)
| Dir (entries : list (string * node)).

Inductive error : Type := ENOENT | ENOTDIR | EEXIST | EISDIR | EACCES.

Definition errorName (e : error) : string :=
  match e with
  | ENOENT => "ENOENT"
  | ENOTDIR => "ENOTDIR"
  | EEXIST => "EEXIST"
  | EISDIR => "EISDIR"
  | EACCES => "EACCES"
  end.

Fixpoint assoc (name : string) (entries : list (string * node))
  : option node :=
  match entries with
  | [] => None
  | (n, c) :: rest => if String.eqb n name then Some c else assoc name rest
  end.

Fixpoint setEntry (name : string) (c : node) (entries : list (string * node))
  : list (string * node) :=
  match entries with
  | [] => [(name, c)]
  | (n, c0) :: rest =>
      if String.eqb n name then (n, c) :: rest
      else (n, c0) :: setEntry name c rest
  end.

(** The names a path walks through: its non-empty segments. *)
Definition segments (p : string) : list string :=
  filter (fun s => negb (Str.isEmpty s)) (Str.split "/" p).

Fixpoint lookupSegs (segs : list string) (n : node) : result error node :=
  match segs with
  | [] => Ok n
  | name :: rest =>
      match n with
      | File _ => Err ENOTDIR
      | Dir entries =>
          match assoc name entries with
          | Some c => lookupSegs rest c
          | None => Err ENOENT
          end
      end
  end.

(** [fs.statSync(p)]: the node at [p], or the error thrown. *)
Definition statSync (root : node) (p : string) : result error node :=
  lookupSegs (segments p) root.

Definition isDirectory (n : node) : bool :=
  match n with Dir _ => true | File _ => false end.

(** [fs.readFile(p, cb)], as the callback sees it. *)
Definition readFile (root : node) (p : string) : result error string :=
  match statSync root p with
  | Ok (File data) => Ok data
  | Ok (Dir _) => Err EISDIR
  | Err e => Err e
  end.

Fixpoint mkdirSegs (segs : list string) (n : node) : result error node :=
  match segs with
  | [] => Err EEXIST
  | name :: rest =>
      match n with
      | File _ => Err ENOTDIR
      | Dir entries =>
          match rest with
          | [] =>
              match assoc name entries with
              | Some _ => Err EEXIST
              | None => Ok (Dir (entries ++ [(name, Dir [])])%list)
              end
          | _ :: _ =>
              match assoc name entries with
              | None => Err ENOENT
              | Some c =>
                  match mkdirSegs rest c with
                  | Ok c' => Ok (Dir (setEntry name c' entries))
                  | Err e => Err e
                  end
              end
          end
      end
  end.

(** [fs.mkdir(p, cb)]: the tree with the new directory, or the error
    passed to the callback. *)
Definition mkdir (root : node) (p : string) : result error node :=
  mkdirSegs (segments p) root.

Fixpoint writeSegs (segs : list string) (data : string) (n : node)
  : result error node :=
  match segs with
  | [] =>
      match n with
      | File _ => Ok (File data)
      | Dir _ => Err EISDIR
      end
  | name :: rest =>
      match n with
      | File _ => Err ENOTDIR
      | Dir entries =>
          match assoc name entries with
          | Some c =>
              match writeSegs rest data c with
              | Ok c' => Ok (Dir (setEntry name c' entries))
              | Err e => Err e
              end
          | None =>
              match rest with
              | [] => Ok (Dir (entries ++ [(name, File data)])%list)
              | _ :: _ => Err ENOENT
              end
          end
      end
  end.

(** [fs.writeFile(p, data, cb)]: creates or overwrites the file. *)
Definition writeFile (root : node) (p data : string) : result error node :=
  writeSegs (segments p) data root.

End Fs.

(** ** Values that reject a promise or are thrown *)

Inductive jsval : Type :=
| VNull
| VNumber (n : Z)
| VError (name message : string).

(** The text a template literal gives a value. *)
Definition toString (v : jsval) : string :=
  match v with
  | VNull => "null"
  | VNumber n => Str.ofZ n
  | VError name message => name ++ ": " ++ message
  end.

Definition fsError (e : Fs.error) : jsval := VError "Error" (Fs.errorName e).

(** ** Promises: settled once, later calls of [resolve] and [reject] are
    ignored *)

Module Promise.

Inductive state : Type :=
| Pending
| Fulfilled
| Rejected (reason : jsval).

Definition resolve (p : state) : state :=
  match p with
  | Pending => Fulfilled
  | _ => p
  end.

Definition reject (reason : jsval) (p : state) : state :=
  match p with
  | Pending => Rejected reason
  | _ => p
  end.

End Promise.

(** ** The process and its surroundings *)

(** A call of [child_process.spawn]. *)
Record command : Type := {
  file : string;
  args : list string;
  cwd : string;
  inheritStdio : bool
}.

Record world : Type := {
  (** [process.cwd()] *)
  processCwd : string;
  (** [process.env.RN_CLI_LOCATION] *)
  envCliLocation : option string;
  (** the file system when the script starts *)
  disk : Fs.node;
  (** what [require(path)] evaluates to; [None] when it throws *)
  requireJson : string -> option Json.value;
  (** the code of a child's [close] event; [None] is [null] (the child
      was ended by a signal) *)
  closeCode : command -> option Z;
  (** paths at which creating or writing is refused for a reason the tree
      does not show *)
  denied : string -> bool
}.

(** The operations of the fan-out. *)
Inductive task : Type :=
| Child (c : command)
| Rewrite (htmlFile : string) (outDir : list string).

(** ** [buildScript] *)

Definition defaultCli (w : world) : string :=
  Path.resolve (processCwd w)
    ["node_modules"; "react-native"; "local-cli"; "cli.js"].

(** [process.env.RN_CLI_LOCATION || path.resolve(...)] *)
Definition cliLocation (w : world) : string :=
  match envCliLocation w with
  | Some s => if Str.isEmpty s then defaultCli w else s
  | None => defaultCli w
  end.

(** The child that [buildScript] spawns.  [buildDir] is an array and is
    passed as one argument: it reaches the child as its elements joined
    by [","]. *)
Definition buildScript (w : world) (root : string) (buildDir : list string)
    (input output : string) : task :=
  Child {| file := "node";
           args := [cliLocation w; "bundle";
                    "--entry-file"; input;
                    "--platform"; "vr";
                    "--bundle-output"; output;
                    "--dev"; "false";
                    "--assets-dest"; Str.join "," buildDir];
           cwd := root;
           inheritStdio := true |}.

(** The [close] handler of [buildScript] and of [copyDirRecursive]:
    [if (code !== 0) { reject(code); } resolve();] *)
Definition onClose (code : option Z) (p : Promise.state) : Promise.state :=
  let p1 :=
    match code with
    | Some 0%Z => p
    | Some c => Promise.reject (VNumber c) p
    | None => Promise.reject VNull p
    end in
  Promise.resolve p1.

(** ** [hasPackage] *)

(** [pkg && pkg.dependencies && pkg.dependencies['react-vr']], as a
    condition. *)
Definition declaresReactVr (pkg : Json.value) : bool :=
  Json.truthy (Some pkg) &&
  match Json.get pkg "dependencies" with
  | Some deps => Json.truthy (Some deps) && Json.truthy (Json.get deps "react-vr")
  | None => false
  end.

Definition hasPackage (w : world) (dir : string) : result jsval bool :=
  let packagePath := Path.join [dir; "package.json"] in
  match Fs.statSync (disk w) packagePath with
  | Err _ => Ok false
  | Ok _ =>
      match requireJson w packagePath with
      | None => Err (VError "Error" ("Cannot load " ++ packagePath))
      | Some pkg => Ok (declaresReactVr pkg)
      end
  end.

(** ** [walkDirSync] *)

(** What [walkDirSync] returns: a path for a file, an array of paths for
    a directory. *)
Inductive walked : Type :=
| OnePath (p : string)
| Paths (l : list string).

Definition excluded (exclude : list string) (f : string) : bool :=
  existsb (String.eqb f) exclude.

(** [(acc, f) => Array.isArray(f) ? [...acc, ...f] : [...acc, f]] *)
Definition flattenStep (acc : list string) (f : walked) : list string :=
  match f with
  | Paths l => (acc ++ l)%list
  | OnePath p => (acc ++ [p])%list
  end.

(** [n] is the node that [fs.statSync(dir)] and [fs.readdirSync(dir)]
    see at [dir]; the entries of a directory are listed in their order.
    The inner loop is [.filter(...).map(...)] in one pass. *)
Fixpoint walkDirSync (dir : string) (n : Fs.node) (exclude : list string)
  : walked :=
  match n with
  | Fs.File _ => OnePath dir
  | Fs.Dir entries =>
      Paths (fold_left flattenStep
        ((fix each (es : list (string * Fs.node)) : list walked :=
            match es with
            | [] => []
            | (f, child) :: rest =>
                if excluded exclude f then each rest
                else walkDirSync (Path.join [dir; f]) child exclude :: each rest
            end) entries)
        [])
  end.

(** ** [copyDirRecursive] *)

Definition copyDirRecursive (root dir dest : string) : task :=
  Child {| file := "cp";
           args := ["-r"; dir; dest];
           cwd := root;
           inheritStdio := false |}.

(** ** [Buffer.prototype.toString] *)

(** [fs.readFile] without an encoding hands the callback the bytes of the
    file, and [data.toString()] decodes them as UTF-8; [fs.writeFile]
    encodes the string it is given as UTF-8 again.  The model keeps a
    JavaScript string as the UTF-8 bytes of its characters, so that
    [toString] is the decoder followed by the encoder: a well-formed
    sequence is kept, and every maximal ill-formed part (a byte that
    cannot start a sequence, or a sequence cut short) becomes U+FFFD,
    the bytes [EF BF BD].  The quotes, the dot, the separator and [$]
    are ASCII and no byte of a longer sequence is, so that searching the
    bytes and searching the characters agree. *)
Module Buffer.

Definition byte (c : ascii) : N := N_of_ascii c.

Definition between (lo hi : N) (c : ascii) : bool :=
  N.leb lo (byte c) && N.leb (byte c) hi.

Definition isAscii (c : ascii) : bool := N.ltb (byte c) 128.

(** U+FFFD, encoded. *)
Definition replacement : string :=
  String "239"%char (String "191"%char (String "189"%char "")).

(** How many bytes have to follow the first byte [b0] of a sequence;
    [0] for a byte that cannot start one ([80..C1] and [F5..FF]). *)
Definition needed (b0 : ascii) : nat :=
  if between 194 223 b0 then 1
  else if between 224 239 b0 then 2
  else if between 240 244 b0 then 3
  else 0.

(** The range of the second byte: narrower after [E0], [ED], [F0] and
    [F4] (no overlong form, no surrogate, nothing above U+10FFFF). *)
Definition secondLo (b0 : ascii) : N :=
  if N.eqb (byte b0) 224 then 160
  else if N.eqb (byte b0) 240 then 144
  else 128.

Definition secondHi (b0 : ascii) : N :=
  if N.eqb (byte b0) 237 then 159
  else if N.eqb (byte b0) 244 then 143
  else 191.

Definition isSecond (b0 b1 : ascii) : bool :=
  between (secondLo b0) (secondHi b0) b1.

Definition isCont (c : ascii) : bool := between 128 191 c.

(** [data.toString()], as the bytes that [fs.writeFile] writes for it. *)
Fixpoint toString (data : string) : string :=
  match data with
  | EmptyString => EmptyString
  | String b0 r0 =>
      if isAscii b0 then String b0 (toString r0)
      else
        match needed b0 with
        | O => replacement ++ toString r0
        | S n1 =>
            match r0 with
            | EmptyString => replacement
            | String b1 r1 =>
                if isSecond b0 b1 then
                  match n1 with
                  | O => String b0 (String b1 (toString r1))
                  | S n2 =>
                      match r1 with
                      | EmptyString => replacement
                      | String b2 r2 =>
                          if isCont b2 then
                            match n2 with
                            | O => String b0 (String b1 (String b2 (toString r2)))
                            | S _ =>
                                match r2 with
                                | EmptyString => replacement
                                | String b3 r3 =>
                                    if isCont b3 then
                                      String b0 (String b1 (String b2
                                        (String b3 (toString r3))))
                                    else replacement ++ toString r2
                                end
                            end
                          else replacement ++ toString r1
                      end
                  end
                else replacement ++ toString r0
            end
        end
  end.

(** The bytes are well-formed UTF-8 (table 3-7 of the Unicode
    standard). *)
Fixpoint wellFormed (data : string) : bool :=
  match data with
  | EmptyString => true
  | String b0 r0 =>
      if isAscii b0 then wellFormed r0
      else
        match needed b0, r0 with
        | 1, String b1 r1 => isSecond b0 b1 && wellFormed r1
        | 2, String b1 (String b2 r2) =>
            isSecond b0 b1 && isCont b2 && wellFormed r2
        | 3, String b1 (String b2 (String b3 r3)) =>
            isSecond b0 b1 && isCont b2 && isCont b3 && wellFormed r3
        | _, _ => false
        end
  end.

End Buffer.

(** ** [replaceBundleExtensionsInHtml] *)

(** The double quote and the single quote. *)
Definition dquote : ascii := "034"%char.
Definition squote : ascii := "039"%char.

Definition quoteChars : list ascii := [dquote; squote].

(** [/([^"'])+\.bundle([^"'])+/g] *)
Definition bundleRegex : Regex.t :=
  Regex.Cat (Regex.Plus (Regex.NoneOf quoteChars))
    (Regex.lits ".bundle" (Regex.Plus (Regex.NoneOf quoteChars))).

(** [path.sep + path.basename(p).split('.')[0] + '.bundle.js'] *)
Definition updatedPath (p : string) : string :=
  Path.sep ++ hd "" (Str.split "." (Path.basename p)) ++ ".bundle.js".

(** [bundlePaths.forEach(p => { fileData = fileData.replace(p, updatedPath) })] *)
Definition replaceAll (bundlePaths : list string) (fileData : string) : string :=
  fold_left (fun fd p => Str.replace fd p (updatedPath p)) bundlePaths fileData.

(** What the callback of [fs.readFile] does: it throws, or returns after
    asking for some writes (path and data, in order). *)
Inductive callbackResult : Type :=
| Threw (e : jsval)
| Returned (writes : list (string * string)).

Definition replaceBundleExtensionsInHtml (procCwd htmlFile : string)
    (buildDir : list string) (read : result Fs.error string) : callbackResult :=
  match read with
  | Err _ =>
      (* [reject(err)], then [data.toString()] with [data] undefined *)
      Threw (VError "TypeError" "Cannot read property 'toString' of undefined")
  | Ok data =>
      let fileData := Buffer.toString data in
      let filePath := Path.resolve procCwd (List.app buildDir [Path.basename htmlFile]) in
      match Regex.jsMatch bundleRegex fileData with
      | None =>
          (* [bundlePaths.length] with [bundlePaths] null *)
          Threw (VError "TypeError" "Cannot read property 'length' of null")
      | Some bundlePaths =>
          let early :=
            if Nat.eqb (List.length bundlePaths) 0 then [(filePath, data)] else [] in
          Returned (List.app early [(filePath, replaceAll bundlePaths fileData)])
      end
  end.

(** The callback of [fs.writeFile]: [if (err) reject(err); resolve();] *)
Definition onWritten (r : result Fs.error Fs.node) (p : Promise.state)
  : Promise.state :=
  match r with
  | Err e => Promise.resolve (Promise.reject (fsError e) p)
  | Ok _ => Promise.resolve p
  end.

Definition writeFile (w : world) (fs : Fs.node) (p data : string)
  : result Fs.error Fs.node :=
  if denied w p then Err Fs.EACCES else Fs.writeFile fs p data.

Fixpoint performWrites (w : world) (writes : list (string * string))
    (p : Promise.state) (fs : Fs.node) : Promise.state * Fs.node :=
  match writes with
  | [] => (p, fs)
  | (path, data) :: rest =>
      let r := writeFile w fs path data in
      let fs' := match r with Ok fs1 => fs1 | Err _ => fs end in
      performWrites w rest (onWritten r p) fs'
  end.

(** ** The top level of the script *)

Definition buildDirName : string := "build".

Definition nl : string := String (ascii_of_nat 10) EmptyString.

Definition notFoundMessage : string :=
  "Could not find a React VR project directory".

Definition mkdirFailedMessage : string :=
  "Failed to create '" ++ buildDirName ++ "' directory".

Definition successMessage (procCwd : string) (buildDir : list string) : string :=
  "Production versions were successfully built." ++ nl ++
  "    They can be found at " ++ Path.resolve procCwd buildDir ++ ".".

Definition failureMessage (err : jsval) : string :=
  "An error occurred during the bundling process. Exited with code " ++
  toString err ++ "." ++ nl ++
  "    " ++ nl ++
  "Look at the packager output above to see what went wrong.".

Definition walkExclude : list string :=
  ["node_modules"; "build"; "__tests__"; "static_assets"; ".babelrc";
   ".flowconfig"; ".git"; ".gitignore"; ".watchmanconfig"; "yarn.lock";
   "package.json"; "rn-cli.config.js"].

Definition staticAssetsDir : string := "static_assets".

(** *** The search for the project directory

    [while (!hasPackage(projectDir)) { ... }]; [None] when the loop is
    still running after [fuel] tests. *)

Inductive located : Type :=
| Found (projectDir : string)
| NotFound
| Thrown (e : jsval).

Fixpoint locate (fuel : nat) (w : world) (projectDir : string)
  : option located :=
  match fuel with
  | O => None
  | S fuel' =>
      match hasPackage w projectDir with
      | Err e => Some (Thrown e)
      | Ok true => Some (Found projectDir)
      | Ok false =>
          let next := Path.join [projectDir; ".."] in
          if String.eqb projectDir next then Some NotFound
          else locate fuel' w (Path.join [projectDir; ".."])
      end
  end.

(** *** The first promise: the build directory

    The promise once its executor and the callback of [fs.mkdir] have
    run, the file system and the lines printed. *)

Definition mkdir (w : world) (fs : Fs.node) (p : string)
  : result Fs.error Fs.node :=
  if denied w p then Err Fs.EACCES else Fs.mkdir fs p.

Definition ensureBuildDir (w : world) (fs : Fs.node) (buildDir : list string)
  : Promise.state * Fs.node * list string :=
  let create :=
    match mkdir w fs (Path.join buildDir) with
    | Err _ =>
        (Promise.reject (VNumber 1) Promise.Pending, fs, [mkdirFailedMessage])
    | Ok fs' => (Promise.resolve Promise.Pending, fs', [])
    end in
  match Fs.statSync fs (Path.join buildDir) with
  | Ok stat =>
      if Fs.isDirectory stat
      then (Promise.resolve Promise.Pending, fs, [])
      else create
  | Err _ => create
  end.

(** *** The handler that walks the project and starts every operation

    It returns the operations started, in the order of the array given to
    [Promise.all], or the value thrown together with the operations that
    were started before the throw. *)

(** [vrJsRegex.test(file)] for [/\.vr\.js$/] *)
Definition vrJsRegex (f : string) : bool := Str.endsWith ".vr.js" f.

Definition commandsOf (ts : list task) : list command :=
  flat_map (fun t => match t with Child c => [c] | Rewrite _ _ => [] end) ts.

Definition startBuild (w : world) (fs : Fs.node) (projectDir : string)
    (buildDir : list string) : result (jsval * list task) (list task) :=
  match Fs.statSync fs projectDir with
  | Err e => Err (fsError e, [])
  | Ok n =>
      match walkDirSync projectDir n walkExclude with
      | OnePath _ =>
          Err (VError "TypeError" "projectDirContents.find is not a function", [])
      | Paths projectDirContents =>
          let clientJsFile :=
            find (fun f => Str.includes "client.js" f) projectDirContents in
          let vrComponentFiles :=
            map (fun f =>
                   buildScript w projectDir buildDir
                     (Path.resolve (processCwd w) [projectDir; f])
                     (Path.resolve (processCwd w)
                        (List.app buildDir [Path.basenameExt f ".vr.js" ++ ".bundle.js"])))
                (filter vrJsRegex projectDirContents) in
          let htmlFiles :=
            map (fun f => Rewrite f buildDir)
                (filter (fun f => String.eqb (Path.extname f) ".html")
                        projectDirContents) in
          match clientJsFile with
          | None =>
              (* [path.resolve(undefined)] *)
              Err (VError "TypeError" "Path must be a string. Received undefined",
                   List.app vrComponentFiles htmlFiles)
          | Some client =>
              Ok (List.app vrComponentFiles (List.app htmlFiles
                  [buildScript w projectDir buildDir
                     (Path.resolve (processCwd w) [client])
                     (Path.resolve (processCwd w) (List.app buildDir ["client.bundle.js"]));
                   copyDirRecursive projectDir
                     (Path.resolve (processCwd w) [projectDir; staticAssetsDir])
                     (Path.resolve (processCwd w) (List.app buildDir [staticAssetsDir]))]))
          end
      end
  end.

(** *** Completion of one operation *)

Inductive completion : Type :=
| Settled (p : Promise.state) (fs : Fs.node)
| Uncaught (e : jsval).

Definition complete (w : world) (fs : Fs.node) (t : task) : completion :=
  match t with
  | Child c => Settled (onClose (closeCode w c) Promise.Pending) fs
  | Rewrite htmlFile buildDir =>
      match replaceBundleExtensionsInHtml (processCwd w) htmlFile buildDir
              (Fs.readFile fs htmlFile) with
      | Threw e => Uncaught e
      | Returned writes =>
          let '(p, fs') := performWrites w writes Promise.Pending fs in
          Settled p fs'
      end
  end.

(** *** [Promise.all]

    [order] lists the operations (by position in the array) in the order
    in which they complete.  The join is fulfilled once every operation
    is, and rejected by the first rejection; an exception thrown inside a
    callback is uncaught and ends the process. *)

Inductive joined : Type :=
| AllFulfilled (fs : Fs.node)
| FirstRejected (reason : jsval) (fs : Fs.node)
| Crashed (e : jsval) (fs : Fs.node)
| Waiting (fs : Fs.node).

Definition allFinished (ts : list task) (finished : list nat) : bool :=
  forallb (fun i => existsb (Nat.eqb i) finished) (seq 0 (List.length ts)).

Fixpoint settleAll (w : world) (ts : list task) (order finished : list nat)
    (fs : Fs.node) : joined :=
  if allFinished ts finished then AllFulfilled fs
  else
    match order with
    | [] => Waiting fs
    | i :: rest =>
        if existsb (Nat.eqb i) finished then settleAll w ts rest finished fs
        else
          match nth_error ts i with
          | None => settleAll w ts rest finished fs
          | Some t =>
              match complete w fs t with
              | Uncaught e => Crashed e fs
              | Settled (Promise.Rejected reason) fs' => FirstRejected reason fs'
              | Settled Promise.Fulfilled fs' =>
                  settleAll w ts rest (i :: finished) fs'
              | Settled Promise.Pending fs' => settleAll w ts rest finished fs'
              end
          end
    end.

(** *** The whole run *)

Record outcome : Type := {
  (** lines printed by [console.log], in order *)
  console : list string;
  (** exit status of the process; [None] while it is still waiting *)
  exitStatus : option Z;
  (** children spawned, in order *)
  spawned : list command;
  (** the file system as the script leaves it *)
  finalDisk : Fs.node
}.

(** The promise chain, once the project directory is known. *)
Definition build (w : world) (projectDir : string) (buildDir : list string)
    (order : list nat) : outcome :=
  let '(p, fs1, out1) := ensureBuildDir w (disk w) buildDir in
  match p with
  | Promise.Rejected reason =>
      {| console := List.app out1 [failureMessage reason];
         exitStatus := Some 1%Z; spawned := []; finalDisk := fs1 |}
  | Promise.Pending =>
      {| console := out1; exitStatus := None; spawned := []; finalDisk := fs1 |}
  | Promise.Fulfilled =>
      match startBuild w fs1 projectDir buildDir with
      | Err (e, started) =>
          {| console := List.app out1 [failureMessage e];
             exitStatus := Some 1%Z;
             spawned := commandsOf started; finalDisk := fs1 |}
      | Ok ts =>
          match settleAll w ts order [] fs1 with
          | AllFulfilled fs2 =>
              {| console := List.app out1 [successMessage (processCwd w) buildDir];
                 exitStatus := Some 0%Z;
                 spawned := commandsOf ts; finalDisk := fs2 |}
          | FirstRejected reason fs2 =>
              {| console := List.app out1 [failureMessage reason];
                 exitStatus := Some 1%Z;
                 spawned := commandsOf ts; finalDisk := fs2 |}
          | Crashed _ fs2 =>
              {| console := out1; exitStatus := Some 1%Z;
                 spawned := commandsOf ts; finalDisk := fs2 |}
          | Waiting fs2 =>
              {| console := out1; exitStatus := None;
                 spawned := commandsOf ts; finalDisk := fs2 |}
          end
      end
  end.

(** The script: [None] when the search for the project directory has not
    ended after [fuel] tests. *)
Definition main (fuel : nat) (w : world) (order : list nat) : option outcome :=
  let projectDir := processCwd w in
  let buildDir := [projectDir; buildDirName] in
  match locate fuel w projectDir with
  | None => None
  | Some NotFound =>
      Some {| console := [notFoundMessage]; exitStatus := Some 1%Z;
              spawned := []; finalDisk := disk w |}
  | Some (Thrown _) =>
      Some {| console := []; exitStatus := Some 1%Z;
              spawned := []; finalDisk := disk w |}
  | Some (Found projectDir') => Some (build w projectDir' buildDir order)
  end.

(** ** Vocabulary of the statements *)

(** A file name as [fs.readdirSync] lists it: not empty, not ["."] or
    [".."], without ["/"]. *)
Fixpoint noSlash (s : string) : bool :=
  match s with
  | EmptyString => true
  | String c s' => negb (Ascii.eqb c "/") && noSlash s'
  end.

Definition isName (f : string) : bool :=
  negb (Str.isEmpty f) && negb (Path.isDot f) && negb (Path.isDotDot f)
  && noSlash f.

(** The absolute, normalized path made of the names [names]; this is the
    form of [process.cwd()]. *)
Definition absPath (names : list string) : string :=
  "/" ++ Str.join "/" names.

(** Every entry of the tree, at every depth, carries a file name. *)
Fixpoint wfTree (n : Fs.node) : bool :=
  match n with
  | Fs.File _ => true
  | Fs.Dir entries =>
      (fix all (es : list (string * Fs.node)) : bool :=
         match es with
         | [] => true
         | (f, child) :: rest => isName f && wfTree child && all rest
         end) entries
  end.

(** The tree without the entries whose name is excluded, at every depth. *)
Fixpoint prune (exclude : list string) (n : Fs.node) : Fs.node :=
  match n with
  | Fs.File data => Fs.File data
  | Fs.Dir entries =>
      Fs.Dir
        ((fix each (es : list (string * Fs.node)) : list (string * Fs.node) :=
            match es with
            | [] => []
            | (f, child) :: rest =>
                if excluded exclude f then each rest
                else (f, prune exclude child) :: each rest
            end) entries)
  end.

Definition pathsOf (r : walked) : list string :=
  match r with
  | OnePath p => [p]
  | Paths l => l
  end.

(** [s] contains [p]: [s = a ++ p ++ b]. *)
Definition occursIn (p s : string) : Prop :=
  exists a b : string, s = a ++ p ++ b.

Definition isQuote (c : ascii) : bool := existsb (Ascii.eqb c) quoteChars.

(** The character class of the pattern: anything but a quote. *)
Definition notQuote : Regex.t := Regex.NoneOf quoteChars.

(** What the pattern asks for after its first group: the text [.bundle]
    and one or more characters of the class. *)
Definition afterGroup (s : string) : option string :=
  Regex.run (Regex.lits ".bundle" (Regex.Plus notQuote)) s Some.

(** A run of the class ends at a quote or at the end of the text. *)
Definition atBoundary (s : string) : bool :=
  match s with
  | EmptyString => true
  | String c _ => isQuote c
  end.


(** All the matches of the pattern in [s]. *)
Definition scanAll (s : string) : list string :=
  Regex.scan (S (String.length s)) bundleRegex s.

Fixpoint noQuote (s : string) : bool :=
  match s with
  | EmptyString => true
  | String c s' => negb (isQuote c) && noQuote s'
  end.

(** [p] exists and is a directory. *)
Definition isDirectoryAt (fs : Fs.node) (p : string) : bool :=
  match Fs.statSync fs p with
  | Ok n => Fs.isDirectory n
  | Err _ => false
  end.

(** The directories from [absPath names] up to the root, nearest first. *)
Fixpoint ancestors (revNames : list string) : list string :=
  match revNames with
  | [] => [absPath []]
  | _ :: up => absPath (rev revNames) :: ancestors up
  end.


(** ** A project on disk

    [/home/dev/app] holds two component entries, the client entry, one
    HTML page and a directory of static assets; the script is started in
    that directory. *)

Module Scenario.

Definition manifest : Json.value :=
  Json.Object
    [("name", Json.Text "app");
     ("dependencies",
      Json.Object [("react", Json.Text "~15.4.1");
                   ("react-vr", Json.Text "~1.0.0")])].


(** A page with two bundle references. *)
Definition indexHtml : string :=
  "<html><body><script src='./client.bundle?platform=vr'></script>" ++
  "<script>ReactVR.init('../index.vr.bundle?platform=vr&dev=true', " ++
  "document.body);</script></body></html>".

Definition indexHtmlRewritten : string :=
  "<html><body><script src='/client.bundle.js'></script>" ++
  "<script>ReactVR.init('/index.bundle.js', " ++
  "document.body);</script></body></html>".

(** A page without any bundle reference. *)
Definition plainHtml : string := "<html><body>Hello</body></html>".

Definition assets : Fs.node :=
  Fs.Dir [("chess-world.jpg", Fs.File "jpg")].

(** The project directory, with [extra] entries after the sources. *)
Definition projectWith (html : string) (extra : list (string * Fs.node))
  : Fs.node :=
  Fs.Dir
    (List.app
       [("package.json", Fs.File "{}");
        ("node_modules", Fs.Dir [("react-vr", Fs.Dir [("client.js", Fs.File "")])]);
        ("A.vr.js", Fs.File "a");
        ("B.vr.js", Fs.File "b");
        ("client.js", Fs.File "c");
        ("index.html", Fs.File html);
        ("static_assets", assets)]
       extra).

Definition rootWith (html : string) (extra : list (string * Fs.node))
  : Fs.node :=
  Fs.Dir [("home", Fs.Dir [("dev", Fs.Dir [("app", projectWith html extra)])])].

Definition project (html : string) : Fs.node := projectWith html [].

Definition root (html : string) : Fs.node := rootWith html [].

(** The disk once [build] has been created, and once the page has been
    written into it. *)
Definition rootBuilt (html : string) (built : list (string * Fs.node))
  : Fs.node :=
  rootWith html [("build", Fs.Dir built)].

Definition projectNames : list string := ["home"; "dev"; "app"].
Definition projectPath : string := "/home/dev/app".
Definition buildDir : list string := [projectPath; buildDirName].

(** The script started in the directory [startDir]. *)
Definition worldAt (startDir html : string) (codes : command -> option Z)
  : world :=
  {| processCwd := startDir;
     envCliLocation := None;
     disk := root html;
     requireJson := fun p =>
       if String.eqb p "/home/dev/app/package.json" then Some manifest
       else None;
     closeCode := codes;
     denied := fun _ => false |}.

Definition worldOf (html : string) (codes : command -> option Z) : world :=
  worldAt projectPath html codes.

(** The bundler call for the entry [name]. *)
Definition bundleCommand (name : string) : command :=
  {| file := "node";
     args := ["/home/dev/app/node_modules/react-native/local-cli/cli.js";
              "bundle";
              "--entry-file"; "/home/dev/app/" ++ name ++
                              (if String.eqb name "client" then ".js" else ".vr.js");
              "--platform"; "vr";
              "--bundle-output"; "/home/dev/app/build/" ++ name ++ ".bundle.js";
              "--dev"; "false";
              "--assets-dest"; "/home/dev/app,build"];
     cwd := projectPath;
     inheritStdio := true |}.

Definition copyCommand : command :=
  {| file := "cp";
     args := ["-r"; "/home/dev/app/static_assets";
              "/home/dev/app/build/static_assets"];
     cwd := projectPath;
     inheritStdio := false |}.

(** The children of a run, in the order in which they are spawned. *)
Definition commands : list command :=
  [bundleCommand "A"; bundleCommand "B"; bundleCommand "client"; copyCommand].

(** The operations given to [Promise.all], in the order of the array. *)
Definition tasks : list task :=
  [Child (bundleCommand "A"); Child (bundleCommand "B");
   Rewrite "/home/dev/app/index.html" buildDir;
   Child (bundleCommand "client"); Child copyCommand].

(** A project without any file whose path contains [client.js]. *)
Definition projectNoClient : Fs.node :=
  Fs.Dir [("package.json", Fs.File "{}");
          ("A.vr.js", Fs.File "a");
          ("index.html", Fs.File indexHtml);
          ("build", Fs.Dir [])].

Definition rootNoClient : Fs.node :=
  Fs.Dir [("home", Fs.Dir [("dev", Fs.Dir [("app", projectNoClient)])])].

Definition worldNoClient (codes : command -> option Z) : world :=
  {| processCwd := projectPath;
     envCliLocation := None;
     disk := rootNoClient;
     requireJson := fun p =>
       if String.eqb p "/home/dev/app/package.json" then Some manifest
       else None;
     closeCode := codes;
     denied := fun _ => false |}.

End Scenario.


(** ** Further vocabulary *)

(** [s] holds no character [c]. *)
Fixpoint noChar (c : ascii) (s : string) : bool :=
  match s with
  | EmptyString => true
  | String a s' => negb (Ascii.eqb a c) && noChar c s'
  end.

Fixpoint distinct (names : list string) : bool :=
  match names with
  | [] => true
  | f :: rest => negb (existsb (String.eqb f) rest) && distinct rest
  end.

(** In every directory of the tree the entries carry distinct names. *)
Fixpoint uniqueTree (n : Fs.node) : bool :=
  match n with
  | Fs.File _ => true
  | Fs.Dir entries =>
      distinct (map fst entries) &&
      (fix all (es : list (string * Fs.node)) : bool :=
         match es with
         | [] => true
         | (_, child) :: rest => uniqueTree child && all rest
         end) entries
  end.

(** The path [p] lies in the directory named by [dirNames] or below it. *)
Definition isBelow (dirNames : list string) (p : string) : Prop :=
  exists rel : list string, Fs.segments p = (dirNames ++ rel)%list.

(** The disk a join ends on. *)
Definition diskOf (j : joined) : Fs.node :=
  match j with
  | AllFulfilled fs => fs
  | FirstRejected _ fs => fs
  | Crashed _ fs => fs
  | Waiting fs => fs
  end.


(** No byte of [s] is ASCII. *)
Fixpoint high (s : string) : bool :=
  match s with
  | EmptyString => true
  | String c s' => negb (Buffer.isAscii c) && high s'
  end.

(** Somewhere in [s] the text [.bundle] stands between two characters
    that are not quotes: what the pattern needs in order to match. *)
Definition holdsReference (s : string) : Prop :=
  exists (x : string) (a c : ascii) (y : string),
    s = x ++ String a (".bundle" ++ String c y)
    /\ isQuote a = false /\ isQuote c = false.

(** The manifest of [dir] declares the dependency: [package.json] is
    there and loads as an object whose [dependencies] is an object with
    a truthy [react-vr]. *)
Definition manifestDeclares (w : world) (dir : string) : Prop :=
  exists (n : Fs.node) (fields deps : list (string * Json.value))
         (v : Json.value),
    Fs.statSync (disk w) (Path.join [dir; "package.json"]) = Ok n /\
    requireJson w (Path.join [dir; "package.json"]) = Some (Json.Object fields) /\
    Json.assoc "dependencies" fields = Some (Json.Object deps) /\
    Json.assoc "react-vr" deps = Some v /\ Json.truthy (Some v) = true.

(** The manifest of [dir], when there is one, can be loaded by
    [require]. *)
Definition manifestLoads (w : world) (dir : string) : Prop :=
  forall n : Fs.node,
    Fs.statSync (disk w) (Path.join [dir; "package.json"]) = Ok n ->
    exists pkg : Json.value,
      requireJson w (Path.join [dir; "package.json"]) = Some pkg.

(** The project of the scenario with a directory [lib] whose
    [package.json] is cut short, and the script started in [lib]. *)
Definition brokenBelow : world :=
  {| processCwd := "/home/dev/app/lib";
     envCliLocation := None;
     disk := Scenario.rootWith Scenario.indexHtml
               [("lib", Fs.Dir [("package.json", Fs.File "{")])];
     requireJson := fun p =>
       if String.eqb p "/home/dev/app/package.json" then Some Scenario.manifest
       else None;
     closeCode := fun _ => Some 0%Z;
     denied := fun _ => false |}.
(* ================================================================== *)
(** * Part II: properties *)
(* ================================================================== *)

(** ** Strings *)

Section StringFacts.

Lemma sapp_assoc (a b c : string) : (a ++ b) ++ c = a ++ (b ++ c).
Proof. induction a as [|x a IH]; simpl; [reflexivity|now rewrite IH]. Qed.

Lemma sapp_nil_r (a : string) : a ++ "" = a.
Proof. induction a as [|x a IH]; simpl; [reflexivity|now rewrite IH]. Qed.

Lemma slength_app (a b : string) :
  String.length (a ++ b) = String.length a + String.length b.
Proof. induction a as [|x a IH]; simpl; [reflexivity|now rewrite IH]. Qed.

Lemma isEmpty_true (s : string) : Str.isEmpty s = true <-> s = "".
Proof. destruct s; simpl; split; intro H; congruence. Qed.

Lemma isEmpty_false (s : string) : Str.isEmpty s = false <-> s <> "".
Proof. destruct s; simpl; split; intro H; congruence. Qed.

Lemma take_app_length (a b : string) : Str.take (String.length a) (a ++ b) = a.
Proof. induction a as [|x a IH]; simpl; [now destruct b|now rewrite IH]. Qed.

Lemma drop_app_length (a b : string) : Str.drop (String.length a) (a ++ b) = b.
Proof. induction a as [|x a IH]; simpl; [reflexivity|exact IH]. Qed.

Lemma startsWith_app (p s : string) : Str.startsWith p (p ++ s) = true.
Proof.
  induction p as [|x p IH]; simpl; [reflexivity|].
  now rewrite Ascii.eqb_refl, IH.
Qed.

Lemma startsWith_inv (p s : string) :
  Str.startsWith p s = true -> exists r, s = p ++ r.
Proof.
  revert s. induction p as [|x p IH]; intros s H.
  - now exists s.
  - destruct s as [|y s]; simpl in H; [discriminate|].
    apply andb_true_iff in H as [Hxy Hp].
    apply Ascii.eqb_eq in Hxy. subst y.
    destruct (IH _ Hp) as [r ->]. now exists r.
Qed.

(** [indexOf] finds a position exactly when the text occurs. *)
Lemma includes_occursIn (p s : string) :
  Str.includes p s = true <-> occursIn p s.
Proof.
  unfold Str.includes, occursIn. split.
  - induction s as [|c s IH]; simpl.
    + destruct (Str.startsWith p "") eqn:E; [|discriminate].
      intros _. destruct (startsWith_inv _ _ E) as [r Hr]. now exists "", r.
    + destruct (Str.startsWith p (String c s)) eqn:E.
      * intros _. destruct (startsWith_inv _ _ E) as [r Hr]. now exists "", r.
      * destruct (Str.indexOf p s) eqn:Ei; simpl; [|discriminate].
        intros _. destruct (IH eq_refl) as (a & b & ->).
        now exists (String c a), b.
  - intros (a & b & ->). induction a as [|c a IH]; simpl.
    + assert (E : Str.indexOf p (p ++ b) = Some 0).
      { destruct (p ++ b) eqn:Epb; simpl; rewrite <- Epb, startsWith_app;
          reflexivity. }
      now rewrite E.
    + destruct (Str.startsWith p (String c (a ++ p ++ b))); [reflexivity|].
      destruct (Str.indexOf p (a ++ p ++ b)); [reflexivity|discriminate].
Qed.

Lemma split_noSlash (x : string) :
  noSlash x = true -> Str.split "/" x = [x].
Proof.
  induction x as [|c x IH]; simpl; [reflexivity|].
  intro H. apply andb_true_iff in H as [Hc Hx].
  apply negb_true_iff in Hc. rewrite Hc, (IH Hx). reflexivity.
Qed.

Lemma split_app_sep (x r : string) :
  noSlash x = true ->
  Str.split "/" (x ++ String "/" r) = x :: Str.split "/" r.
Proof.
  induction x as [|c x IH]; simpl; [reflexivity|].
  intro H. apply andb_true_iff in H as [Hc Hx].
  apply negb_true_iff in Hc. rewrite Hc, (IH Hx). reflexivity.
Qed.

Lemma join_cons2 (sep x y : string) (l : list string) :
  Str.join sep (x :: y :: l) = x ++ sep ++ Str.join sep (y :: l).
Proof. reflexivity. Qed.

Lemma join_snoc (sep x : string) (l : list string) :
  l <> [] -> Str.join sep (l ++ [x]) = Str.join sep l ++ sep ++ x.
Proof.
  induction l as [|a l IH]; [congruence|]. intros _.
  destruct l as [|b l]; [reflexivity|].
  change ((a :: b :: l) ++ [x])%list with (a :: (b :: l) ++ [x])%list.
  change (Str.join sep (a :: (b :: l) ++ [x])%list)
    with (a ++ sep ++ Str.join sep ((b :: l) ++ [x])%list).
  rewrite IH by congruence. rewrite join_cons2, !sapp_assoc. reflexivity.
Qed.

Lemma split_join_app (names : list string) (r : string) :
  Forall (fun f => noSlash f = true) names -> names <> [] ->
  Str.split "/" (Str.join "/" names ++ String "/" r)
  = (names ++ Str.split "/" r)%list.
Proof.
  induction names as [|x names IH]; [congruence|]. intros Hall _.
  inversion Hall as [|? ? Hx Hrest]; subst.
  destruct names as [|y names].
  - simpl. now apply split_app_sep.
  - rewrite join_cons2, !sapp_assoc.
    change ("/" ++ (Str.join "/" (y :: names) ++ String "/" r))
      with (String "/" (Str.join "/" (y :: names) ++ String "/" r)).
    rewrite (split_app_sep _ _ Hx), IH; [reflexivity|assumption|congruence].
Qed.

Lemma hasTrailingSep_app (x f : string) :
  f <> "" -> Path.hasTrailingSep (x ++ f) = Path.hasTrailingSep f.
Proof.
  intro Hf. induction x as [|c x IH]; [reflexivity|].
  simpl. destruct (x ++ f) eqn:E; [|exact IH].
  destruct x; simpl in E; [congruence|discriminate].
Qed.

Lemma hasTrailingSep_noSlash (f : string) :
  noSlash f = true -> Path.hasTrailingSep f = false.
Proof.
  induction f as [|c f IH]; [reflexivity|].
  simpl. intro H. apply andb_true_iff in H as [Hc Hf].
  destruct f; [now apply negb_true_iff in Hc|now apply IH].
Qed.

End StringFacts.

(** ** Paths *)

Section PathFacts.

Lemma isName_parts (f : string) :
  isName f = true ->
  Str.isEmpty f = false /\ Path.isDot f = false /\ Path.isDotDot f = false
  /\ noSlash f = true.
Proof.
  unfold isName. intro H.
  repeat (apply andb_true_iff in H as [H ?]).
  repeat split; try (apply negb_true_iff); assumption.
Qed.

Lemma normalizeStep_name (b : bool) (kept : list string) (f : string) :
  isName f = true -> Path.normalizeStep b kept f = f :: kept.
Proof.
  intro H. destruct (isName_parts _ H) as (He & Hd & Hdd & _).
  unfold Path.normalizeStep. now rewrite He, Hd, Hdd.
Qed.

Lemma fold_normalizeStep_names (b : bool) (names kept : list string) :
  Forall (fun f => isName f = true) names ->
  fold_left (Path.normalizeStep b) names kept = (rev names ++ kept)%list.
Proof.
  intro H. revert kept. induction H as [|f names Hf _ IH]; intro kept.
  - reflexivity.
  - simpl. rewrite (normalizeStep_name _ _ _ Hf), IH, <- app_assoc. reflexivity.
Qed.

Lemma Forall_isName_noSlash (names : list string) :
  Forall (fun f => isName f = true) names ->
  Forall (fun f => noSlash f = true) names.
Proof.
  apply Forall_impl. intros f H. now destruct (isName_parts _ H) as (_ & _ & _ & ?).
Qed.

(** The segments of [absPath names ++ "/" ++ f], once the empty ones
    are dropped by [normalizeStep], are [names] followed by [f]. *)
Lemma fold_abs_join (names : list string) (f : string) (b : bool) :
  Forall (fun g => isName g = true) names -> noSlash f = true ->
  fold_left (Path.normalizeStep b)
    (Str.split "/" (absPath names ++ "/" ++ f)) []
  = Path.normalizeStep b (rev names) f.
Proof.
  intros Hn Hf. unfold absPath.
  change (("/" ++ Str.join "/" names) ++ "/" ++ f)
    with (String "/" (Str.join "/" names ++ String "/" f)).
  cbn [Str.split]. rewrite Ascii.eqb_refl.
  destruct names as [|x names].
  - simpl. rewrite (split_noSlash _ Hf). reflexivity.
  - rewrite split_join_app;
      [|now apply Forall_isName_noSlash|congruence].
    rewrite (split_noSlash _ Hf). cbn [fold_left].
    change (Path.normalizeStep b [] "") with (@nil string).
    rewrite fold_left_app, (fold_normalizeStep_names _ _ _ Hn), app_nil_r.
    reflexivity.
Qed.

Lemma join_abs (names : list string) (f : string) :
  Forall (fun g => isName g = true) names ->
  noSlash f = true -> f <> "" ->
  Path.join [absPath names; f]
  = "/" ++ Str.join "/" (rev (Path.normalizeStep false (rev names) f)).
Proof.
  intros Hn Hf Hne. unfold Path.join.
  assert (Hf' : Str.isEmpty f = false) by now apply isEmpty_false.
  cbn [filter absPath Str.isEmpty negb append]. rewrite Hf'. cbn [negb].
  change (Str.join "/" [String "/" (Str.join "/" names); f])
    with (absPath names ++ "/" ++ f).
  unfold Path.normalize.
  assert (Htr : Path.hasTrailingSep (absPath names ++ "/" ++ f) = false).
  { rewrite <- sapp_assoc. rewrite (hasTrailingSep_app _ _ Hne).
    now apply hasTrailingSep_noSlash. }
  rewrite Htr. unfold Path.normalizeString.
  change (Path.isAbsolute (absPath names ++ "/" ++ f)) with true.
  change (Str.isEmpty (absPath names ++ "/" ++ f)) with false.
  cbn [negb]. rewrite (fold_abs_join _ _ false Hn Hf).
  rewrite !andb_false_r. reflexivity.
Qed.

(** [path.join(dir, f)] below a normalized absolute directory. *)
Lemma join_abs_name (names : list string) (f : string) :
  Forall (fun g => isName g = true) names -> isName f = true ->
  Path.join [absPath names; f] = absPath (names ++ [f]).
Proof.
  intros Hn Hf. destruct (isName_parts _ Hf) as (He & _ & _ & Hs).
  rewrite join_abs; [|assumption|assumption|now apply isEmpty_false].
  rewrite (normalizeStep_name _ _ _ Hf). simpl. now rewrite rev_involutive.
Qed.

(** [path.join(dir, '..')]: the parent, and the root is its own
    parent. *)
Lemma join_abs_parent (x : string) (up : list string) :
  Forall (fun g => isName g = true) (x :: up) ->
  Path.join [absPath (rev (x :: up)); ".."] = absPath (rev up).
Proof.
  intro Hn. inversion Hn as [|? ? Hx Hup]; subst.
  rewrite join_abs; [|now apply Forall_rev|reflexivity|discriminate].
  rewrite rev_involutive. unfold Path.normalizeStep.
  cbn [Str.isEmpty Path.isDot Path.isDotDot String.eqb Ascii.eqb Bool.eqb orb].
  destruct (isName_parts _ Hx) as (_ & _ & Hdd & _).
  rewrite Hdd. reflexivity.
Qed.

Lemma join_root_parent : Path.join [absPath []; ".."] = absPath [].
Proof. reflexivity. Qed.

Lemma absPath_parent_neq (x : string) (up : list string) :
  isName x = true -> absPath (rev (x :: up)) <> absPath (rev up).
Proof.
  intros Hx Heq. destruct (isName_parts _ Hx) as (He & _).
  apply (f_equal String.length) in Heq. unfold absPath in Heq.
  simpl in Heq. destruct (rev up) as [|y l] eqn:E.
  - simpl in Heq. destruct x; [discriminate|simpl in Heq; lia].
  - rewrite join_snoc in Heq by congruence.
    rewrite !slength_app in Heq. simpl in Heq. lia.
Qed.

End PathFacts.

(** ** The bundle invoker and the code of the [close] event *)

Lemma onClose_pending (code : option Z) :
  onClose code Promise.Pending =
  match code with
  | Some 0%Z => Promise.Fulfilled
  | Some c => Promise.Rejected (VNumber c)
  | None => Promise.Rejected VNull
  end.
Proof.
  destruct code as [c|]; [|reflexivity].
  destruct c; reflexivity.
Qed.

Lemma onClose_fulfilled_iff (code : option Z) :
  onClose code Promise.Pending = Promise.Fulfilled <-> code = Some 0%Z.
Proof.
  rewrite onClose_pending. split.
  - destruct code as [[| |]|]; intro H; try discriminate H; reflexivity.
  - intros ->. reflexivity.
Qed.

Lemma onClose_rejected (c : Z) :
  c <> 0%Z -> onClose (Some c) Promise.Pending = Promise.Rejected (VNumber c).
Proof.
  intro Hc. rewrite onClose_pending. destruct c; [contradiction|reflexivity|reflexivity].
Qed.

(** C5. The promise of [buildScript] is fulfilled exactly when the child
    closes with code 0; with any other code [c] it is rejected with [c]
    itself (the later [resolve()] changes nothing). *)
Theorem buildScript_settles_by_exit_code :
  forall (w : world) (fs : Fs.node) (root input output : string)
         (buildDir : list string) (cmd : command),
    buildScript w root buildDir input output = Child cmd ->
    (complete w fs (buildScript w root buildDir input output)
       = Settled Promise.Fulfilled fs
       <-> closeCode w cmd = Some 0%Z)
    /\ (forall c : Z, c <> 0%Z -> closeCode w cmd = Some c ->
          complete w fs (buildScript w root buildDir input output)
          = Settled (Promise.Rejected (VNumber c)) fs).
Proof.
  intros w fs root input output buildDir cmd Hcmd. rewrite Hcmd. split.
  - simpl. split.
    + intro H. apply onClose_fulfilled_iff. congruence.
    + intro H. rewrite H. reflexivity.
  - intros c Hc Hcode. simpl. rewrite Hcode, (onClose_rejected _ Hc). reflexivity.
Qed.

Lemma buildScript_settles_by_exit_code_witness :
  let w := Scenario.worldOf Scenario.indexHtml (fun _ => Some 127%Z) in
  let cmd := Scenario.bundleCommand "A" in
  buildScript w Scenario.projectPath Scenario.buildDir
    "/home/dev/app/A.vr.js" "/home/dev/app/build/A.bundle.js" = Child cmd
  /\ ((complete w (disk w)
         (buildScript w Scenario.projectPath Scenario.buildDir
            "/home/dev/app/A.vr.js" "/home/dev/app/build/A.bundle.js")
       = Settled Promise.Fulfilled (disk w) <-> closeCode w cmd = Some 0%Z)
      /\ (forall c : Z, c <> 0%Z -> closeCode w cmd = Some c ->
            complete w (disk w)
              (buildScript w Scenario.projectPath Scenario.buildDir
                 "/home/dev/app/A.vr.js" "/home/dev/app/build/A.bundle.js")
            = Settled (Promise.Rejected (VNumber c)) (disk w))).
Proof.
  intros w cmd. split; [reflexivity|].
  apply (buildScript_settles_by_exit_code w (disk w) Scenario.projectPath
           "/home/dev/app/A.vr.js" "/home/dev/app/build/A.bundle.js"
           Scenario.buildDir cmd).
  reflexivity.
Defined.

(** ** The directory walk on a file and on a directory *)

Lemma fold_flattenStep (rs : list walked) (acc : list string) :
  fold_left flattenStep rs acc = (acc ++ flat_map pathsOf rs)%list.
Proof.
  revert acc. induction rs as [|r rs IH]; intro acc; simpl.
  - now rewrite app_nil_r.
  - rewrite IH. destruct r; simpl; now rewrite <- app_assoc.
Qed.

(** The body of [walkDirSync] on a directory, as the source writes it:
    filter, map, reduce. *)
Lemma walkDirSync_dir (dir : string) (entries : list (string * Fs.node))
    (exclude : list string) :
  walkDirSync dir (Fs.Dir entries) exclude =
  Paths (fold_left flattenStep
           (map (fun e => walkDirSync (Path.join [dir; fst e]) (snd e) exclude)
                (filter (fun e => negb (excluded exclude (fst e))) entries))
           []).
Proof.
  simpl. do 2 f_equal.
  induction entries as [|[f child] rest IH]; simpl; [reflexivity|].
  destruct (excluded exclude f); simpl; [exact IH|]. now rewrite IH.
Qed.

(** On a directory: the paths found under the entries that are not
    excluded, in order. *)
Lemma walkDirSync_dir_flat (dir : string) (entries : list (string * Fs.node))
    (exclude : list string) :
  walkDirSync dir (Fs.Dir entries) exclude =
  Paths (flat_map
           (fun e => pathsOf (walkDirSync (Path.join [dir; fst e])
                                          (snd e) exclude))
           (filter (fun e => negb (excluded exclude (fst e))) entries)).
Proof.
  rewrite walkDirSync_dir, fold_flattenStep. simpl.
  now rewrite flat_map_concat_map, map_map, <- flat_map_concat_map.
Qed.

(** C10. Called on a file, [walkDirSync] returns that path itself, not an
    array; called on a directory it returns the array of the paths found
    under its entries that are not excluded, flattened. *)
Theorem walkDirSync_file_returns_path :
  forall (dir : string) (exclude : list string),
    (forall data : string,
        walkDirSync dir (Fs.File data) exclude = OnePath dir)
    /\ (forall entries : list (string * Fs.node),
           walkDirSync dir (Fs.Dir entries) exclude =
           Paths (flat_map
                    (fun e => pathsOf (walkDirSync (Path.join [dir; fst e])
                                                   (snd e) exclude))
                    (filter (fun e => negb (excluded exclude (fst e))) entries))).
Proof.
  intros dir exclude. split.
  - intro data. reflexivity.
  - intro entries. apply walkDirSync_dir_flat.
Qed.

(** ** The package manifest and the search for the project directory *)

Lemma declaresReactVr_inv (pkg : Json.value) :
  declaresReactVr pkg = true ->
  exists fields deps v,
    pkg = Json.Object fields /\
    Json.assoc "dependencies" fields = Some (Json.Object deps) /\
    Json.assoc "react-vr" deps = Some v /\ Json.truthy (Some v) = true.
Proof.
  unfold declaresReactVr. intro H.
  apply andb_true_iff in H as [_ H].
  destruct pkg as [| | | | |fields]; simpl in H; try discriminate.
  destruct (Json.assoc "dependencies" fields) as [deps|] eqn:Ed; [|discriminate].
  apply andb_true_iff in H as [_ H].
  destruct deps as [| | | | |dfields]; simpl in H; try discriminate.
  destruct (Json.assoc "react-vr" dfields) as [v|] eqn:Ev; [|discriminate].
  now exists fields, dfields, v.
Qed.

Lemma hasPackage_false_step (w : world) (dir : string) (fuel : nat) :
  hasPackage w dir = Ok false ->
  Path.join [dir; ".."] <> dir ->
  locate (S fuel) w dir = locate fuel w (Path.join [dir; ".."]).
Proof.
  intros Hp Hneq. simpl. rewrite Hp.
  destruct (String.eqb_spec dir (Path.join [dir; ".."])) as [E|_]; [|reflexivity].
  now elim Hneq.
Qed.


Lemma declaresReactVr_intro (fields deps : list (string * Json.value))
    (v : Json.value) :
  Json.assoc "dependencies" fields = Some (Json.Object deps) ->
  Json.assoc "react-vr" deps = Some v ->
  declaresReactVr (Json.Object fields) = Json.truthy (Some v).
Proof.
  intros Hd Hv. unfold declaresReactVr. cbn [Json.truthy Json.get andb].
  rewrite Hd. cbn [Json.truthy Json.get andb]. now rewrite Hv.
Qed.

Lemma locate_first_decisive (w : world) (revNames : list string) :
  Forall (fun f => isName f = true) revNames ->
  forall (fuel : nat) (before after : list string) (dir : string),
    List.length revNames < fuel ->
    ancestors revNames = (before ++ dir :: after)%list ->
    (forall d, In d before -> hasPackage w d = Ok false) ->
    locate fuel w (absPath (rev revNames)) =
    match hasPackage w dir with
    | Ok true => Some (Found dir)
    | Err e => Some (Thrown e)
    | Ok false =>
        match after with
        | [] => Some NotFound
        | _ :: _ => locate (fuel - S (List.length before)) w
                      (Path.join [dir; ".."])
        end
    end.
Proof.
  induction 1 as [|x up Hx Hup IH]; intros fuel before after dir Hfuel Ha Hbefore.
  - destruct fuel as [|fuel]; [inversion Hfuel|].
    destruct before as [|b before].
    + cbn [ancestors List.app] in Ha. injection Ha as <- <-.
      change (rev []) with (@nil string). cbn [locate].
      destruct (hasPackage w (absPath [])) as [[|]|e]; reflexivity.
    + cbn [ancestors List.app] in Ha. injection Ha as _ Ha.
      now destruct before.
  - destruct fuel as [|fuel]; [inversion Hfuel|].
    simpl in Hfuel. apply PeanoNat.lt_S_n in Hfuel.
    assert (Hstep : hasPackage w (absPath (rev (x :: up))) = Ok false ->
                    locate (S fuel) w (absPath (rev (x :: up)))
                    = locate fuel w (absPath (rev up))).
    { intro Hb. rewrite <- (join_abs_parent x up) by now constructor.
      apply hasPackage_false_step; [exact Hb|].
      rewrite join_abs_parent by now constructor.
      intro E. now apply (absPath_parent_neq x up Hx). }
    set (here := absPath (rev (x :: up))) in *.
    change (ancestors (x :: up)) with (here :: ancestors up) in Ha.
    destruct before as [|b before].
    + cbn [List.app] in Ha. injection Ha as Hdir Hafter. subst dir after.
      destruct (hasPackage w here) as [[|]|e] eqn:Hb.
      * cbn [locate]. now rewrite Hb.
      * rewrite (Hstep eq_refl). unfold here.
        rewrite (join_abs_parent x up) by now constructor.
        cbn [List.length Nat.sub]. rewrite Nat.sub_0_r.
        destruct up; reflexivity.
      * cbn [locate]. now rewrite Hb.
    + cbn [List.app] in Ha. injection Ha as Hb Ha. subst b.
      rewrite (Hstep (Hbefore _ (or_introl eq_refl))).
      rewrite (IH fuel before after dir Hfuel Ha);
        [|intros d Hd; apply Hbefore; now right].
      reflexivity.
Qed.

Lemma manifestDeclares_hasPackage (w : world) (dir : string) :
  manifestDeclares w dir <-> hasPackage w dir = Ok true.
Proof.
  unfold manifestDeclares, hasPackage. split.
  - intros (n & fields & deps & v & -> & -> & Hd & Hv & Ht).
    now rewrite (declaresReactVr_intro _ _ _ Hd Hv), Ht.
  - destruct (Fs.statSync (disk w) (Path.join [dir; "package.json"])) as [n|e];
      [|discriminate].
    destruct (requireJson w (Path.join [dir; "package.json"])) as [pkg|];
      [|discriminate].
    intro H. injection H as H.
    destruct (declaresReactVr_inv _ H) as (fields & deps & v & -> & Hd & Hv & Ht).
    now exists n, fields, deps, v.
Qed.

Lemma hasPackage_not_declared (w : world) (dir : string) :
  manifestLoads w dir -> ~ manifestDeclares w dir -> hasPackage w dir = Ok false.
Proof.
  intros Hl Hn. destruct (hasPackage w dir) as [[|]|e] eqn:E.
  - elim Hn. now apply manifestDeclares_hasPackage.
  - reflexivity.
  - unfold hasPackage in E.
    destruct (Fs.statSync (disk w) (Path.join [dir; "package.json"])) as [n|e'] eqn:Es;
      [|discriminate E].
    destruct (Hl n Es) as [pkg Hp]. rewrite Hp in E. discriminate E.
Qed.

(** Either every directory of a list fails the test, or there is a first
    one that does not. *)
Lemma first_decisive (w : world) (l : list string) :
  (forall d, In d l -> hasPackage w d = Ok false)
  \/ exists (before after : list string) (dir : string),
       l = (before ++ dir :: after)%list
       /\ (forall d, In d before -> hasPackage w d = Ok false)
       /\ hasPackage w dir <> Ok false.
Proof.
  induction l as [|x l [Hall|(before & after & dir & -> & Hb & Hd)]].
  - left. intros d [].
  - destruct (hasPackage w x) as [[|]|e] eqn:E.
    + right. exists [], l, x. repeat split; [intros d []|congruence].
    + left. intros d [<-|Hd]; [exact E|now apply Hall].
    + right. exists [], l, x. repeat split; [intros d []|congruence].
  - destruct (hasPackage w x) as [[|]|e] eqn:E.
    + right. exists [], (before ++ dir :: after)%list, x.
      repeat split; [intros d []|congruence].
    + right. exists (x :: before), after, dir. repeat split; [|exact Hd].
      intros d [<-|H]; [exact E|now apply Hb].
    + right. exists [], (before ++ dir :: after)%list, x.
      repeat split; [intros d []|congruence].
Qed.

Lemma ancestors_last (revNames : list string) :
  exists before : list string, ancestors revNames = (before ++ [absPath []])%list.
Proof.
  induction revNames as [|x up [before E]].
  - now exists [].
  - exists (absPath (rev (x :: up)) :: before). cbn [ancestors]. now rewrite E.
Qed.

(** The search by cases on the tests of the ancestors. *)
Lemma locate_cases (w : world) (names : list string) (fuel : nat) :
  Forall (fun f => isName f = true) names ->
  List.length names < fuel ->
  ((forall d, In d (ancestors (rev names)) -> hasPackage w d = Ok false)
   /\ locate fuel w (absPath names) = Some NotFound)
  \/ exists (before after : list string) (dir : string),
       ancestors (rev names) = (before ++ dir :: after)%list
       /\ (forall d, In d before -> hasPackage w d = Ok false)
       /\ ((hasPackage w dir = Ok true
            /\ locate fuel w (absPath names) = Some (Found dir))
           \/ exists e, hasPackage w dir = Err e
                        /\ locate fuel w (absPath names) = Some (Thrown e)).
Proof.
  intros Hnames Hfuel.
  assert (Hrev : Forall (fun f => isName f = true) (rev names))
    by now apply Forall_rev.
  assert (Hlen : List.length (rev names) < fuel) by now rewrite length_rev.
  destruct (first_decisive w (ancestors (rev names)))
    as [Hall|(before & after & dir & Ha & Hb & Hd)].
  - left. split; [exact Hall|].
    destruct (ancestors_last (rev names)) as [before Ha].
    pose proof (locate_first_decisive w (rev names) Hrev fuel before []
                  (absPath []) Hlen Ha) as H.
    rewrite rev_involutive in H. rewrite H.
    + rewrite (Hall (absPath [])); [reflexivity|].
      rewrite Ha. apply in_or_app. right. now left.
    + intros d Hin. apply Hall. rewrite Ha. apply in_or_app. now left.
  - right. exists before, after, dir. split; [exact Ha|]. split; [exact Hb|].
    pose proof (locate_first_decisive w (rev names) Hrev fuel before after dir
                  Hlen Ha Hb) as H.
    rewrite rev_involutive in H.
    destruct (hasPackage w dir) as [[|]|e]; [now left|congruence|].
    right. now exists e.
Qed.

(** C3 (amended). Started in an absolute directory, the search ends
    within one test per ancestor.  When it returns a directory, that is
    the nearest ancestor, the start included, whose manifest declares the
    dependency; when it reports that there is none, no ancestor up to
    the root declares it.  It does return the nearest declaring ancestor
    provided every manifest met before it can be loaded, and it does
    print the message and end the process with status 1 provided no
    manifest up to the root declares the dependency and each one that is
    there can be loaded. *)
Theorem locate_returns_nearest_ancestor :
  forall (w : world) (names : list string) (fuel : nat) (order : list nat),
    processCwd w = absPath names ->
    Forall (fun f => isName f = true) names ->
    List.length names < fuel ->
    (exists r : located, locate fuel w (processCwd w) = Some r)
    /\ (forall dir : string,
           locate fuel w (processCwd w) = Some (Found dir) ->
           exists before after : list string,
             ancestors (rev names) = (before ++ dir :: after)%list
             /\ manifestDeclares w dir
             /\ forall d, In d before -> ~ manifestDeclares w d)
    /\ (locate fuel w (processCwd w) = Some NotFound ->
        forall d, In d (ancestors (rev names)) -> ~ manifestDeclares w d)
    /\ (forall (before after : list string) (dir : string),
           ancestors (rev names) = (before ++ dir :: after)%list ->
           (forall d, In d before -> manifestLoads w d /\ ~ manifestDeclares w d) ->
           manifestDeclares w dir ->
           locate fuel w (processCwd w) = Some (Found dir))
    /\ ((forall d, In d (ancestors (rev names)) ->
           manifestLoads w d /\ ~ manifestDeclares w d) ->
        locate fuel w (processCwd w) = Some NotFound
        /\ main fuel w order
           = Some {| console := [notFoundMessage]; exitStatus := Some 1%Z;
                     spawned := []; finalDisk := disk w |}).
Proof.
  intros w names fuel order Hcwd Hnames Hfuel. rewrite Hcwd.
  assert (Hrev : Forall (fun f => isName f = true) (rev names))
    by now apply Forall_rev.
  assert (Hlen : List.length (rev names) < fuel) by now rewrite length_rev.
  assert (Hfalse : forall d, hasPackage w d = Ok false -> ~ manifestDeclares w d).
  { intros d Hd Hdecl. apply manifestDeclares_hasPackage in Hdecl. congruence. }
  pose proof (locate_cases w names fuel Hnames Hfuel) as Hcases.
  split; [|split; [|split; [|split]]].
  - destruct Hcases as [[_ ->]|(b & a & d & _ & _ & [[_ ->]|(e & _ & ->)])];
      eexists; reflexivity.
  - intros dir Hloc.
    destruct Hcases as [[_ H]|(b & a & d & Ha & Hb & [[Ht H]|(e & _ & H)])];
      rewrite H in Hloc; try discriminate Hloc.
    injection Hloc as <-. exists b, a. split; [exact Ha|]. split.
    + now apply manifestDeclares_hasPackage.
    + intros x Hx. apply Hfalse. now apply Hb.
  - intros Hloc x Hx.
    destruct Hcases as [[Hall _]|(b & a & d & _ & _ & [[_ H]|(e & _ & H)])];
      try (rewrite H in Hloc; discriminate Hloc).
    apply Hfalse. now apply Hall.
  - intros before after dir Ha Hbefore Hdir.
    pose proof (locate_first_decisive w (rev names) Hrev fuel before after dir
                  Hlen Ha) as H.
    rewrite rev_involutive in H. rewrite H.
    + apply manifestDeclares_hasPackage in Hdir. now rewrite Hdir.
    + intros d Hd. destruct (Hbefore d Hd) as [Hl Hn].
      now apply hasPackage_not_declared.
  - intro Hall.
    assert (Hloc : locate fuel w (absPath names) = Some NotFound).
    { destruct Hcases as [[_ H]|(b & a & d & Ha & _ & Hd)]; [exact H|].
      assert (Hin : In d (ancestors (rev names)))
        by (rewrite Ha; apply in_or_app; right; now left).
      destruct (Hall d Hin) as [Hl Hn].
      pose proof (hasPackage_not_declared w d Hl Hn) as Hf.
      destruct Hd as [[Ht _]|(e & He & _)]; congruence. }
    split; [exact Hloc|]. unfold main. now rewrite Hcwd, Hloc.
Qed.

Lemma locate_returns_nearest_ancestor_witness :
  let w := Scenario.worldAt "/home/dev/app/static_assets" Scenario.indexHtml
             (fun _ => Some 0%Z) in
  let names := ["home"; "dev"; "app"; "static_assets"] in
  processCwd w = absPath names
  /\ Forall (fun f => isName f = true) names
  /\ List.length names < 5
  /\ manifestDeclares w "/home/dev/app"
  /\ ~ manifestDeclares w "/home/dev/app/static_assets"
  /\ locate 5 w (processCwd w) = Some (Found "/home/dev/app").
Proof.
  intros w names.
  assert (H1 : processCwd w = absPath names) by reflexivity.
  assert (H2 : Forall (fun f => isName f = true) names)
    by (repeat constructor).
  assert (H3 : List.length names < 5) by (simpl; lia).
  assert (H4 : manifestDeclares w "/home/dev/app").
  { exists (Fs.File "{}"). do 3 eexists.
    repeat split; try (vm_compute; reflexivity). }
  assert (H5 : ~ manifestDeclares w "/home/dev/app/static_assets").
  { intros (n & fields & deps & v & Hs & _). vm_compute in Hs. discriminate Hs. }
  do 5 (split; [assumption|]).
  destruct (locate_returns_nearest_ancestor w names 5 [] H1 H2 H3)
    as (_ & _ & _ & Hfound & _).
  apply (Hfound ["/home/dev/app/static_assets"] ["/home/dev"; "/home"; "/"]
           "/home/dev/app"); [reflexivity| |exact H4].
  intros d [<-|[]]. split; [|exact H5].
  intros n Hs. vm_compute in Hs. discriminate Hs.
Defined.

(** A manifest that cannot be loaded, in the start directory of a run
    below the project: the project directory declares the dependency and
    is the nearest ancestor that does, and yet the search neither returns
    it nor reports that there is none; the exception of [require] ends
    the process with status 1 and nothing is printed. *)
Lemma locate_unloadable_manifest_counterexample :
  manifestDeclares brokenBelow "/home/dev/app"
  /\ ~ manifestDeclares brokenBelow "/home/dev/app/lib"
  /\ ancestors (rev ["home"; "dev"; "app"; "lib"])
     = ["/home/dev/app/lib"; "/home/dev/app"; "/home/dev"; "/home"; "/"]
  /\ locate 5 brokenBelow (processCwd brokenBelow)
     = Some (Thrown (VError "Error" "Cannot load /home/dev/app/lib/package.json"))
  /\ locate 5 brokenBelow (processCwd brokenBelow) <> Some (Found "/home/dev/app")
  /\ locate 5 brokenBelow (processCwd brokenBelow) <> Some NotFound
  /\ main 5 brokenBelow []
     = Some {| console := []; exitStatus := Some 1%Z;
               spawned := []; finalDisk := disk brokenBelow |}.
Proof.
  assert (Hloc : locate 5 brokenBelow (processCwd brokenBelow)
                 = Some (Thrown (VError "Error"
                                   "Cannot load /home/dev/app/lib/package.json")))
    by (vm_compute; reflexivity).
  split.
  { exists (Fs.File "{}"). do 3 eexists.
    repeat split; try (vm_compute; reflexivity). }
  split.
  { intros (n & fields & deps & v & _ & Hr & _). vm_compute in Hr. discriminate Hr. }
  split; [reflexivity|]. split; [exact Hloc|].
  split; [rewrite Hloc; discriminate|]. split; [rewrite Hloc; discriminate|].
  vm_compute. reflexivity.
Qed.


(** ** The directory walk and the exclusion list *)

Lemma node_nested_ind (P : Fs.node -> Prop) :
  (forall data, P (Fs.File data)) ->
  (forall entries, Forall (fun e => P (snd e)) entries -> P (Fs.Dir entries)) ->
  forall n, P n.
Proof.
  intros HF HD. fix IH 1. intros [data|entries].
  - apply HF.
  - apply HD. induction entries as [|[f c] rest IHrest]; constructor.
    + apply IH.
    + exact IHrest.
Qed.

Lemma excluded_false_iff (exclude : list string) (f : string) :
  excluded exclude f = false <-> ~ In f exclude.
Proof.
  unfold excluded. split.
  - intros H Hin. apply Bool.not_true_iff_false in H. apply H.
    apply existsb_exists. exists f. split; [exact Hin|apply String.eqb_refl].
  - intro H. apply Bool.not_true_iff_false. intro Hex.
    apply existsb_exists in Hex as (g & Hin & Heq).
    apply String.eqb_eq in Heq. subst g. now apply H.
Qed.

Lemma wfTree_dir (entries : list (string * Fs.node)) :
  wfTree (Fs.Dir entries) = true ->
  forall e, In e entries -> isName (fst e) = true /\ wfTree (snd e) = true.
Proof.
  induction entries as [|[f c] rest IH]; intros H e Hin; [inversion Hin|].
  simpl in H. apply andb_true_iff in H as [H Hrest].
  apply andb_true_iff in H as [Hf Hc].
  destruct Hin as [<-|Hin]; [now split|]. now apply IH.
Qed.

Lemma prune_dir (exclude : list string) (entries : list (string * Fs.node)) :
  prune exclude (Fs.Dir entries) =
  Fs.Dir (map (fun e => (fst e, prune exclude (snd e)))
              (filter (fun e => negb (excluded exclude (fst e))) entries)).
Proof.
  simpl. f_equal.
  induction entries as [|[f child] rest IH]; simpl; [reflexivity|].
  destruct (excluded exclude f); simpl; [exact IH|]. now rewrite IH.
Qed.

(** Walking with an exclusion list is walking the tree from which every
    excluded entry has been cut: nothing below an excluded directory is
    visited. *)
Lemma walkDirSync_prune (exclude : list string) (n : Fs.node) :
  forall dir : string,
    walkDirSync dir n exclude = walkDirSync dir (prune exclude n) [].
Proof.
  induction n as [data|entries IH] using node_nested_ind; intro dir.
  - reflexivity.
  - rewrite prune_dir, !walkDirSync_dir. do 2 f_equal.
    assert (Hall : filter (fun e : string * Fs.node => negb (excluded [] (fst e)))
                     (map (fun e => (fst e, prune exclude (snd e)))
                        (filter (fun e => negb (excluded exclude (fst e))) entries))
                   = map (fun e => (fst e, prune exclude (snd e)))
                        (filter (fun e => negb (excluded exclude (fst e))) entries)).
    { apply forallb_filter_id. apply forallb_forall. reflexivity. }
    rewrite Hall, map_map. cbn [fst snd].
    apply map_ext_in. intros e He. apply filter_In in He as [He _].
    rewrite Forall_forall in IH. apply (IH e He).
Qed.

Lemma split_join (names : list string) :
  Forall (fun f => noSlash f = true) names -> names <> [] ->
  Str.split "/" (Str.join "/" names) = names.
Proof.
  induction names as [|x names IH]; [congruence|]. intros Hall _.
  inversion Hall as [|? ? Hx Hrest]; subst.
  destruct names as [|y names].
  - simpl. now apply split_noSlash.
  - rewrite join_cons2.
    change ("/" ++ Str.join "/" (y :: names))
      with (String "/" (Str.join "/" (y :: names))).
    rewrite (split_app_sep _ _ Hx), IH; [reflexivity|assumption|congruence].
Qed.

(** The components of a normalized absolute path are its names. *)
Lemma segments_absPath (names : list string) :
  Forall (fun f => isName f = true) names ->
  Fs.segments (absPath names) = names.
Proof.
  intro Hn. unfold Fs.segments, absPath.
  change ("/" ++ Str.join "/" names) with (String "/" (Str.join "/" names)).
  cbn [Str.split]. rewrite Ascii.eqb_refl. cbn [filter Str.isEmpty negb].
  destruct names as [|x names]; [reflexivity|].
  rewrite split_join; [|now apply Forall_isName_noSlash|congruence].
  apply forallb_filter_id. apply forallb_forall. intros f Hf.
  rewrite Forall_forall in Hn. destruct (isName_parts _ (Hn f Hf)) as (He & _).
  now rewrite He.
Qed.

Lemma walkDirSync_paths_below (exclude : list string) (n : Fs.node) :
  forall (names : list string) (p : string),
    Forall (fun f => isName f = true) names ->
    wfTree n = true ->
    In p (pathsOf (walkDirSync (absPath names) n exclude)) ->
    exists rel : list string,
      p = absPath (names ++ rel) /\
      Forall (fun f => isName f = true) rel /\
      Forall (fun c => ~ In c exclude) rel.
Proof.
  induction n as [data|entries IH] using node_nested_ind;
    intros names p Hnames Hwf Hin.
  - destruct Hin as [<-|[]]. exists []. rewrite app_nil_r. now repeat split.
  - rewrite walkDirSync_dir_flat in Hin. cbn [pathsOf] in Hin.
    apply in_flat_map in Hin as ([f child] & He & Hp).
    apply filter_In in He as [He Hex]. cbn [fst snd] in *.
    apply negb_true_iff in Hex.
    destruct (wfTree_dir _ Hwf _ He) as [Hf Hchild]. cbn [fst snd] in *.
    rewrite (join_abs_name _ _ Hnames Hf) in Hp.
    rewrite Forall_forall in IH.
    destruct (IH _ He (names ++ [f])%list p) as (rel & -> & Hrel & Hnot).
    + apply Forall_app. split; [exact Hnames|now constructor].
    + exact Hchild.
    + exact Hp.
    + exists (f :: rel). rewrite <- app_assoc. repeat split.
      * now constructor.
      * constructor; [now apply excluded_false_iff|exact Hnot].
Qed.

(** C4. Below a normalized absolute directory, in a tree whose entries
    carry file names, every path the walk returns is the directory
    followed by components none of which is in the exclusion list (so no
    component at all is excluded when none of the directory's own is);
    and the walk is the walk of the tree with every excluded entry cut
    out, so nothing below an excluded directory is visited. *)
Theorem walkDirSync_skips_excluded :
  forall (exclude names : list string) (n : Fs.node) (p : string),
    Forall (fun f => isName f = true) names ->
    wfTree n = true ->
    In p (pathsOf (walkDirSync (absPath names) n exclude)) ->
    (exists rel : list string,
        Fs.segments p = (names ++ rel)%list /\
        Forall (fun c => ~ In c exclude) rel)
    /\ (Forall (fun c => ~ In c exclude) names ->
        Forall (fun c => ~ In c exclude) (Fs.segments p))
    /\ walkDirSync (absPath names) n exclude
       = walkDirSync (absPath names) (prune exclude n) [].
Proof.
  intros exclude names n p Hnames Hwf Hin.
  destruct (walkDirSync_paths_below exclude n names p Hnames Hwf Hin)
    as (rel & -> & Hrel & Hnot).
  assert (Hseg : Fs.segments (absPath (names ++ rel)) = (names ++ rel)%list).
  { apply segments_absPath. apply Forall_app. now split. }
  split; [|split].
  - now exists rel.
  - intro Hroot. rewrite Hseg. apply Forall_app. now split.
  - apply walkDirSync_prune.
Qed.

Lemma walkDirSync_skips_excluded_witness :
  let n := Scenario.project Scenario.indexHtml in
  let p := "/home/dev/app/client.js" in
  Forall (fun f => isName f = true) Scenario.projectNames
  /\ wfTree n = true
  /\ In p (pathsOf (walkDirSync (absPath Scenario.projectNames) n walkExclude))
  /\ ((exists rel : list string,
          Fs.segments p = (Scenario.projectNames ++ rel)%list /\
          Forall (fun c => ~ In c walkExclude) rel)
      /\ (Forall (fun c => ~ In c walkExclude) Scenario.projectNames ->
          Forall (fun c => ~ In c walkExclude) (Fs.segments p))
      /\ walkDirSync (absPath Scenario.projectNames) n walkExclude
         = walkDirSync (absPath Scenario.projectNames) (prune walkExclude n) []).
Proof.
  intros n p.
  assert (H1 : Forall (fun f => isName f = true) Scenario.projectNames)
    by (repeat constructor).
  assert (H2 : wfTree n = true) by reflexivity.
  assert (H3 : In p (pathsOf (walkDirSync (absPath Scenario.projectNames) n
                                walkExclude))).
  { vm_compute. right. right. left. reflexivity. }
  repeat (split; [assumption|]).
  exact (walkDirSync_skips_excluded walkExclude Scenario.projectNames n p H1 H2 H3).
Defined.

(** ** The bundle pattern *)

Section BundlePattern.

Lemma run_plus_nil (k : string -> option string) :
  Regex.run (Regex.Plus notQuote) "" k = None.
Proof. reflexivity. Qed.

Lemma run_plus_cons (c : ascii) (s : string) (k : string -> option string) :
  Regex.run (Regex.Plus notQuote) (String c s) k =
  if isQuote c then None
  else match Regex.run (Regex.Plus notQuote) s k with
       | Some out => Some out
       | None => k s
       end.
Proof. reflexivity. Qed.

Lemma matchAt_nil : Regex.matchAt bundleRegex "" = None.
Proof. reflexivity. Qed.

Lemma matchAt_cons (c : ascii) (s : string) :
  Regex.matchAt bundleRegex (String c s) =
  if isQuote c then None
  else match Regex.matchAt bundleRegex s with
       | Some out => Some out
       | None => afterGroup s
       end.
Proof. reflexivity. Qed.

Lemma matchAt_boundary (tail : string) :
  atBoundary tail = true -> Regex.matchAt bundleRegex tail = None.
Proof.
  destruct tail as [|c t]; [reflexivity|]. unfold atBoundary. intro Hq.
  now rewrite matchAt_cons, Hq.
Qed.

(** The last group takes the whole run. *)
Lemma run_plus_run (r tail : string) :
  noQuote r = true -> atBoundary tail = true ->
  Regex.run (Regex.Plus notQuote) (r ++ tail) Some =
  match r with
  | EmptyString => None
  | String _ _ => Some tail
  end.
Proof.
  intros Hr Ht. induction r as [|c r IH].
  - destruct tail as [|q t]; [reflexivity|].
    unfold atBoundary in Ht. cbn [append]. now rewrite run_plus_cons, Ht.
  - simpl in Hr. apply andb_true_iff in Hr as [Hc Hr].
    apply negb_true_iff in Hc.
    cbn [append]. rewrite run_plus_cons, Hc, (IH Hr).
    destruct r; reflexivity.
Qed.

Lemma isQuote_literal (q c : ascii) :
  isQuote q = true -> isQuote c = false -> Ascii.eqb q c = false.
Proof.
  intros Hq Hc. destruct (Ascii.eqb_spec q c) as [->|]; [congruence|reflexivity].
Qed.

(** Literal characters other than quotes are read inside the run. *)
Lemma run_lits_run (lit : string) (R : Regex.t) :
  noQuote lit = true ->
  (forall r tail, noQuote r = true -> atBoundary tail = true ->
     Regex.run R (r ++ tail) Some =
     match Regex.run R r Some with Some _ => Some tail | None => None end) ->
  forall r tail, noQuote r = true -> atBoundary tail = true ->
    Regex.run (Regex.lits lit R) (r ++ tail) Some =
    match Regex.run (Regex.lits lit R) r Some with
    | Some _ => Some tail
    | None => None
    end.
Proof.
  intros Hlit HR. induction lit as [|a lit IH]; intros r tail Hr Ht.
  - now apply HR.
  - simpl in Hlit. apply andb_true_iff in Hlit as [Ha Hlit].
    apply negb_true_iff in Ha. specialize (IH Hlit).
    cbn [Regex.lits Regex.run].
    destruct r as [|c r].
    + destruct tail as [|q t]; [reflexivity|].
      unfold atBoundary in Ht. cbn [append].
      now rewrite (isQuote_literal _ _ Ht Ha).
    + simpl in Hr. apply andb_true_iff in Hr as [_ Hr].
      cbn [append]. destruct (Ascii.eqb c a); [now apply IH|reflexivity].
Qed.

Lemma afterGroup_run (r tail : string) :
  noQuote r = true -> atBoundary tail = true ->
  afterGroup (r ++ tail) =
  match afterGroup r with Some _ => Some tail | None => None end.
Proof.
  intros Hr Ht. unfold afterGroup.
  apply run_lits_run; [reflexivity| |assumption|assumption].
  intros r0 tail0 Hr0 Ht0. rewrite (run_plus_run _ _ Hr0 Ht0).
  rewrite <- (sapp_nil_r r0) at 2.
  rewrite (run_plus_run r0 "" Hr0 eq_refl). now destruct r0.
Qed.

(** A match of the pattern inside a run takes the run to its end, and
    whether there is one depends on the run alone. *)
Lemma matchAt_run (r tail : string) :
  noQuote r = true -> atBoundary tail = true ->
  Regex.matchAt bundleRegex (r ++ tail) =
  match Regex.matchAt bundleRegex r with Some _ => Some tail | None => None end.
Proof.
  intros Hr Ht. induction r as [|c r IH].
  - cbn [append]. rewrite matchAt_nil. now apply matchAt_boundary.
  - simpl in Hr. apply andb_true_iff in Hr as [Hc Hr].
    apply negb_true_iff in Hc.
    cbn [append]. rewrite !matchAt_cons, Hc, (IH Hr), (afterGroup_run _ _ Hr Ht).
    destruct (Regex.matchAt bundleRegex r); reflexivity.
Qed.

Lemma matchAt_tail_none (c : ascii) (s : string) :
  Regex.matchAt bundleRegex (String c s) = None ->
  isQuote c = false ->
  Regex.matchAt bundleRegex s = None.
Proof.
  rewrite matchAt_cons. intros H Hc. rewrite Hc in H.
  destruct (Regex.matchAt bundleRegex s); [discriminate|reflexivity].
Qed.

Lemma matchAt_cons_some (c : ascii) (s : string) :
  isQuote c = false ->
  Regex.matchAt bundleRegex s <> None ->
  Regex.matchAt bundleRegex (String c s) <> None.
Proof.
  intros Hc Hs. rewrite matchAt_cons, Hc.
  destruct (Regex.matchAt bundleRegex s); [discriminate|contradiction].
Qed.

(** The fuel of [scan] does not matter once it exceeds the length of the
    text. *)
Lemma scan_fuel (re : Regex.t) (n : nat) :
  forall (m : nat) (s : string),
    String.length s < n -> String.length s < m ->
    Regex.scan n re s = Regex.scan m re s.
Proof.
  induction n as [|n IH]; intros m s Hn Hm; [inversion Hn|].
  destruct m as [|m]; [inversion Hm|].
  cbn [Regex.scan].
  destruct (Regex.matchAt re s) as [rest|].
  - destruct (Str.isEmpty (Str.take (String.length s - String.length rest) s))
      eqn:Hempty.
    + destruct s as [|c s]; [reflexivity|]. f_equal. simpl in Hn, Hm.
      apply IH; lia.
    + f_equal.
      assert (String.length rest < String.length s).
      { destruct (String.length s - String.length rest) eqn:E; [|lia].
        destruct s; discriminate Hempty. }
      apply IH; lia.
  - destruct s as [|c s]; [reflexivity|]. simpl in Hn, Hm. apply IH; lia.
Qed.

Lemma scanAll_fuel (n : nat) (s : string) :
  String.length s < n -> Regex.scan n bundleRegex s = scanAll s.
Proof. intro H. apply scan_fuel; [exact H|apply Nat.lt_succ_diag_r]. Qed.

(** Every text is a run followed by a boundary. *)
Lemma run_decomposition (s : string) :
  exists r tail : string,
    s = r ++ tail /\ noQuote r = true /\ atBoundary tail = true.
Proof.
  induction s as [|c s (r & tail & -> & Hr & Ht)].
  - now exists "", "".
  - destruct (isQuote c) eqn:Hc.
    + exists "", (String c (r ++ tail)). now repeat split.
    + exists (String c r), tail. repeat split; [|exact Ht].
      simpl. now rewrite Hc, Hr.
Qed.

Lemma scanAll_empty : scanAll "" = [].
Proof. reflexivity. Qed.

Lemma scanAll_none (c : ascii) (s : string) :
  Regex.matchAt bundleRegex (String c s) = None ->
  scanAll (String c s) = scanAll s.
Proof.
  intro H. unfold scanAll at 1. cbn [Regex.scan String.length]. now rewrite H.
Qed.

Lemma scanAll_quote (q : ascii) (s : string) :
  isQuote q = true -> scanAll (String q s) = scanAll s.
Proof. intro Hq. apply scanAll_none. now rewrite matchAt_cons, Hq. Qed.

Lemma scanAll_boundary (tail : string) :
  atBoundary tail = true ->
  scanAll tail = match tail with
                 | EmptyString => []
                 | String _ t => scanAll t
                 end.
Proof.
  destruct tail as [|q t]; [reflexivity|]. unfold atBoundary. apply scanAll_quote.
Qed.

(** A run without a match contributes nothing. *)
Lemma scanAll_skip (r tail : string) :
  noQuote r = true -> atBoundary tail = true ->
  Regex.matchAt bundleRegex r = None ->
  scanAll (r ++ tail) = scanAll tail.
Proof.
  intros Hr Ht. induction r as [|c r IH]; intro Hnone; [reflexivity|].
  simpl in Hr. apply andb_true_iff in Hr as [Hc Hr]. apply negb_true_iff in Hc.
  cbn [append]. rewrite scanAll_none.
  - apply (IH Hr). now apply (matchAt_tail_none c).
  - change (String c (r ++ tail)) with (String c r ++ tail).
    rewrite matchAt_run, Hnone; [reflexivity| |exact Ht].
    simpl. now rewrite Hc, Hr.
Qed.

(** A run with a match is one match, the run itself. *)
Lemma scanAll_hit (r tail out : string) :
  noQuote r = true -> atBoundary tail = true ->
  Regex.matchAt bundleRegex r = Some out ->
  scanAll (r ++ tail) = r :: scanAll tail.
Proof.
  intros Hr Ht Hsome.
  assert (Hne : r <> "") by (intros ->; discriminate Hsome).
  unfold scanAll at 1. cbn [Regex.scan].
  rewrite (matchAt_run _ _ Hr Ht), Hsome.
  rewrite slength_app, Nat.add_sub, take_app_length.
  destruct r as [|c r]; [congruence|]. cbn [Str.isEmpty]. f_equal.
  apply scanAll_fuel. simpl. lia.
Qed.

Lemma scanAll_run (r tail : string) :
  noQuote r = true -> atBoundary tail = true ->
  scanAll (r ++ tail) =
  (match Regex.matchAt bundleRegex r with Some _ => [r] | None => [] end
   ++ scanAll tail)%list.
Proof.
  intros Hr Ht. destruct (Regex.matchAt bundleRegex r) as [out|] eqn:E.
  - now apply (scanAll_hit _ _ out).
  - now apply scanAll_skip.
Qed.

(** The matches of a text cut at a quote are those of its two parts. *)
Lemma scanAll_app_quote (q : ascii) (rest : string) :
  isQuote q = true ->
  forall (n : nat) (pre : string),
    String.length pre < n ->
    scanAll (pre ++ String q rest) = (scanAll pre ++ scanAll rest)%list.
Proof.
  intros Hq. induction n as [|n IH]; intros pre Hlen; [inversion Hlen|].
  destruct (run_decomposition pre) as (r & tail & -> & Hr & Ht).
  rewrite sapp_assoc.
  rewrite (scanAll_run r (tail ++ String q rest) Hr),
          (scanAll_run r tail Hr Ht), <- app_assoc.
  - f_equal. destruct tail as [|c t].
    + cbn [append]. now rewrite scanAll_quote.
    + unfold atBoundary in Ht. cbn [append]. rewrite !scanAll_quote by exact Ht.
      apply IH. rewrite slength_app in Hlen. simpl in Hlen. lia.
  - destruct tail; [exact Hq|exact Ht].
Qed.

Lemma scanAll_nil_matchAt (s : string) :
  scanAll s = [] -> Regex.matchAt bundleRegex s = None.
Proof.
  unfold scanAll. cbn [Regex.scan].
  destruct (Regex.matchAt bundleRegex s) as [rest|]; [|reflexivity].
  destruct (Str.isEmpty _); [destruct s|]; discriminate.
Qed.

Lemma scanAll_nil_tail (c : ascii) (s : string) :
  scanAll (String c s) = [] -> scanAll s = [].
Proof.
  intro H. rewrite scanAll_none in H; [exact H|]. now apply scanAll_nil_matchAt.
Qed.

Lemma jsMatch_scanAll (s : string) :
  Regex.jsMatch bundleRegex s =
  match scanAll s with [] => None | l => Some l end.
Proof. reflexivity. Qed.

Lemma jsMatch_none (s : string) :
  Regex.jsMatch bundleRegex s = None <-> scanAll s = [].
Proof.
  rewrite jsMatch_scanAll. destruct (scanAll s); split; congruence.
Qed.

End BundlePattern.

(** ** What a match looks like *)

Lemma run_lits_startsWith (lit : string) (R : Regex.t)
    (k : string -> option string) :
  forall (s out : string),
    Regex.run (Regex.lits lit R) s k = Some out -> Str.startsWith lit s = true.
Proof.
  induction lit as [|c lit IH]; intros s out H; [reflexivity|].
  cbn [Regex.lits Regex.run] in H.
  destruct s as [|c' s]; [discriminate H|].
  destruct (Ascii.eqb c' c) eqn:E; [|discriminate H].
  cbn [Str.startsWith]. rewrite Ascii.eqb_sym, E. exact (IH s out H).
Qed.

Lemma afterGroup_dot_bundle (c : ascii) (x : string) :
  isQuote c = false -> afterGroup (".bundle" ++ String c x) <> None.
Proof.
  intro Hc.
  change (afterGroup (".bundle" ++ String c x))
    with (Regex.run (Regex.Plus notQuote) (String c x) Some).
  rewrite run_plus_cons, Hc.
  destruct (Regex.run (Regex.Plus notQuote) x Some); discriminate.
Qed.

(** What a text must look like for a match attempt to succeed at its
    start: a non-empty stretch without quotes, the text [.bundle], and
    one more character that is not a quote. *)
Lemma matchAt_some_shape (s : string) :
  forall out : string,
    Regex.matchAt bundleRegex s = Some out ->
    exists (a : string) (c : ascii) (b : string),
      s = a ++ ".bundle" ++ String c b
      /\ a <> "" /\ noQuote a = true /\ isQuote c = false.
Proof.
  induction s as [|c0 s IH]; intro out; [discriminate|].
  rewrite matchAt_cons. destruct (isQuote c0) eqn:Hc0; [discriminate|].
  destruct (Regex.matchAt bundleRegex s) as [o|] eqn:E.
  - intros _. destruct (IH o eq_refl) as (a & c & b & -> & Ha & Hq & Hc).
    exists (String c0 a), c, b. repeat split; [discriminate| |exact Hc].
    simpl. now rewrite Hc0, Hq.
  - intro H. pose proof H as Hs. unfold afterGroup in Hs.
    apply run_lits_startsWith in Hs. destruct (startsWith_inv _ _ Hs) as [r ->].
    change (afterGroup (".bundle" ++ r))
      with (Regex.run (Regex.Plus notQuote) r Some) in H.
    destruct r as [|c b]; [discriminate H|].
    rewrite run_plus_cons in H. destruct (isQuote c) eqn:Hc; [discriminate H|].
    exists (String c0 ""), c, b. repeat split; [discriminate| |exact Hc].
    simpl. now rewrite Hc0.
Qed.

(** ** A page with a single reference *)

Lemma matchAt_of_shape (a : string) (c : ascii) (b : string) :
  a <> "" -> noQuote a = true -> isQuote c = false ->
  Regex.matchAt bundleRegex (a ++ ".bundle" ++ String c b) <> None.
Proof.
  intros Ha Hq Hc. induction a as [|x a IH]; [congruence|].
  simpl in Hq. apply andb_true_iff in Hq as [Hx Hq]. apply negb_true_iff in Hx.
  destruct a as [|y a'].
  - cbn [append]. rewrite matchAt_cons, Hx.
    destruct (Regex.matchAt bundleRegex _); [discriminate|].
    now apply afterGroup_dot_bundle.
  - change (String x (String y a') ++ ".bundle" ++ String c b)
      with (String x (String y a' ++ ".bundle" ++ String c b)).
    apply matchAt_cons_some; [exact Hx|]. apply IH; [discriminate|exact Hq].
Qed.

(** A text that matches still matches when it is continued. *)
Lemma matchAt_extend (p z out : string) :
  Regex.matchAt bundleRegex p = Some out ->
  Regex.matchAt bundleRegex (p ++ z) <> None.
Proof.
  intro H. destruct (matchAt_some_shape p out H) as (a & c & b & -> & Ha & Hq & Hc).
  rewrite !sapp_assoc. cbn [append].
  change (a ++ String "." (String "b" (String "u" (String "n" (String "d"
            (String "l" (String "e" (String c (b ++ z)))))))))
    with (a ++ ".bundle" ++ String c (b ++ z)).
  now apply matchAt_of_shape.
Qed.

(** ** Decoding the bytes of a page *)

Lemma isQuote_isAscii (c : ascii) : isQuote c = true -> Buffer.isAscii c = true.
Proof.
  unfold isQuote, quoteChars. cbn [existsb]. rewrite orb_false_r.
  intro H. apply orb_true_iff in H as [H|H]; apply Ascii.eqb_eq in H; now subst.
Qed.

Lemma high_not_quote (c : ascii) : Buffer.isAscii c = false -> isQuote c = false.
Proof.
  intro H. destruct (isQuote c) eqn:E; [|reflexivity].
  apply isQuote_isAscii in E. congruence.
Qed.

Lemma between_high (lo hi : N) (c : ascii) :
  (128 <= lo)%N -> Buffer.between lo hi c = true -> Buffer.isAscii c = false.
Proof.
  unfold Buffer.between, Buffer.isAscii. intros Hlo H.
  apply andb_true_iff in H as [H _]. apply N.leb_le in H.
  apply N.ltb_ge. lia.
Qed.

Lemma isCont_high (c : ascii) : Buffer.isCont c = true -> Buffer.isAscii c = false.
Proof. apply between_high. lia. Qed.

Lemma isSecond_high (b0 b1 : ascii) :
  Buffer.isSecond b0 b1 = true -> Buffer.isAscii b1 = false.
Proof.
  apply between_high. unfold Buffer.secondLo.
  destruct (N.eqb _ 224); [lia|]. destruct (N.eqb _ 240); lia.
Qed.

Lemma needed_le (b0 : ascii) : Buffer.needed b0 <= 3.
Proof.
  unfold Buffer.needed.
  repeat match goal with |- context [if ?b then _ else _] => destruct b end; lia.
Qed.

Ltac decoded :=
  repeat split; try discriminate; try reflexivity;
  try (cbn [high];
       repeat match goal with
              | H : Buffer.isAscii _ = false |- _ => rewrite H
              end; reflexivity);
  try match goal with
      | H : _ = true |- _ =>
          rewrite ?andb_true_l, ?andb_false_r in H;
          first [exact H | discriminate H]
      end.

(** One step of the decoder: an ASCII byte is copied; otherwise a
    non-empty stretch of bytes, none of them ASCII, gives a non-empty
    stretch of bytes, none of them ASCII, which is the stretch itself
    when the bytes are well-formed. *)
Lemma toString_step (s : string) :
  s <> "" ->
  (exists (c : ascii) (r : string),
      s = String c r /\ Buffer.isAscii c = true
      /\ Buffer.toString s = String c (Buffer.toString r)
      /\ Buffer.wellFormed s = Buffer.wellFormed r)
  \/ (exists hi ho r : string,
         s = hi ++ r /\ Buffer.toString s = ho ++ Buffer.toString r
         /\ hi <> "" /\ ho <> ""
         /\ high hi = true /\ high ho = true
         /\ (Buffer.wellFormed s = true -> ho = hi /\ Buffer.wellFormed r = true)).
Proof.
  destruct s as [|b0 r0]; [congruence|]. intros _.
  destruct (Buffer.isAscii b0) eqn:E0.
  { left. exists b0, r0. cbn [Buffer.toString Buffer.wellFormed]. now rewrite E0. }
  right. pose proof (needed_le b0) as Hle.
  cbn [Buffer.toString Buffer.wellFormed]. rewrite E0.
  destruct (Buffer.needed b0) as [|[|[|[|n]]]] eqn:En; [| | | |lia].
  - exists (String b0 ""), Buffer.replacement, r0. decoded.
  - destruct r0 as [|b1 r1];
      [exists (String b0 ""), Buffer.replacement, ""; decoded|].
    destruct (Buffer.isSecond b0 b1) eqn:E1.
    + pose proof (isSecond_high _ _ E1) as H1.
      exists (String b0 (String b1 "")), (String b0 (String b1 "")), r1. decoded.
    + exists (String b0 ""), Buffer.replacement, (String b1 r1). decoded.
  - destruct r0 as [|b1 r1];
      [exists (String b0 ""), Buffer.replacement, ""; decoded|].
    destruct (Buffer.isSecond b0 b1) eqn:E1.
    + pose proof (isSecond_high _ _ E1) as H1.
      destruct r1 as [|b2 r2];
        [exists (String b0 (String b1 "")), Buffer.replacement, ""; decoded|].
      destruct (Buffer.isCont b2) eqn:E2.
      * pose proof (isCont_high _ E2) as H2.
        exists (String b0 (String b1 (String b2 ""))),
               (String b0 (String b1 (String b2 ""))), r2. decoded.
      * exists (String b0 (String b1 "")), Buffer.replacement, (String b2 r2).
        decoded.
    + exists (String b0 ""), Buffer.replacement, (String b1 r1).
      destruct r1; decoded.
  - destruct r0 as [|b1 r1];
      [exists (String b0 ""), Buffer.replacement, ""; decoded|].
    destruct (Buffer.isSecond b0 b1) eqn:E1.
    + pose proof (isSecond_high _ _ E1) as H1.
      destruct r1 as [|b2 r2];
        [exists (String b0 (String b1 "")), Buffer.replacement, ""; decoded|].
      destruct (Buffer.isCont b2) eqn:E2.
      * pose proof (isCont_high _ E2) as H2.
        destruct r2 as [|b3 r3];
          [exists (String b0 (String b1 (String b2 ""))), Buffer.replacement, "";
           decoded|].
        destruct (Buffer.isCont b3) eqn:E3.
        -- pose proof (isCont_high _ E3) as H3.
           exists (String b0 (String b1 (String b2 (String b3 "")))),
                  (String b0 (String b1 (String b2 (String b3 "")))), r3. decoded.
        -- exists (String b0 (String b1 (String b2 ""))),
                  Buffer.replacement, (String b3 r3). decoded.
      * exists (String b0 (String b1 "")), Buffer.replacement, (String b2 r2).
        destruct r2; decoded.
    + exists (String b0 ""), Buffer.replacement, (String b1 r1).
      destruct r1 as [|? [|? ?]]; decoded.
Qed.

Lemma nonempty_length (s : string) : s <> "" -> 0 < String.length s.
Proof. destruct s; [congruence|simpl; lia]. Qed.

(** Well-formed bytes are decoded to themselves. *)
Lemma toString_wellFormed (s : string) :
  Buffer.wellFormed s = true -> Buffer.toString s = s.
Proof.
  remember (String.length s) as n eqn:Hn. revert s Hn.
  induction n as [n IH] using lt_wf_ind. intros s Hn Hwf.
  destruct s as [|b0 r0] eqn:Es; [reflexivity|]. rewrite <- Es in *.
  assert (Hne : s <> "") by (rewrite Es; discriminate).
  destruct (toString_step s Hne)
    as [(c & r & Hs & _ & Ht & Hw)|(hi & ho & r & Hs & Ht & Hhi & _ & _ & _ & Hw)].
  - rewrite Ht, Hs. f_equal.
    apply (IH (String.length r)); [rewrite Hn, Hs; simpl; lia|reflexivity|].
    now rewrite <- Hw.
  - destruct (Hw Hwf) as [-> Hr]. rewrite Ht, Hs. f_equal.
    apply (IH (String.length r)); [|reflexivity|exact Hr].
    rewrite Hn, Hs, slength_app. pose proof (nonempty_length hi Hhi). lia.
Qed.

(** An ASCII byte of the decoded text is a byte of the file, at the same
    place. *)
Lemma toString_head_ascii (r t : string) (c : ascii) :
  Buffer.toString r = String c t -> Buffer.isAscii c = true ->
  exists r' : string, r = String c r' /\ Buffer.toString r' = t.
Proof.
  intros H Hc. destruct r as [|b0 r0] eqn:Er; [discriminate H|]. rewrite <- Er in *.
  assert (Hne : r <> "") by (rewrite Er; discriminate).
  destruct (toString_step r Hne)
    as [(c1 & r1 & Hs & _ & Ht & _)|(hi & ho & r1 & _ & Ht & _ & Hho & _ & Hh & _)];
    rewrite Ht in H.
  - injection H as -> <-. now exists r1.
  - destruct ho as [|h ho']; [congruence|]. injection H as -> _.
    cbn [high] in Hh. rewrite Hc in Hh. discriminate Hh.
Qed.

Lemma toString_head (r t : string) (c : ascii) :
  Buffer.toString r = String c t -> isQuote c = false ->
  exists (c' : ascii) (r' : string), r = String c' r' /\ isQuote c' = false.
Proof.
  intros H Hc. destruct r as [|b0 r0] eqn:Er; [discriminate H|]. rewrite <- Er in *.
  assert (Hne : r <> "") by (rewrite Er; discriminate).
  destruct (toString_step r Hne)
    as [(c1 & r1 & Hs & _ & Ht & _)|(hi & ho & r1 & Hs & _ & Hhi & _ & Hh & _ & _)].
  - rewrite Ht in H. injection H as -> _. now exists c, r1.
  - destruct hi as [|h hi']; [congruence|]. exists h, (hi' ++ r1).
    split; [exact Hs|]. cbn [high] in Hh. apply andb_true_iff in Hh as [Hh _].
    apply negb_true_iff in Hh. now apply high_not_quote.
Qed.

Lemma toString_dot_bundle (r y : string) (c : ascii) :
  Buffer.toString r = ".bundle" ++ String c y -> isQuote c = false ->
  exists (c' : ascii) (y' : string),
    r = ".bundle" ++ String c' y' /\ isQuote c' = false.
Proof.
  intros H Hc. cbn [append] in H.
  do 7 (let r' := fresh "r" in
        apply toString_head_ascii in H as (r' & -> & H); [|reflexivity]).
  destruct (toString_head _ _ _ H Hc) as (c' & y' & -> & Hc').
  now exists c', y'.
Qed.

Lemma holdsReference_cons (c : ascii) (s : string) :
  holdsReference s -> holdsReference (String c s).
Proof.
  intros (x & a & d & y & -> & Ha & Hd). now exists (String c x), a, d, y.
Qed.

Lemma holdsReference_app (x s : string) :
  holdsReference s -> holdsReference (x ++ s).
Proof.
  intro H. induction x as [|c x IH]; [exact H|]. now apply holdsReference_cons.
Qed.

Lemma high_last (hi : string) :
  hi <> "" -> high hi = true ->
  exists (hi' : string) (l : ascii),
    hi = hi' ++ String l "" /\ Buffer.isAscii l = false.
Proof.
  induction hi as [|h hi IH]; [congruence|]. intros _ Hh.
  cbn [high] in Hh. apply andb_true_iff in Hh as [Hh Hrest].
  apply negb_true_iff in Hh. destruct hi as [|h' hi'].
  - now exists "", h.
  - destruct (IH ltac:(discriminate) Hrest) as (hi0 & l & E & Hl).
    exists (String h hi0), l. split; [|exact Hl]. cbn [append]. now rewrite <- E.
Qed.

(** Where the text [.bundle] between two characters can stand in a text
    that opens with bytes none of which is ASCII. *)
Lemma high_window (ho : string) :
  high ho = true ->
  forall (t x y : string) (a c : ascii),
    ho ++ t = x ++ String a (".bundle" ++ String c y) ->
    (exists x' : string, t = x' ++ String a (".bundle" ++ String c y))
    \/ t = ".bundle" ++ String c y.
Proof.
  induction ho as [|h ho IH]; intros Hh t x y a c E.
  - left. now exists x.
  - cbn [high] in Hh. apply andb_true_iff in Hh as [_ Hrest].
    destruct x as [|x0 x1]; cbn [append] in E; injection E as _ E.
    + destruct ho as [|h' ho']; [now right|].
      cbn [append] in E. injection E as -> _.
      cbn [high] in Hrest. discriminate Hrest.
    + exact (IH Hrest t x1 y a c E).
Qed.

(** Decoding does not bring a reference into a page that has none. *)
Lemma holdsReference_toString (s : string) :
  holdsReference (Buffer.toString s) -> holdsReference s.
Proof.
  remember (String.length s) as n eqn:Hn. revert s Hn.
  induction n as [n IH] using lt_wf_ind. intros s Hn (x & a & c & y & E & Ha & Hc).
  destruct s as [|b0 r0] eqn:Es; [now destruct x|]. rewrite <- Es in *.
  assert (Hne : s <> "") by (rewrite Es; discriminate).
  destruct (toString_step s Hne)
    as [(c1 & r & Hs & _ & Ht & _)|(hi & ho & r & Hs & Ht & Hhi & _ & Hhh & Hh & _)];
    rewrite Ht in E.
  - destruct x as [|x0 x1]; cbn [append] in E; injection E as -> E.
    + destruct (toString_dot_bundle r y c E Hc) as (c' & y' & Hr & Hc').
      exists "", a, c', y'. rewrite Hs, Hr. now repeat split.
    + rewrite Hs. apply holdsReference_cons.
      apply (IH (String.length r)); [rewrite Hn, Hs; simpl; lia|reflexivity|].
      now exists x1, a, c, y.
  - rewrite Hs. destruct (high_window ho Hh _ _ _ _ _ E) as [[x' E']|E'].
    + apply holdsReference_app.
      apply (IH (String.length r)); [|reflexivity|now exists x', a, c, y].
      rewrite Hn, Hs, slength_app. pose proof (nonempty_length hi Hhi). lia.
    + destruct (toString_dot_bundle r y c E' Hc) as (c' & y' & Hr & Hc').
      destruct (high_last hi Hhi Hhh) as (hi' & l & -> & Hl).
      exists hi', l, c', y'. rewrite Hr, sapp_assoc.
      repeat split; [now apply high_not_quote|exact Hc'].
Qed.

Lemma noQuote_last (a : string) :
  a <> "" -> noQuote a = true ->
  exists (a' : string) (l : ascii), a = a' ++ String l "" /\ isQuote l = false.
Proof.
  induction a as [|h a IH]; [congruence|]. intros _ Hq.
  cbn [noQuote] in Hq. apply andb_true_iff in Hq as [Hh Hrest].
  apply negb_true_iff in Hh. destruct a as [|h' a'].
  - now exists "", h.
  - destruct (IH ltac:(discriminate) Hrest) as (a0 & l & E & Hl).
    exists (String h a0), l. split; [|exact Hl]. cbn [append]. now rewrite <- E.
Qed.

(** The pattern has a match exactly in the texts that hold [.bundle]
    between two characters other than quotes. *)
Lemma scanAll_nil_iff (s : string) : scanAll s = [] <-> ~ holdsReference s.
Proof.
  split.
  - intros Hnil (x & a & c & y & -> & Ha & Hc).
    induction x as [|x0 x IH].
    + apply scanAll_nil_matchAt in Hnil.
      apply (matchAt_of_shape (String a "") c y); [discriminate| |exact Hc|exact Hnil].
      cbn [noQuote]. now rewrite Ha.
    + apply IH. exact (scanAll_nil_tail _ _ Hnil).
  - induction s as [|c s IH]; intro Hno; [reflexivity|].
    destruct (Regex.matchAt bundleRegex (String c s)) as [out|] eqn:E.
    + elim Hno.
      destruct (matchAt_some_shape _ _ E) as (a & d & b & -> & Hne & Hq & Hd).
      destruct (noQuote_last a Hne Hq) as (a' & l & -> & Hl).
      exists a', l, d, b. now rewrite sapp_assoc.
    + rewrite (scanAll_none _ _ E). apply IH.
      intro H. apply Hno. now apply holdsReference_cons.
Qed.

(** A page in which the pattern finds nothing has no match after
    decoding either. *)
Lemma jsMatch_toString_none (data : string) :
  Regex.jsMatch bundleRegex data = None ->
  Regex.jsMatch bundleRegex (Buffer.toString data) = None.
Proof.
  rewrite !jsMatch_none, !scanAll_nil_iff.
  intros Hno H. apply Hno. now apply holdsReference_toString.
Qed.

(** A page in Latin-1: the byte [E9] is no UTF-8 and is written back as
    U+FFFD.  The same letter in UTF-8 is kept, and a sequence cut short
    gives one U+FFFD. *)
Example toString_latin1 :
  Buffer.toString ("caf" ++ String "233"%char "!")
  = "caf" ++ Buffer.replacement ++ "!".
Proof. reflexivity. Qed.

Example toString_utf8 :
  Buffer.toString ("caf" ++ String "195"%char (String "169"%char "!"))
  = "caf" ++ String "195"%char (String "169"%char "!").
Proof. reflexivity. Qed.

Example toString_cut_short :
  Buffer.toString (String "226"%char (String "130"%char "A"))
  = Buffer.replacement ++ "A".
Proof. reflexivity. Qed.

(** ** An HTML file without a bundle reference *)

(** C2 (what the code does). When nothing in the file matches the
    pattern, [match] yields [null] and the callback throws at
    [bundlePaths.length]: no write is asked for, and the operation ends
    as an uncaught exception instead of copying the file. *)
Theorem rewrite_without_reference_throws :
  forall (w : world) (fs : Fs.node) (htmlFile data : string)
         (buildDir : list string),
    Fs.readFile fs htmlFile = Ok data ->
    Regex.jsMatch bundleRegex data = None ->
    replaceBundleExtensionsInHtml (processCwd w) htmlFile buildDir (Ok data)
      = Threw (VError "TypeError" "Cannot read property 'length' of null")
    /\ complete w fs (Rewrite htmlFile buildDir)
      = Uncaught (VError "TypeError" "Cannot read property 'length' of null").
Proof.
  intros w fs htmlFile data buildDir Hread Hmatch.
  assert (H : replaceBundleExtensionsInHtml (processCwd w) htmlFile buildDir (Ok data)
              = Threw (VError "TypeError" "Cannot read property 'length' of null")).
  { unfold replaceBundleExtensionsInHtml.
    now rewrite (jsMatch_toString_none data Hmatch). }
  split; [exact H|].
  unfold complete. now rewrite Hread, H.
Qed.

Lemma rewrite_without_reference_throws_witness :
  let w := Scenario.worldOf Scenario.plainHtml (fun _ => Some 0%Z) in
  Fs.readFile (disk w) "/home/dev/app/index.html" = Ok Scenario.plainHtml
  /\ Regex.jsMatch bundleRegex Scenario.plainHtml = None
  /\ (replaceBundleExtensionsInHtml (processCwd w) "/home/dev/app/index.html"
        Scenario.buildDir (Ok Scenario.plainHtml)
      = Threw (VError "TypeError" "Cannot read property 'length' of null")
      /\ complete w (disk w) (Rewrite "/home/dev/app/index.html" Scenario.buildDir)
      = Uncaught (VError "TypeError" "Cannot read property 'length' of null")).
Proof.
  intro w.
  split; [reflexivity|]. split; [reflexivity|].
  apply (rewrite_without_reference_throws w (disk w) "/home/dev/app/index.html"
           Scenario.plainHtml Scenario.buildDir); reflexivity.
Defined.

(** The whole run on a project whose page holds no bundle reference: the
    process ends on the uncaught exception, [build/index.html] is never
    written and no message is printed. *)
Example run_on_page_without_reference :
  main 1 (Scenario.worldOf Scenario.plainHtml (fun _ => Some 0%Z)) [0; 1; 2; 3; 4]
  = Some {| console := [];
            exitStatus := Some 1%Z;
            spawned := Scenario.commands;
            finalDisk := Scenario.rootBuilt Scenario.plainHtml [] |}.
Proof. vm_compute. reflexivity. Qed.

(** ** Rewriting a quoted reference *)

Lemma startsWith_before_quote (p a z : string) (q : ascii) :
  noQuote p = true -> isQuote q = true -> p <> "" ->
  Str.startsWith p (a ++ String q z) = Str.startsWith p a.
Proof.
  intros Hp Hq. revert a. induction p as [|c p IH]; intros a Hne; [congruence|].
  simpl in Hp. apply andb_true_iff in Hp as [Hc Hp]. apply negb_true_iff in Hc.
  destruct a as [|d a].
  - cbn [append Str.startsWith].
    now rewrite Ascii.eqb_sym, (isQuote_literal _ _ Hq Hc).
  - cbn [append Str.startsWith]. destruct (Ascii.eqb c d); [|reflexivity].
    cbn [andb]. destruct p as [|c' p']; [now destruct a|].
    apply (IH Hp). discriminate.
Qed.

(** A matching run between two quotes is one of the matches. *)
Lemma scanAll_quoted (p pre post out : string) (q1 q2 : ascii) :
  isQuote q1 = true -> isQuote q2 = true -> noQuote p = true ->
  Regex.matchAt bundleRegex p = Some out ->
  scanAll (pre ++ String q1 (p ++ String q2 post))
  = (scanAll pre ++ p :: scanAll post)%list.
Proof.
  intros H1 H2 Hq Hm.
  rewrite (scanAll_app_quote q1 _ H1 (S (String.length pre)))
    by apply Nat.lt_succ_diag_r.
  f_equal. rewrite (scanAll_hit p (String q2 post) out Hq H2 Hm).
  now rewrite (scanAll_quote q2 post H2).
Qed.

Lemma indexOf_self (p y : string) : Str.indexOf p (p ++ y) = Some 0.
Proof.
  destruct (p ++ y) eqn:E; cbn [Str.indexOf]; rewrite <- E, startsWith_app;
    reflexivity.
Qed.

(** No occurrence of a matching text begins in a stretch without a match
    that ends at a quote, nor at that quote: the search goes on behind
    it. *)
Lemma indexOf_past_quote (p pre z out : string) (q : ascii) :
  isQuote q = true -> noQuote p = true ->
  Regex.matchAt bundleRegex p = Some out ->
  scanAll pre = [] ->
  Str.indexOf p (pre ++ String q z)
  = option_map (fun i => S (String.length pre) + i) (Str.indexOf p z).
Proof.
  intros Hq Hp Hm.
  assert (Hne : p <> "") by (intros ->; discriminate Hm).
  induction pre as [|c pre IH]; intro Hclean.
  - cbn [append String.length].
    assert (E : Str.startsWith p (String q z) = false).
    { destruct p as [|x p']; [congruence|]. cbn [Str.startsWith].
      simpl in Hp. apply andb_true_iff in Hp as [Hx _]. apply negb_true_iff in Hx.
      now rewrite Ascii.eqb_sym, (isQuote_literal q x Hq Hx). }
    cbn [Str.indexOf]. rewrite E. now destruct (Str.indexOf p z).
  - cbn [append String.length Str.indexOf].
    assert (E : Str.startsWith p (String c (pre ++ String q z)) = false).
    { change (String c (pre ++ String q z)) with (String c pre ++ String q z).
      rewrite startsWith_before_quote; [|exact Hp|exact Hq|exact Hne].
      destruct (Str.startsWith p (String c pre)) eqn:Es; [|reflexivity].
      destruct (startsWith_inv _ _ Es) as [y Hy].
      apply scanAll_nil_matchAt in Hclean. rewrite Hy in Hclean.
      now elim (matchAt_extend p y out Hm). }
    rewrite E, (IH (scanAll_nil_tail _ _ Hclean)).
    now destruct (Str.indexOf p z).
Qed.

(** A replacement text without [$] is inserted as it is. *)
Lemma getSubstitution_plain (matched before after r : string) :
  noChar "$" r = true -> Str.getSubstitution matched before after r = r.
Proof.
  induction r as [|c r IH]; [reflexivity|]. cbn [noChar].
  intro H. apply andb_true_iff in H as [Hc Hr]. apply negb_true_iff in Hc.
  specialize (IH Hr).
  assert (Hstep : Str.getSubstitution matched before after (String c r)
                  = String c (Str.getSubstitution matched before after r)).
  { destruct (Ascii.eqb_spec c "$") as [->|Hne]; [discriminate Hc|].
    cbn [Str.getSubstitution].
    destruct c as [[] [] [] [] [] [] [] []]; try reflexivity. now elim Hne. }
  now rewrite Hstep, IH.
Qed.

(** [replace] at a known first occurrence. *)
Lemma replace_at (x p y r : string) :
  Str.indexOf p (x ++ p ++ y) = Some (String.length x) ->
  noChar "$" r = true ->
  Str.replace (x ++ p ++ y) p r = x ++ r ++ y.
Proof.
  intros Hi Hr. unfold Str.replace. rewrite Hi.
  rewrite take_app_length, (getSubstitution_plain _ _ _ _ Hr).
  rewrite <- (sapp_assoc x p y).
  replace (String.length x + String.length p) with (String.length (x ++ p))
    by apply slength_app.
  now rewrite drop_app_length.
Qed.

(** In a text whose part before the quote holds no match, the first
    occurrence of a matching text behind the quote is replaced. *)
Lemma replace_quoted (p pre y out r : string) (q : ascii) :
  isQuote q = true -> noQuote p = true ->
  Regex.matchAt bundleRegex p = Some out ->
  scanAll pre = [] -> noChar "$" r = true ->
  Str.replace (pre ++ String q (p ++ y)) p r = pre ++ String q (r ++ y).
Proof.
  intros Hq Hp Hm Hclean Hr.
  change (pre ++ String q (p ++ y)) with (pre ++ (String q "" ++ (p ++ y))).
  rewrite <- (sapp_assoc pre).
  rewrite replace_at; [now rewrite sapp_assoc|rewrite sapp_assoc|exact Hr].
  cbn [append].
  rewrite (indexOf_past_quote p pre (p ++ y) out q Hq Hp Hm Hclean), indexOf_self.
  cbn [option_map]. rewrite slength_app. cbn [String.length]. f_equal. lia.
Qed.

(** ** The build directory *)

Lemma assoc_app_new (name : string) (c : Fs.node)
    (entries : list (string * Fs.node)) :
  Fs.assoc name entries = None ->
  Fs.assoc name (entries ++ [(name, c)])%list = Some c.
Proof.
  induction entries as [|[n c0] rest IH]; simpl.
  - intros _. now rewrite String.eqb_refl.
  - destruct (String.eqb n name); [discriminate|exact IH].
Qed.

Lemma assoc_setEntry (name : string) (c : Fs.node)
    (entries : list (string * Fs.node)) :
  Fs.assoc name (Fs.setEntry name c entries) = Some c.
Proof.
  induction entries as [|[n c0] rest IH]; simpl.
  - now rewrite String.eqb_refl.
  - destruct (String.eqb n name) eqn:E; simpl; rewrite E; [reflexivity|exact IH].
Qed.

(** After [mkdir] has succeeded, the path is an empty directory. *)
Lemma mkdirSegs_lookup (segs : list string) :
  forall n n' : Fs.node,
    Fs.mkdirSegs segs n = Ok n' -> Fs.lookupSegs segs n' = Ok (Fs.Dir []).
Proof.
  induction segs as [|name rest IH]; intros n n' H; [discriminate H|].
  cbn [Fs.mkdirSegs] in H. destruct n as [data|entries]; [discriminate H|].
  destruct rest as [|name2 rest].
  - destruct (Fs.assoc name entries) eqn:E; [discriminate H|].
    injection H as <-. cbn [Fs.lookupSegs]. now rewrite (assoc_app_new _ _ _ E).
  - destruct (Fs.assoc name entries) as [c|] eqn:E; [|discriminate H].
    destruct (Fs.mkdirSegs (name2 :: rest) c) as [c'|e] eqn:Ec; [|discriminate H].
    injection H as <-. cbn [Fs.lookupSegs]. rewrite assoc_setEntry.
    exact (IH c c' Ec).
Qed.

Lemma mkdir_isDirectoryAt (w : world) (fs fs' : Fs.node) (p : string) :
  mkdir w fs p = Ok fs' -> isDirectoryAt fs' p = true.
Proof.
  unfold mkdir, Fs.mkdir, isDirectoryAt, Fs.statSync.
  destruct (denied w p); [discriminate|]. intro H.
  now rewrite (mkdirSegs_lookup _ _ _ H).
Qed.

Lemma ensureBuildDir_present (w : world) (fs : Fs.node) (buildDir : list string) :
  isDirectoryAt fs (Path.join buildDir) = true ->
  ensureBuildDir w fs buildDir = (Promise.Fulfilled, fs, []).
Proof.
  unfold isDirectoryAt, ensureBuildDir.
  destruct (Fs.statSync fs (Path.join buildDir)) as [n|e]; [|discriminate].
  now intros ->.
Qed.

Lemma ensureBuildDir_absent (w : world) (fs : Fs.node) (buildDir : list string) :
  isDirectoryAt fs (Path.join buildDir) = false ->
  ensureBuildDir w fs buildDir =
  match mkdir w fs (Path.join buildDir) with
  | Ok fs' => (Promise.Fulfilled, fs', [])
  | Err _ => (Promise.Rejected (VNumber 1), fs, [mkdirFailedMessage])
  end.
Proof.
  unfold isDirectoryAt, ensureBuildDir.
  destruct (Fs.statSync fs (Path.join buildDir)) as [n|e]; [|reflexivity].
  now intros ->.
Qed.

(** C7. When the build directory is already there, the first promise is
    fulfilled at once: nothing is created, nothing is printed.  When it
    is not, a successful [mkdir] also fulfils it, and a second pass finds
    the directory; a failed [mkdir], whatever the error, prints the
    message, rejects with 1, and the run ends with status 1 without
    having spawned anything. *)
Theorem ensureBuildDir_is_idempotent :
  forall (w : world) (projectDir : string) (buildDir : list string)
         (order : list nat),
    (isDirectoryAt (disk w) (Path.join buildDir) = true ->
       ensureBuildDir w (disk w) buildDir = (Promise.Fulfilled, disk w, []))
    /\ (forall fs' : Fs.node,
           isDirectoryAt (disk w) (Path.join buildDir) = false ->
           mkdir w (disk w) (Path.join buildDir) = Ok fs' ->
           ensureBuildDir w (disk w) buildDir = (Promise.Fulfilled, fs', [])
           /\ ensureBuildDir w fs' buildDir = (Promise.Fulfilled, fs', []))
    /\ (forall e : Fs.error,
           isDirectoryAt (disk w) (Path.join buildDir) = false ->
           mkdir w (disk w) (Path.join buildDir) = Err e ->
           ensureBuildDir w (disk w) buildDir
           = (Promise.Rejected (VNumber 1), disk w, [mkdirFailedMessage])
           /\ build w projectDir buildDir order
              = {| console := [mkdirFailedMessage; failureMessage (VNumber 1)];
                   exitStatus := Some 1%Z;
                   spawned := [];
                   finalDisk := disk w |}).
Proof.
  intros w projectDir buildDir order. split; [|split].
  - apply ensureBuildDir_present.
  - intros fs' Habsent Hmk. split.
    + rewrite (ensureBuildDir_absent _ _ _ Habsent), Hmk. reflexivity.
    + apply ensureBuildDir_present. now apply (mkdir_isDirectoryAt w (disk w)).
  - intros e Habsent Hmk. split.
    + rewrite (ensureBuildDir_absent _ _ _ Habsent), Hmk. reflexivity.
    + unfold build. rewrite (ensureBuildDir_absent _ _ _ Habsent), Hmk.
      reflexivity.
Qed.

(** A first run creates [build]; on the disk it leaves, a second run
    finds it.  Where [build] is a file, [mkdir] fails and the run ends
    with status 1. *)
Example ensureBuildDir_twice :
  let w := Scenario.worldOf Scenario.indexHtml (fun _ => Some 0%Z) in
  ensureBuildDir w (disk w) Scenario.buildDir
  = (Promise.Fulfilled, Scenario.rootBuilt Scenario.indexHtml [], [])
  /\ ensureBuildDir w (Scenario.rootBuilt Scenario.indexHtml []) Scenario.buildDir
     = (Promise.Fulfilled, Scenario.rootBuilt Scenario.indexHtml [], [])
  /\ fst (fst (ensureBuildDir w
                 (Scenario.rootWith Scenario.indexHtml [("build", Fs.File "")])
                 Scenario.buildDir))
     = Promise.Rejected (VNumber 1).
Proof. repeat split. Qed.

(** ** The client entry *)

Lemma find_first {A : Type} (P : A -> bool) (l1 l2 : list A) (x : A) :
  P x = true -> (forall y, In y l1 -> P y = false) ->
  find P (l1 ++ x :: l2)%list = Some x.
Proof.
  intros Hx Hl1. induction l1 as [|y l1 IH]; simpl.
  - now rewrite Hx.
  - rewrite (Hl1 y (or_introl eq_refl)). apply IH.
    intros z Hz. apply Hl1. now right.
Qed.

Lemma find_nothing {A : Type} (P : A -> bool) (l : list A) :
  (forall y, In y l -> P y = false) -> find P l = None.
Proof.
  intro H. induction l as [|y l IH]; [reflexivity|]. simpl.
  rewrite (H y (or_introl eq_refl)). apply IH. intros z Hz. apply H. now right.
Qed.

Lemma includes_false (p s : string) :
  ~ occursIn p s -> Str.includes p s = false.
Proof.
  intro H. apply Bool.not_true_iff_false. intro Hi. apply H.
  now apply includes_occursIn.
Qed.

(** C9. The client entry is the first path of the walk that contains the
    text [client.js] anywhere ([client.json] and [myclient.js] qualify);
    when no path contains it, [path.resolve(undefined)] throws in the
    handler: the client bundle and the copy are not started, the failure
    message is printed and the run ends with status 1. *)
Theorem client_entry_is_first_path_containing_client_js :
  forall (w : world) (projectDir : string) (buildDir : list string)
         (order : list nat) (fs1 : Fs.node) (out1 : list string)
         (n : Fs.node) (l : list string),
    ensureBuildDir w (disk w) buildDir = (Promise.Fulfilled, fs1, out1) ->
    Fs.statSync fs1 projectDir = Ok n ->
    walkDirSync projectDir n walkExclude = Paths l ->
    (forall (l1 l2 : list string) (client : string),
        l = (l1 ++ client :: l2)%list ->
        occursIn "client.js" client ->
        (forall f, In f l1 -> ~ occursIn "client.js" f) ->
        exists before : list task,
          startBuild w fs1 projectDir buildDir
          = Ok (before ++
                [buildScript w projectDir buildDir
                   (Path.resolve (processCwd w) [client])
                   (Path.resolve (processCwd w)
                      (List.app buildDir ["client.bundle.js"]));
                 copyDirRecursive projectDir
                   (Path.resolve (processCwd w) [projectDir; staticAssetsDir])
                   (Path.resolve (processCwd w)
                      (List.app buildDir [staticAssetsDir]))])%list)
    /\ ((forall f, In f l -> ~ occursIn "client.js" f) ->
        exitStatus (build w projectDir buildDir order) = Some 1%Z
        /\ console (build w projectDir buildDir order)
           = (out1 ++
              [failureMessage
                 (VError "TypeError" "Path must be a string. Received undefined")])%list
        /\ forall c, In c (spawned (build w projectDir buildDir order)) ->
                     file c = "node" /\
                     exists f, In f l /\ vrJsRegex f = true /\
                               nth_error (args c) 3
                               = Some (Path.resolve (processCwd w) [projectDir; f]))
    /\ occursIn "client.js" "/home/dev/app/client.json"
    /\ occursIn "client.js" "/home/dev/app/vr/myclient.js".
Proof.
  intros w projectDir buildDir order fs1 out1 n l Hdir Hstat Hwalk.
  split; [|split; [|split]].
  - intros l1 l2 client Hl Hclient Hfirst.
    subst l. unfold startBuild. rewrite Hstat, Hwalk.
    rewrite (find_first (fun f => Str.includes "client.js" f) l1 l2 client).
    + eexists. rewrite app_assoc. reflexivity.
    + now apply includes_occursIn.
    + intros f Hf. apply includes_false. now apply Hfirst.
  - intro Hnone.
    assert (Hstart : startBuild w fs1 projectDir buildDir
                     = Err (VError "TypeError" "Path must be a string. Received undefined",
                            List.app
                              (map (fun f =>
                                 buildScript w projectDir buildDir
                                   (Path.resolve (processCwd w) [projectDir; f])
                                   (Path.resolve (processCwd w)
                                      (List.app buildDir
                                         [Path.basenameExt f ".vr.js" ++ ".bundle.js"])))
                                 (filter vrJsRegex l))
                              (map (fun f => Rewrite f buildDir)
                                 (filter (fun f => String.eqb (Path.extname f) ".html")
                                    l)))).
    { unfold startBuild. rewrite Hstat, Hwalk.
      rewrite (find_nothing (fun f => Str.includes "client.js" f) l); [reflexivity|].
      intros f Hf. apply includes_false. now apply Hnone. }
    unfold build. rewrite Hdir, Hstart. cbn [exitStatus console spawned].
    split; [reflexivity|]. split; [reflexivity|].
    intros c Hc. unfold commandsOf in Hc. rewrite flat_map_app in Hc.
    apply in_app_or in Hc as [Hc|Hc];
      apply in_flat_map in Hc as (t & Ht & Hc);
      apply in_map_iff in Ht as (f & <- & Hf); [|destruct Hc].
    destruct Hc as [<-|[]]. split; [reflexivity|].
    apply filter_In in Hf as [Hf Hvr]. exists f. now repeat split.
  - now exists "/home/dev/app/", "on".
  - now exists "/home/dev/app/vr/my", "".
Qed.

Lemma client_entry_is_first_path_containing_client_js_witness :
  let w := Scenario.worldNoClient (fun _ => Some 0%Z) in
  let l := ["/home/dev/app/A.vr.js"; "/home/dev/app/index.html"] in
  ensureBuildDir w (disk w) Scenario.buildDir = (Promise.Fulfilled, disk w, [])
  /\ Fs.statSync (disk w) Scenario.projectPath = Ok Scenario.projectNoClient
  /\ walkDirSync Scenario.projectPath Scenario.projectNoClient walkExclude = Paths l
  /\ (forall f, In f l -> ~ occursIn "client.js" f)
  /\ exitStatus (build w Scenario.projectPath Scenario.buildDir [0; 1]) = Some 1%Z
  /\ spawned (build w Scenario.projectPath Scenario.buildDir [0; 1])
     = [Scenario.bundleCommand "A"].
Proof.
  intros w l.
  assert (H1 : ensureBuildDir w (disk w) Scenario.buildDir
               = (Promise.Fulfilled, disk w, [])) by reflexivity.
  assert (H2 : Fs.statSync (disk w) Scenario.projectPath
               = Ok Scenario.projectNoClient) by reflexivity.
  assert (H3 : walkDirSync Scenario.projectPath Scenario.projectNoClient walkExclude
               = Paths l) by reflexivity.
  assert (H4 : forall f, In f l -> ~ occursIn "client.js" f).
  { intros f [<-|[<-|[]]] H; apply includes_occursIn in H; discriminate H. }
  repeat (split; [assumption|]).
  destruct (client_entry_is_first_path_containing_client_js
              w Scenario.projectPath Scenario.buildDir [0; 1] (disk w) []
              Scenario.projectNoClient l H1 H2 H3) as (_ & Hnone & _).
  destruct (Hnone H4) as (Hexit & _). split; [exact Hexit|reflexivity].
Defined.

(** ** The join of the operations *)

Lemma allFinished_true (ts : list task) (finished : list nat) :
  allFinished ts finished = true <->
  (forall i, i < List.length ts -> In i finished).
Proof.
  unfold allFinished. rewrite forallb_forall. split.
  - intros H i Hi. specialize (H i). rewrite in_seq in H.
    assert (Hex : existsb (Nat.eqb i) finished = true) by (apply H; lia).
    apply existsb_exists in Hex as (j & Hj & Heq).
    apply Nat.eqb_eq in Heq. now subst j.
  - intros H i Hi. apply in_seq in Hi. apply existsb_exists.
    exists i. split; [apply H; lia|apply Nat.eqb_refl].
Qed.

Lemma existsb_eqb_In (i : nat) (l : list nat) :
  existsb (Nat.eqb i) l = true <-> In i l.
Proof.
  rewrite existsb_exists. split.
  - intros (j & Hj & Heq). apply Nat.eqb_eq in Heq. now subst j.
  - intro H. exists i. split; [exact H|apply Nat.eqb_refl].
Qed.

(** When every operation is fulfilled whenever it completes, the join is
    fulfilled for every order in which all of them complete.  [R] relates
    the operations completed so far to the file system. *)
Lemma settleAll_fulfilled (w : world) (ts : list task)
    (R : list nat -> Fs.node -> Prop) :
  (forall finished fs i t,
      R finished fs -> nth_error ts i = Some t -> ~ In i finished ->
      exists fs', complete w fs t = Settled Promise.Fulfilled fs'
                  /\ R (i :: finished) fs') ->
  forall (order finished : list nat) (fs : Fs.node),
    R finished fs ->
    (forall i, i < List.length ts -> In i finished \/ In i order) ->
    exists finished' fs',
      settleAll w ts order finished fs = AllFulfilled fs'
      /\ R finished' fs'
      /\ (forall i, i < List.length ts -> In i finished').
Proof.
  intro Hstep. induction order as [|i rest IH]; intros finished fs HR Hall;
    cbn [settleAll]; destruct (allFinished ts finished) eqn:Hfin.
  - exists finished, fs. repeat split; [exact HR|now apply allFinished_true].
  - exfalso. apply Bool.not_true_iff_false in Hfin. apply Hfin.
    apply allFinished_true. intros i Hi. destruct (Hall i Hi) as [H|[]]. exact H.
  - exists finished, fs. repeat split; [exact HR|now apply allFinished_true].
  - destruct (existsb (Nat.eqb i) finished) eqn:Hin.
    + apply IH; [exact HR|]. intros j Hj.
      destruct (Hall j Hj) as [H|[<-|H]]; auto.
      left. now apply existsb_eqb_In.
    + assert (Hnotin : ~ In i finished).
      { intro H. apply existsb_eqb_In in H. congruence. }
      destruct (nth_error ts i) as [t|] eqn:Ht.
      * destruct (Hstep finished fs i t HR Ht Hnotin) as (fs' & -> & HR').
        apply IH; [exact HR'|]. intros j Hj.
        destruct (Hall j Hj) as [H|[<-|H]]; auto; left; [now right|now left].
      * apply IH; [exact HR|]. intros j Hj.
        destruct (Hall j Hj) as [H|[<-|H]]; auto.
        apply nth_error_None in Ht. lia.
Qed.

(** When one operation is rejected whenever it completes and none
    throws, the join is rejected for every order in which that operation
    completes. *)
Lemma settleAll_rejected (w : world) (ts : list task) (P : Fs.node -> Prop)
    (j : nat) (tj : task) :
  nth_error ts j = Some tj ->
  (forall fs, P fs ->
     exists reason fs', complete w fs tj = Settled (Promise.Rejected reason) fs') ->
  (forall fs i t, P fs -> nth_error ts i = Some t ->
     (exists reason fs', complete w fs t = Settled (Promise.Rejected reason) fs')
     \/ (exists fs', complete w fs t = Settled Promise.Fulfilled fs' /\ P fs')) ->
  forall (order finished : list nat) (fs : Fs.node),
    P fs -> ~ In j finished -> In j order ->
    exists reason fs', settleAll w ts order finished fs = FirstRejected reason fs'.
Proof.
  intros Hj Hrej Hany.
  assert (Hlen : j < List.length ts) by (apply nth_error_Some; congruence).
  induction order as [|i rest IH]; intros finished fs HP Hnot Hin; [destruct Hin|].
  cbn [settleAll].
  assert (Hfin : allFinished ts finished = false).
  { apply Bool.not_true_iff_false. intro H. apply Hnot.
    now apply (proj1 (allFinished_true ts finished) H). }
  rewrite Hfin.
  destruct (existsb (Nat.eqb i) finished) eqn:Hi.
  - apply IH; [exact HP|exact Hnot|]. destruct Hin as [<-|Hin]; [|exact Hin].
    apply existsb_eqb_In in Hi. contradiction.
  - destruct (nth_error ts i) as [t|] eqn:Ht.
    + destruct (Hany fs i t HP Ht) as [(reason & fs' & ->)|(fs' & Hc & HP')].
      * now exists reason, fs'.
      * assert (Hij : i <> j).
        { intros ->. rewrite Hj in Ht. injection Ht as <-.
          destruct (Hrej fs HP) as (reason & fs2 & Hc2). congruence. }
        rewrite Hc. apply IH; [exact HP'| |destruct Hin as [<-|Hin]; [congruence|exact Hin]].
        intros [H|H]; [congruence|contradiction].
    + apply IH; [exact HP|exact Hnot|]. destruct Hin as [<-|Hin]; [|exact Hin].
      congruence.
Qed.

(** ** A run on the project of the scenario *)

Lemma scenario_locate (codes : command -> option Z) (fuel : nat) :
  locate (S fuel) (Scenario.worldOf Scenario.indexHtml codes) Scenario.projectPath
  = Some (Found Scenario.projectPath).
Proof.
  cbn [locate].
  assert (H : hasPackage (Scenario.worldOf Scenario.indexHtml codes)
                Scenario.projectPath = Ok true) by (vm_compute; reflexivity).
  now rewrite H.
Qed.

Lemma scenario_ensureBuildDir (codes : command -> option Z) :
  ensureBuildDir (Scenario.worldOf Scenario.indexHtml codes)
    (Scenario.root Scenario.indexHtml) Scenario.buildDir
  = (Promise.Fulfilled, Scenario.rootBuilt Scenario.indexHtml [], []).
Proof. vm_compute. reflexivity. Qed.

Lemma scenario_startBuild (codes : command -> option Z) :
  startBuild (Scenario.worldOf Scenario.indexHtml codes)
    (Scenario.rootBuilt Scenario.indexHtml []) Scenario.projectPath
    Scenario.buildDir
  = Ok Scenario.tasks.
Proof. vm_compute. reflexivity. Qed.

Lemma scenario_main (codes : command -> option Z) (fuel : nat)
    (order : list nat) :
  main (S fuel) (Scenario.worldOf Scenario.indexHtml codes) order
  = Some
      match settleAll (Scenario.worldOf Scenario.indexHtml codes) Scenario.tasks
              order [] (Scenario.rootBuilt Scenario.indexHtml []) with
      | AllFulfilled fs2 =>
          {| console := [successMessage Scenario.projectPath Scenario.buildDir];
             exitStatus := Some 0%Z;
             spawned := Scenario.commands; finalDisk := fs2 |}
      | FirstRejected reason fs2 =>
          {| console := [failureMessage reason];
             exitStatus := Some 1%Z;
             spawned := Scenario.commands; finalDisk := fs2 |}
      | Crashed _ fs2 =>
          {| console := []; exitStatus := Some 1%Z;
             spawned := Scenario.commands; finalDisk := fs2 |}
      | Waiting fs2 =>
          {| console := []; exitStatus := None;
             spawned := Scenario.commands; finalDisk := fs2 |}
      end.
Proof.
  unfold main.
  change (processCwd (Scenario.worldOf Scenario.indexHtml codes))
    with Scenario.projectPath.
  rewrite scenario_locate. unfold build.
  change (disk (Scenario.worldOf Scenario.indexHtml codes))
    with (Scenario.root Scenario.indexHtml).
  change [Scenario.projectPath; buildDirName] with Scenario.buildDir.
  rewrite scenario_ensureBuildDir, scenario_startBuild.
  change (processCwd (Scenario.worldOf Scenario.indexHtml codes))
    with Scenario.projectPath.
  now destruct (settleAll _ _ _ _ _).
Qed.

Lemma scenario_complete_child (codes : command -> option Z) (fs : Fs.node)
    (c : command) :
  complete (Scenario.worldOf Scenario.indexHtml codes) fs (Child c)
  = Settled (onClose (codes c) Promise.Pending) fs.
Proof. reflexivity. Qed.

Lemma scenario_complete_rewrite (codes : command -> option Z)
    (built : list (string * Fs.node)) :
  built = [] \/
  built = [("index.html", Fs.File Scenario.indexHtmlRewritten)] ->
  complete (Scenario.worldOf Scenario.indexHtml codes)
    (Scenario.rootBuilt Scenario.indexHtml built)
    (Rewrite "/home/dev/app/index.html" Scenario.buildDir)
  = Settled Promise.Fulfilled
      (Scenario.rootBuilt Scenario.indexHtml
         [("index.html", Fs.File Scenario.indexHtmlRewritten)]).
Proof. intros [->| ->]; vm_compute; reflexivity. Qed.

Lemma scenario_task_cases (i : nat) (t : task) :
  nth_error Scenario.tasks i = Some t ->
  (i = 2 /\ t = Rewrite "/home/dev/app/index.html" Scenario.buildDir)
  \/ (i <> 2 /\ exists c, t = Child c /\ In c Scenario.commands).
Proof.
  destruct i as [|[|[|[|[|i]]]]]; cbn [nth_error Scenario.tasks]; intro H;
    try (injection H as <-);
    try (right; split; [discriminate|eexists; split; [reflexivity|simpl; tauto]]).
  - left. now split.
  - destruct i; discriminate H.
Qed.

(** C1. On the project of the scenario (entries [A.vr.js] and [B.vr.js],
    [client.js], an [index.html] with bundle references, [static_assets]),
    for every order in which the five operations complete: when every
    child closes with code 0, the run has spawned the bundler for [A],
    [B] and [client] towards [build/A.bundle.js], [build/B.bundle.js] and
    [build/client.bundle.js] and the copy of [static_assets] towards
    [build/static_assets], has written the rewritten page to
    [build/index.html], prints the success message and ends with status
    0; when one bundler child closes with another code, the run prints
    the failure message and ends with status 1. *)
Theorem run_builds_every_target :
  forall (codes : command -> option Z) (order : list nat) (fuel : nat),
    (forall i, i < 5 -> In i order) ->
    ((forall c, In c Scenario.commands -> codes c = Some 0%Z) ->
     main (S fuel) (Scenario.worldOf Scenario.indexHtml codes) order
     = Some {| console := [successMessage Scenario.projectPath Scenario.buildDir];
               exitStatus := Some 0%Z;
               spawned := Scenario.commands;
               finalDisk :=
                 Scenario.rootBuilt Scenario.indexHtml
                   [("index.html", Fs.File Scenario.indexHtmlRewritten)] |})
    /\ (forall name : string,
           In name ["A"; "B"; "client"] ->
           codes (Scenario.bundleCommand name) <> Some 0%Z ->
           exists (reason : jsval) (fs' : Fs.node),
             main (S fuel) (Scenario.worldOf Scenario.indexHtml codes) order
             = Some {| console := [failureMessage reason];
                       exitStatus := Some 1%Z;
                       spawned := Scenario.commands;
                       finalDisk := fs' |}).
Proof.
  intros codes order fuel Horder. split.
  - intro Hcodes. rewrite scenario_main.
    destruct (settleAll_fulfilled
                (Scenario.worldOf Scenario.indexHtml codes) Scenario.tasks
                (fun finished fs =>
                   fs = Scenario.rootBuilt Scenario.indexHtml
                          (if existsb (Nat.eqb 2) finished
                           then [("index.html", Fs.File Scenario.indexHtmlRewritten)]
                           else [])))
      with (order := order) (finished := @nil nat)
           (fs := Scenario.rootBuilt Scenario.indexHtml [])
      as (finished' & fs' & -> & -> & Hall).
    + intros finished fs i t -> Ht Hnotin.
      destruct (scenario_task_cases i t Ht) as [[-> ->]|(Hi & c & -> & Hc)].
      * eexists. split.
        -- apply scenario_complete_rewrite.
           destruct (existsb (Nat.eqb 2) finished); auto.
        -- reflexivity.
      * eexists. split.
        -- rewrite scenario_complete_child, (Hcodes c Hc). reflexivity.
        -- cbn [existsb]. apply Nat.eqb_neq in Hi. rewrite Nat.eqb_sym in Hi.
           now rewrite Hi.
    + reflexivity.
    + intros i Hi. right. now apply Horder.
    + assert (H2 : existsb (Nat.eqb 2) finished' = true).
      { apply existsb_eqb_In. apply Hall. simpl. lia. }
      now rewrite H2.
  - intros name Hname Hcode. rewrite scenario_main.
    assert (Hj : exists j, j < 5 /\
                   nth_error Scenario.tasks j = Some (Child (Scenario.bundleCommand name))).
    { destruct Hname as [<-|[<-|[<-|[]]]];
        [exists 0|exists 1|exists 3]; (split; [lia|reflexivity]). }
    destruct Hj as (j & Hj5 & Hj).
    destruct (settleAll_rejected
                (Scenario.worldOf Scenario.indexHtml codes) Scenario.tasks
                (fun fs => exists built,
                   fs = Scenario.rootBuilt Scenario.indexHtml built /\
                   (built = [] \/
                    built = [("index.html", Fs.File Scenario.indexHtmlRewritten)]))
                j (Child (Scenario.bundleCommand name)) Hj)
      with (order := order) (finished := @nil nat)
           (fs := Scenario.rootBuilt Scenario.indexHtml [])
      as (reason & fs' & ->).
    + intros fs _. rewrite scenario_complete_child, onClose_pending.
      destruct (codes (Scenario.bundleCommand name)) as [[| |]|];
        try congruence; now eexists _, _.
    + intros fs i t (built & -> & Hbuilt) Ht.
      destruct (scenario_task_cases i t Ht) as [[-> ->]|(Hi & c & -> & Hc)].
      * right. eexists. split; [now apply scenario_complete_rewrite|].
        eexists. split; [reflexivity|now right].
      * rewrite scenario_complete_child, onClose_pending.
        destruct (codes c) as [[| |]|].
        -- right. eexists. split; [reflexivity|]. now exists built.
        -- left. now eexists _, _.
        -- left. now eexists _, _.
        -- left. now eexists _, _.
    + exists []. split; [reflexivity|now left].
    + intros [].
    + now apply Horder.
    + now exists reason, fs'.
Qed.

Lemma run_builds_every_target_witness :
  (forall i, i < 5 -> In i [4; 2; 0; 3; 1])
  /\ main 1 (Scenario.worldOf Scenario.indexHtml (fun _ => Some 0%Z)) [4; 2; 0; 3; 1]
     = Some {| console := [successMessage Scenario.projectPath Scenario.buildDir];
               exitStatus := Some 0%Z;
               spawned := Scenario.commands;
               finalDisk :=
                 Scenario.rootBuilt Scenario.indexHtml
                   [("index.html", Fs.File Scenario.indexHtmlRewritten)] |}
  /\ exists (reason : jsval) (fs' : Fs.node),
       main 1 (Scenario.worldOf Scenario.indexHtml
                 (fun c => if String.eqb (file c) "cp" then Some 0%Z else Some 2%Z))
            [4; 2; 0; 3; 1]
       = Some {| console := [failureMessage reason];
                 exitStatus := Some 1%Z;
                 spawned := Scenario.commands;
                 finalDisk := fs' |}.
Proof.
  assert (H : forall i, i < 5 -> In i [4; 2; 0; 3; 1]).
  { intros i Hi. simpl. lia. }
  split; [exact H|]. split.
  - apply (proj1 (run_builds_every_target (fun _ => Some 0%Z) [4; 2; 0; 3; 1] 0 H)).
    reflexivity.
  - apply (proj2 (run_builds_every_target
                    (fun c => if String.eqb (file c) "cp" then Some 0%Z else Some 2%Z)
                    [4; 2; 0; 3; 1] 0 H) "B").
    + simpl. tauto.
    + discriminate.
Defined.

(** ** The walk returns the files of the tree, and only them *)

Lemma uniqueTree_dir (entries : list (string * Fs.node)) :
  uniqueTree (Fs.Dir entries) = true ->
  distinct (map fst entries) = true
  /\ forall e, In e entries -> uniqueTree (snd e) = true.
Proof.
  cbn [uniqueTree]. intro H. apply andb_true_iff in H as [Hd Hall].
  split; [exact Hd|]. clear Hd.
  induction entries as [|[f c] rest IH]; intros e He; [destruct He|].
  apply andb_true_iff in Hall as [Hc Hrest].
  destruct He as [<-|He]; [exact Hc|now apply IH].
Qed.

Lemma assoc_In (name : string) (entries : list (string * Fs.node)) (c : Fs.node) :
  Fs.assoc name entries = Some c -> In (name, c) entries.
Proof.
  induction entries as [|[f c0] rest IH]; simpl; [discriminate|].
  destruct (String.eqb_spec f name) as [->|_].
  - intro H. injection H as ->. now left.
  - intro H. right. now apply IH.
Qed.

Lemma assoc_distinct (name : string) (entries : list (string * Fs.node))
    (c : Fs.node) :
  distinct (map fst entries) = true ->
  In (name, c) entries -> Fs.assoc name entries = Some c.
Proof.
  induction entries as [|[f c0] rest IH]; intros Hd Hin; [destruct Hin|].
  cbn [map fst distinct] in Hd. apply andb_true_iff in Hd as [Hf Hrest].
  apply negb_true_iff in Hf. cbn [Fs.assoc].
  destruct Hin as [E|Hin].
  - injection E as -> ->. now rewrite String.eqb_refl.
  - destruct (String.eqb_spec f name) as [->|_]; [|now apply IH].
    exfalso. apply Bool.not_true_iff_false in Hf. apply Hf.
    apply existsb_exists. exists name. split; [|apply String.eqb_refl].
    apply in_map_iff. now exists (name, c).
Qed.

Lemma lookupSegs_app (a b : list string) (n : Fs.node) :
  Fs.lookupSegs (a ++ b) n =
  match Fs.lookupSegs a n with
  | Ok m => Fs.lookupSegs b m
  | Err e => Err e
  end.
Proof.
  revert n. induction a as [|x a IH]; intro n; [reflexivity|].
  cbn [List.app Fs.lookupSegs]. destruct n as [data|entries]; [reflexivity|].
  destruct (Fs.assoc x entries); [apply IH|reflexivity].
Qed.

(** Every path of the walk leads to a file of the tree. *)
Lemma walkDirSync_sound (exclude : list string) (n : Fs.node) :
  forall (names : list string) (p : string),
    Forall (fun f => isName f = true) names ->
    wfTree n = true -> uniqueTree n = true ->
    In p (pathsOf (walkDirSync (absPath names) n exclude)) ->
    exists (rel : list string) (data : string),
      p = absPath (names ++ rel) /\
      Forall (fun f => isName f = true) rel /\
      Forall (fun c => ~ In c exclude) rel /\
      Fs.lookupSegs rel n = Ok (Fs.File data).
Proof.
  induction n as [data|entries IH] using node_nested_ind;
    intros names p Hnames Hwf Huniq Hin.
  - destruct Hin as [<-|[]]. exists [], data. rewrite app_nil_r. now repeat split.
  - rewrite walkDirSync_dir_flat in Hin. cbn [pathsOf] in Hin.
    apply in_flat_map in Hin as ([f child] & He & Hp).
    apply filter_In in He as [He Hex]. cbn [fst snd] in *.
    apply negb_true_iff in Hex.
    destruct (wfTree_dir _ Hwf _ He) as [Hf Hchild].
    destruct (uniqueTree_dir _ Huniq) as [Hd Hu]. specialize (Hu _ He).
    cbn [fst snd] in *.
    rewrite (join_abs_name _ _ Hnames Hf) in Hp.
    rewrite Forall_forall in IH.
    destruct (IH _ He (names ++ [f])%list p) as (rel & data & -> & Hrel & Hnot & Hlook);
      [apply Forall_app; split; [exact Hnames|now constructor]
      |exact Hchild|exact Hu|exact Hp|].
    exists (f :: rel), data. rewrite <- app_assoc. repeat split.
    + now constructor.
    + constructor; [now apply excluded_false_iff|exact Hnot].
    + cbn [Fs.lookupSegs]. now rewrite (assoc_distinct _ _ _ Hd He).
Qed.

(** Every file of the tree that no excluded name leads to is returned. *)
Lemma walkDirSync_complete (exclude : list string) (n : Fs.node) :
  forall (names rel : list string) (data : string),
    Forall (fun f => isName f = true) names ->
    wfTree n = true ->
    Forall (fun c => ~ In c exclude) rel ->
    Fs.lookupSegs rel n = Ok (Fs.File data) ->
    In (absPath (names ++ rel)) (pathsOf (walkDirSync (absPath names) n exclude)).
Proof.
  induction n as [data0|entries IH] using node_nested_ind;
    intros names rel data Hnames Hwf Hnot Hlook.
  - destruct rel as [|f rel]; [|discriminate Hlook].
    rewrite app_nil_r. now left.
  - destruct rel as [|f rel]; [discriminate Hlook|].
    cbn [Fs.lookupSegs] in Hlook.
    destruct (Fs.assoc f entries) as [child|] eqn:Ea; [|discriminate Hlook].
    apply assoc_In in Ea.
    inversion Hnot as [|? ? Hf Hrel]; subst.
    destruct (wfTree_dir _ Hwf _ Ea) as [Hname Hchild]. cbn [fst snd] in *.
    rewrite walkDirSync_dir_flat. cbn [pathsOf].
    apply in_flat_map. exists (f, child). split.
    + apply filter_In. split; [exact Ea|]. cbn [fst].
      apply negb_true_iff. now apply excluded_false_iff.
    + cbn [fst snd]. rewrite (join_abs_name _ _ Hnames Hname).
      rewrite Forall_forall in IH.
      change (names ++ f :: rel)%list with (names ++ [f] ++ rel)%list.
      rewrite app_assoc.
      apply (IH _ Ea (names ++ [f])%list rel data);
        [apply Forall_app; split; [exact Hnames|now constructor]
        |exact Hchild|exact Hrel|exact Hlook].
Qed.

(** X1. In a tree whose directories list distinct file names, the walk
    returns exactly the files that can be reached from the walked
    directory through names that are not excluded: no such file is
    missed, and nothing else (no directory, no file below an excluded
    name) is returned. *)
Theorem walkDirSync_returns_exactly_the_files :
  forall (exclude names : list string) (n : Fs.node) (p : string),
    Forall (fun f => isName f = true) names ->
    wfTree n = true -> uniqueTree n = true ->
    (In p (pathsOf (walkDirSync (absPath names) n exclude))
     <-> exists (rel : list string) (data : string),
           p = absPath (names ++ rel) /\
           Forall (fun c => ~ In c exclude) rel /\
           Fs.lookupSegs rel n = Ok (Fs.File data)).
Proof.
  intros exclude names n p Hnames Hwf Huniq. split.
  - intro Hin.
    destruct (walkDirSync_sound exclude n names p Hnames Hwf Huniq Hin)
      as (rel & data & Hp & _ & Hnot & Hlook).
    now exists rel, data.
  - intros (rel & data & -> & Hnot & Hlook).
    now apply (walkDirSync_complete exclude n names rel data).
Qed.

Lemma walkDirSync_returns_exactly_the_files_witness :
  let n := Scenario.project Scenario.indexHtml in
  Forall (fun f => isName f = true) Scenario.projectNames
  /\ wfTree n = true /\ uniqueTree n = true
  /\ (In "/home/dev/app/index.html"
        (pathsOf (walkDirSync (absPath Scenario.projectNames) n walkExclude))
      <-> exists (rel : list string) (data : string),
            "/home/dev/app/index.html" = absPath (Scenario.projectNames ++ rel) /\
            Forall (fun c => ~ In c walkExclude) rel /\
            Fs.lookupSegs rel n = Ok (Fs.File data)).
Proof.
  intro n.
  assert (H1 : Forall (fun f => isName f = true) Scenario.projectNames)
    by (repeat constructor).
  assert (H2 : wfTree n = true) by reflexivity.
  assert (H3 : uniqueTree n = true) by reflexivity.
  repeat (split; [assumption|]).
  exact (walkDirSync_returns_exactly_the_files walkExclude Scenario.projectNames n
           "/home/dev/app/index.html" H1 H2 H3).
Defined.

(** X2. When the walked directory is the node the disk holds at that
    path, every path the walk returns can be read from the disk: it is a
    regular file, so the read of an HTML file found by the walk does not
    fail on a disk that has not changed. *)
Theorem walkDirSync_paths_are_readable :
  forall (exclude names : list string) (fs n : Fs.node) (p : string),
    Forall (fun f => isName f = true) names ->
    wfTree n = true -> uniqueTree n = true ->
    Fs.statSync fs (absPath names) = Ok n ->
    In p (pathsOf (walkDirSync (absPath names) n exclude)) ->
    exists data : string, Fs.readFile fs p = Ok data.
Proof.
  intros exclude names fs n p Hnames Hwf Huniq Hstat Hin.
  destruct (walkDirSync_sound exclude n names p Hnames Hwf Huniq Hin)
    as (rel & data & -> & Hrel & _ & Hlook).
  exists data. unfold Fs.readFile, Fs.statSync in *.
  rewrite segments_absPath in Hstat by exact Hnames.
  rewrite segments_absPath by (apply Forall_app; now split).
  now rewrite lookupSegs_app, Hstat, Hlook.
Qed.

Lemma walkDirSync_paths_are_readable_witness :
  let fs := Scenario.root Scenario.indexHtml in
  let n := Scenario.project Scenario.indexHtml in
  Forall (fun f => isName f = true) Scenario.projectNames
  /\ wfTree n = true /\ uniqueTree n = true
  /\ Fs.statSync fs (absPath Scenario.projectNames) = Ok n
  /\ In "/home/dev/app/index.html"
        (pathsOf (walkDirSync (absPath Scenario.projectNames) n walkExclude))
  /\ exists data : string, Fs.readFile fs "/home/dev/app/index.html" = Ok data.
Proof.
  intros fs n.
  assert (H1 : Forall (fun f => isName f = true) Scenario.projectNames)
    by (repeat constructor).
  assert (H2 : wfTree n = true) by reflexivity.
  assert (H3 : uniqueTree n = true) by reflexivity.
  assert (H4 : Fs.statSync fs (absPath Scenario.projectNames) = Ok n) by reflexivity.
  assert (H5 : In "/home/dev/app/index.html"
                 (pathsOf (walkDirSync (absPath Scenario.projectNames) n walkExclude))).
  { vm_compute. do 3 right. left. reflexivity. }
  repeat (split; [assumption|]).
  exact (walkDirSync_paths_are_readable walkExclude Scenario.projectNames fs n
           "/home/dev/app/index.html" H1 H2 H3 H4 H5).
Defined.

(** ** What the pattern matches *)

Lemma occursIn_cons (p s : string) (c : ascii) :
  occursIn p s -> occursIn p (String c s).
Proof. intros (a & b & ->). now exists (String c a), b. Qed.

Lemma occursIn_app_l (p s x : string) : occursIn p s -> occursIn p (x ++ s).
Proof.
  intro H. induction x as [|c x IH]; [exact H|]. now apply occursIn_cons.
Qed.

Lemma occursIn_app_r (p s x : string) : occursIn p s -> occursIn p (s ++ x).
Proof.
  intros (a & b & ->). exists a, (b ++ x). now rewrite !sapp_assoc.
Qed.

Lemma occursIn_trans (p m s : string) :
  occursIn p m -> occursIn m s -> occursIn p s.
Proof.
  intros (a & b & ->) (a' & b' & ->).
  exists (a' ++ a), (b ++ b'). now rewrite !sapp_assoc.
Qed.

(** A match attempt succeeds only on a text that holds [.bundle]. *)
Lemma matchAt_some_occurs (s : string) :
  forall out : string,
    Regex.matchAt bundleRegex s = Some out -> occursIn ".bundle" s.
Proof.
  induction s as [|c s IH]; intro out; [discriminate|].
  rewrite matchAt_cons. destruct (isQuote c); [discriminate|].
  destruct (Regex.matchAt bundleRegex s) as [o|] eqn:E.
  - intros _. apply occursIn_cons. now apply (IH o).
  - intro H. apply occursIn_cons. unfold afterGroup in H.
    apply run_lits_startsWith in H. destruct (startsWith_inv _ _ H) as [r ->].
    now exists "", r.
Qed.

Lemma scanAll_elements (n : nat) :
  forall (s m : string),
    String.length s < n -> In m (scanAll s) ->
    noQuote m = true /\ occursIn ".bundle" m /\ occursIn m s.
Proof.
  induction n as [|n IH]; intros s m Hlen Hin; [inversion Hlen|].
  destruct (run_decomposition s) as (r & tail & -> & Hr & Ht).
  rewrite (scanAll_run r tail Hr Ht) in Hin.
  apply in_app_or in Hin as [Hin|Hin].
  - destruct (Regex.matchAt bundleRegex r) as [out|] eqn:E; [|destruct Hin].
    destruct Hin as [<-|[]]. repeat split.
    + exact Hr.
    + now apply (matchAt_some_occurs r out).
    + exists "", tail. reflexivity.
  - destruct tail as [|q t]; [destruct Hin|].
    unfold atBoundary in Ht. rewrite (scanAll_quote q t Ht) in Hin.
    rewrite slength_app in Hlen. simpl in Hlen.
    destruct (IH t m) as (H1 & H2 & H3); [lia|exact Hin|].
    repeat split; [exact H1|exact H2|].
    apply occursIn_app_l. now apply occursIn_cons.
Qed.

(** A text that is matched as a whole holds no quote and matches at its
    start. *)
Lemma jsMatch_whole (p : string) :
  Regex.jsMatch bundleRegex p = Some [p] ->
  noQuote p = true /\ exists out, Regex.matchAt bundleRegex p = Some out.
Proof.
  intro Hp.
  assert (Hin : In p (scanAll p)).
  { rewrite jsMatch_scanAll in Hp. destruct (scanAll p); [discriminate Hp|].
    injection Hp as ->. now left. }
  destruct (scanAll_elements (S (String.length p)) p p
              (Nat.lt_succ_diag_r _) Hin) as (Hq & _ & _).
  split; [exact Hq|].
  destruct (Regex.matchAt bundleRegex p) as [out|] eqn:E; [now exists out|].
  rewrite <- (sapp_nil_r p) in Hin.
  rewrite (scanAll_skip p "" Hq eq_refl E) in Hin. destruct Hin.
Qed.

(** X3. Every bundle path that [match] finds is a piece of the page that
    holds no quote and contains the text [.bundle]; and [match] never
    yields an empty array. *)
Theorem bundle_paths_are_quote_free_pieces :
  forall (data : string) (bundlePaths : list string),
    Regex.jsMatch bundleRegex data = Some bundlePaths ->
    bundlePaths <> []
    /\ forall p, In p bundlePaths ->
         noQuote p = true /\ occursIn ".bundle" p /\ occursIn p data.
Proof.
  intros data bundlePaths H. rewrite jsMatch_scanAll in H.
  destruct (scanAll data) as [|m l] eqn:E; [discriminate H|].
  injection H as <-. split; [discriminate|].
  intros p Hp. apply (scanAll_elements (S (String.length data)));
    [apply Nat.lt_succ_diag_r|now rewrite E].
Qed.

Lemma bundle_paths_are_quote_free_pieces_witness :
  Regex.jsMatch bundleRegex Scenario.indexHtml
  = Some ["./client.bundle?platform=vr"; "../index.vr.bundle?platform=vr&dev=true"]
  /\ forall p,
       In p ["./client.bundle?platform=vr"; "../index.vr.bundle?platform=vr&dev=true"] ->
       noQuote p = true /\ occursIn ".bundle" p /\ occursIn p Scenario.indexHtml.
Proof.
  assert (H : Regex.jsMatch bundleRegex Scenario.indexHtml
              = Some ["./client.bundle?platform=vr";
                      "../index.vr.bundle?platform=vr&dev=true"])
    by (vm_compute; reflexivity).
  split; [exact H|].
  exact (proj2 (bundle_paths_are_quote_free_pieces Scenario.indexHtml _ H)).
Defined.

(** X4. A page that does not contain the text [.bundle] has no match:
    [match] yields [null], the callback throws, and the page is not
    written to the build directory. *)
Theorem page_without_dot_bundle_is_dropped :
  forall (w : world) (fs : Fs.node) (htmlFile data : string)
         (buildDir : list string),
    Fs.readFile fs htmlFile = Ok data ->
    ~ occursIn ".bundle" data ->
    Regex.jsMatch bundleRegex data = None
    /\ complete w fs (Rewrite htmlFile buildDir)
       = Uncaught (VError "TypeError" "Cannot read property 'length' of null").
Proof.
  intros w fs htmlFile data buildDir Hread Hno.
  assert (Hnone : Regex.jsMatch bundleRegex data = None).
  { apply jsMatch_none. destruct (scanAll data) as [|m l] eqn:E; [reflexivity|].
    exfalso. apply Hno.
    destruct (scanAll_elements (S (String.length data)) data m) as (_ & H1 & H2);
      [apply Nat.lt_succ_diag_r|rewrite E; now left|].
    now apply (occursIn_trans ".bundle" m data). }
  split; [exact Hnone|].
  unfold complete, replaceBundleExtensionsInHtml.
  now rewrite Hread, (jsMatch_toString_none data Hnone).
Qed.

Lemma page_without_dot_bundle_is_dropped_witness :
  let w := Scenario.worldOf Scenario.plainHtml (fun _ => Some 0%Z) in
  Fs.readFile (disk w) "/home/dev/app/index.html" = Ok Scenario.plainHtml
  /\ ~ occursIn ".bundle" Scenario.plainHtml
  /\ Regex.jsMatch bundleRegex Scenario.plainHtml = None
  /\ complete w (disk w) (Rewrite "/home/dev/app/index.html" Scenario.buildDir)
     = Uncaught (VError "TypeError" "Cannot read property 'length' of null").
Proof.
  intro w.
  assert (H1 : Fs.readFile (disk w) "/home/dev/app/index.html"
               = Ok Scenario.plainHtml) by reflexivity.
  assert (H2 : ~ occursIn ".bundle" Scenario.plainHtml).
  { intro H. apply includes_occursIn in H. discriminate H. }
  repeat (split; [assumption|]).
  exact (page_without_dot_bundle_is_dropped w (disk w) "/home/dev/app/index.html"
           Scenario.plainHtml Scenario.buildDir H1 H2).
Defined.

(** ** The normalized bundle path *)

Lemma split_nonempty (c : ascii) (s : string) : Str.split c s <> [].
Proof.
  destruct s as [|a s]; cbn [Str.split]; [discriminate|].
  destruct (Ascii.eqb a c); [discriminate|].
  destruct (Str.split c s); discriminate.
Qed.

Lemma split_noChar (c : ascii) (x : string) :
  noChar c x = true -> Str.split c x = [x].
Proof.
  induction x as [|a x IH]; [reflexivity|]. cbn [noChar Str.split].
  intro H. apply andb_true_iff in H as [Ha Hx]. apply negb_true_iff in Ha.
  now rewrite Ha, (IH Hx).
Qed.

Lemma split_app_sep_any (c : ascii) (a x : string) :
  Str.split c (a ++ String c x) = (Str.split c a ++ Str.split c x)%list.
Proof.
  induction a as [|d a IH]; cbn [append Str.split].
  - now rewrite Ascii.eqb_refl.
  - rewrite IH. destruct (Ascii.eqb d c); [reflexivity|].
    destruct (Str.split c a) as [|h t] eqn:E; [|reflexivity].
    now elim (split_nonempty c a).
Qed.

Lemma split_elements_noChar (c : ascii) (s : string) :
  Forall (fun x => noChar c x = true) (Str.split c s).
Proof.
  induction s as [|a s IH]; cbn [Str.split]; [now repeat constructor|].
  destruct (Ascii.eqb a c) eqn:E; [now constructor|].
  destruct (Str.split c s) as [|h t]; [repeat constructor; simpl; now rewrite E|].
  inversion IH as [|? ? Hh Ht]; subst. constructor; [|exact Ht].
  simpl. now rewrite E, Hh.
Qed.

Lemma split_keeps_noChar (c d : ascii) (s : string) :
  noChar c s = true -> Forall (fun x => noChar c x = true) (Str.split d s).
Proof.
  induction s as [|a s IH]; cbn [Str.split noChar]; [now repeat constructor|].
  intro H. apply andb_true_iff in H as [Ha Hs]. specialize (IH Hs).
  destruct (Ascii.eqb a d); [now constructor|].
  destruct (Str.split d s) as [|h t]; [repeat constructor; simpl; now rewrite Ha|].
  inversion IH as [|? ? Hh Ht]; subst. constructor; [|exact Ht].
  simpl. now rewrite Ha, Hh.
Qed.

Lemma noChar_app (c : ascii) (a b : string) :
  noChar c (a ++ b) = noChar c a && noChar c b.
Proof.
  induction a as [|x a IH]; [reflexivity|]. simpl. now rewrite IH, andb_assoc.
Qed.

Lemma lastNonEmpty_app (l1 l2 : list string) (found : string) :
  Path.lastNonEmpty (l1 ++ l2) found
  = Path.lastNonEmpty l2 (Path.lastNonEmpty l1 found).
Proof.
  revert found. induction l1 as [|x l1 IH]; intro found; [reflexivity|].
  simpl. apply IH.
Qed.

Lemma lastNonEmpty_Forall (P : string -> Prop) (l : list string) :
  forall found, P found -> Forall P l -> P (Path.lastNonEmpty l found).
Proof.
  induction l as [|x l IH]; intros found Hf Hl; [exact Hf|].
  inversion Hl as [|? ? Hx Hrest]; subst. simpl. apply IH; [|exact Hrest].
  now destruct (Str.isEmpty x).
Qed.

(** [path.basename] sees only what follows the last separator. *)
Lemma basename_after_sep (d b : string) :
  noChar "/" b = true -> b <> "" ->
  Path.basename (d ++ String "/" b) = b /\ Path.basename b = b.
Proof.
  intros Hb Hne. unfold Path.basename.
  rewrite split_app_sep_any, lastNonEmpty_app, (split_noChar _ _ Hb).
  destruct b; [congruence|]. now split.
Qed.

Lemma basename_noSlash (p : string) : noChar "/" (Path.basename p) = true.
Proof.
  unfold Path.basename.
  apply (lastNonEmpty_Forall (fun x => noChar "/" x = true));
    [reflexivity|apply split_elements_noChar].
Qed.

Lemma hd_Forall (P : string -> Prop) (l : list string) :
  P "" -> Forall P l -> P (hd "" l).
Proof. intros H0 Hl. destruct Hl; [exact H0|assumption]. Qed.

Lemma updatedPath_of_base (d name rest : string) :
  noChar "/" name = true -> noChar "." name = true -> noChar "/" rest = true ->
  updatedPath (d ++ String "/" (name ++ String "." rest))
  = "/" ++ name ++ ".bundle.js"
  /\ updatedPath (name ++ String "." rest) = "/" ++ name ++ ".bundle.js".
Proof.
  intros Hn Hd Hr.
  assert (Hb : noChar "/" (name ++ String "." rest) = true).
  { rewrite noChar_app, Hn. simpl. exact Hr. }
  assert (Hne : name ++ String "." rest <> "") by (destruct name; discriminate).
  destruct (basename_after_sep d _ Hb Hne) as [E1 E2].
  unfold updatedPath. rewrite E1, E2, split_app_sep_any, (split_noChar _ _ Hd).
  now split.
Qed.

(** X5. The replacement text depends only on what follows the last
    separator of the matched text: for a base name [name.rest], [name]
    without a dot, it is [/name.bundle.js], whatever the directory part
    and whatever follows the first dot (extensions, a query string). *)
Theorem updatedPath_keeps_first_segment_of_base_name :
  forall (d name rest : string),
    noChar "/" name = true -> noChar "." name = true ->
    noChar "/" rest = true ->
    updatedPath (d ++ "/" ++ name ++ "." ++ rest) = "/" ++ name ++ ".bundle.js"
    /\ updatedPath (name ++ "." ++ rest) = "/" ++ name ++ ".bundle.js".
Proof. exact updatedPath_of_base. Qed.

Lemma updatedPath_keeps_first_segment_of_base_name_witness :
  noChar "/" "index" = true /\ noChar "." "index" = true
  /\ noChar "/" "vr.bundle?platform=vr&dev=true" = true
  /\ updatedPath (".." ++ "/" ++ "index" ++ "." ++ "vr.bundle?platform=vr&dev=true")
     = "/" ++ "index" ++ ".bundle.js"
  /\ updatedPath ("index" ++ "." ++ "vr.bundle?platform=vr&dev=true")
     = "/" ++ "index" ++ ".bundle.js".
Proof.
  do 3 (split; [reflexivity|]).
  exact (updatedPath_keeps_first_segment_of_base_name
           ".." "index" "vr.bundle?platform=vr&dev=true" eq_refl eq_refl eq_refl).
Defined.

(** X6. The replacement text always has the form [/name.bundle.js] with
    a [name] that holds neither a separator nor a dot, and it is a fixed
    point: normalizing a normalized path gives it back. *)
Theorem updatedPath_is_idempotent :
  forall p : string,
    exists name : string,
      updatedPath p = "/" ++ name ++ ".bundle.js"
      /\ noChar "/" name = true /\ noChar "." name = true
      /\ updatedPath (updatedPath p) = updatedPath p.
Proof.
  intro p. exists (hd "" (Str.split "." (Path.basename p))).
  assert (H1 : noChar "/" (hd "" (Str.split "." (Path.basename p))) = true).
  { apply (hd_Forall (fun x => noChar "/" x = true)); [reflexivity|].
    apply split_keeps_noChar, basename_noSlash. }
  assert (H2 : noChar "." (hd "" (Str.split "." (Path.basename p))) = true).
  { apply (hd_Forall (fun x => noChar "." x = true)); [reflexivity|].
    apply split_elements_noChar. }
  repeat split; [exact H1|exact H2|].
  unfold updatedPath at 2. unfold Path.sep.
  exact (proj1 (updatedPath_of_base "" _ "bundle.js" H1 H2 eq_refl)).
Qed.

(** ** The reference of the example *)





(** ** What the rewriter leaves on the disk *)

Lemma writeSegs_lookup (segs : list string) (data : string) :
  forall n n' : Fs.node,
    Fs.writeSegs segs data n = Ok n' ->
    Fs.lookupSegs segs n' = Ok (Fs.File data).
Proof.
  induction segs as [|name rest IH]; intros n n' H.
  - destruct n; [|discriminate H]. injection H as <-. reflexivity.
  - cbn [Fs.writeSegs] in H. destruct n as [d|entries]; [discriminate H|].
    destruct (Fs.assoc name entries) as [c|] eqn:E.
    + destruct (Fs.writeSegs rest data c) as [c'|e] eqn:Ec; [|discriminate H].
      injection H as <-. cbn [Fs.lookupSegs]. rewrite assoc_setEntry.
      exact (IH c c' Ec).
    + destruct rest; [|discriminate H]. injection H as <-.
      cbn [Fs.lookupSegs]. now rewrite (assoc_app_new _ _ _ E).
Qed.

Lemma writeFile_readFile (w : world) (fs fs' : Fs.node) (p data : string) :
  writeFile w fs p data = Ok fs' -> Fs.readFile fs' p = Ok data.
Proof.
  unfold writeFile, Fs.writeFile, Fs.readFile, Fs.statSync.
  destruct (denied w p); [discriminate|]. intro H.
  now rewrite (writeSegs_lookup _ _ _ _ H).
Qed.

(** X7. For a page that can be read and whose text, the UTF-8 decoding
    of its bytes, holds at least one match, the callback asks for exactly
    one write (the branch for an empty array never runs): the text with
    every match replaced, under the base name of the page in the build
    directory.  For well-formed bytes the text is the bytes themselves.
    If the write succeeds the promise is fulfilled and the file holds
    the rewritten text; if it fails the promise is rejected with the
    error of the write and the disk is unchanged. *)
Theorem rewrite_writes_one_file :
  forall (w : world) (fs : Fs.node) (htmlFile data : string)
         (buildDir bundlePaths : list string),
    Fs.readFile fs htmlFile = Ok data ->
    Regex.jsMatch bundleRegex (Buffer.toString data) = Some bundlePaths ->
    let out :=
      Path.resolve (processCwd w) (List.app buildDir [Path.basename htmlFile]) in
    let page := replaceAll bundlePaths (Buffer.toString data) in
    replaceBundleExtensionsInHtml (processCwd w) htmlFile buildDir (Ok data)
    = Returned [(out, page)]
    /\ (Buffer.wellFormed data = true -> page = replaceAll bundlePaths data)
    /\ (forall fs' : Fs.node,
           writeFile w fs out page = Ok fs' ->
           complete w fs (Rewrite htmlFile buildDir)
           = Settled Promise.Fulfilled fs'
           /\ Fs.readFile fs' out = Ok page)
    /\ (forall e : Fs.error,
           writeFile w fs out page = Err e ->
           complete w fs (Rewrite htmlFile buildDir)
           = Settled (Promise.Rejected (fsError e)) fs).
Proof.
  intros w fs htmlFile data buildDir bundlePaths Hread Hmatch out page.
  assert (Hret : replaceBundleExtensionsInHtml (processCwd w) htmlFile buildDir
                   (Ok data) = Returned [(out, page)]).
  { unfold replaceBundleExtensionsInHtml. rewrite Hmatch.
    destruct bundlePaths as [|p l]; [|reflexivity].
    rewrite jsMatch_scanAll in Hmatch.
    destruct (scanAll (Buffer.toString data)); discriminate. }
  split; [exact Hret|]. split; [|split].
  - intro Hwf. unfold page. now rewrite (toString_wellFormed data Hwf).
  - intros fs' Hw. split; [|now apply (writeFile_readFile w fs)].
    unfold complete. rewrite Hread, Hret. cbn [performWrites].
    fold out page. now rewrite Hw.
  - intros e Hw. unfold complete. rewrite Hread, Hret. cbn [performWrites].
    fold out page. now rewrite Hw.
Qed.

Lemma rewrite_writes_one_file_witness :
  let w := Scenario.worldOf Scenario.indexHtml (fun _ => Some 0%Z) in
  let fs := Scenario.rootBuilt Scenario.indexHtml [] in
  let bundlePaths :=
    ["./client.bundle?platform=vr"; "../index.vr.bundle?platform=vr&dev=true"] in
  Fs.readFile fs "/home/dev/app/index.html" = Ok Scenario.indexHtml
  /\ Regex.jsMatch bundleRegex (Buffer.toString Scenario.indexHtml)
     = Some bundlePaths
  /\ replaceBundleExtensionsInHtml (processCwd w) "/home/dev/app/index.html"
       Scenario.buildDir (Ok Scenario.indexHtml)
     = Returned [("/home/dev/app/build/index.html", Scenario.indexHtmlRewritten)].
Proof.
  intros w fs bundlePaths.
  assert (H1 : Fs.readFile fs "/home/dev/app/index.html" = Ok Scenario.indexHtml)
    by reflexivity.
  assert (H2 : Regex.jsMatch bundleRegex (Buffer.toString Scenario.indexHtml)
               = Some bundlePaths)
    by (vm_compute; reflexivity).
  do 2 (split; [assumption|]).
  exact (proj1 (rewrite_writes_one_file w fs "/home/dev/app/index.html"
                  Scenario.indexHtml Scenario.buildDir bundlePaths H1 H2)).
Defined.

(** ** The copy of the static assets *)

(** X8. [copyDirRecursive] spawns [cp -r dir dest] in [root]; its promise
    is fulfilled exactly when the child closes with code 0, rejected with
    the code itself for any other code, and rejected with [null] when the
    child was ended by a signal. *)
Theorem copyDirRecursive_settles_by_exit_code :
  forall (w : world) (fs : Fs.node) (root dir dest : string),
    exists cmd : command,
      copyDirRecursive root dir dest = Child cmd
      /\ file cmd = "cp" /\ args cmd = ["-r"; dir; dest] /\ cwd cmd = root
      /\ (complete w fs (copyDirRecursive root dir dest)
            = Settled Promise.Fulfilled fs
          <-> closeCode w cmd = Some 0%Z)
      /\ (forall c : Z, c <> 0%Z -> closeCode w cmd = Some c ->
            complete w fs (copyDirRecursive root dir dest)
            = Settled (Promise.Rejected (VNumber c)) fs)
      /\ (closeCode w cmd = None ->
            complete w fs (copyDirRecursive root dir dest)
            = Settled (Promise.Rejected VNull) fs).
Proof.
  intros w fs root dir dest. eexists. split; [reflexivity|].
  do 3 (split; [reflexivity|]). cbn [complete copyDirRecursive]. split; [|split].
  - split.
    + intro H. apply onClose_fulfilled_iff. congruence.
    + intros ->. reflexivity.
  - intros c Hc ->. now rewrite (onClose_rejected _ Hc).
  - intros ->. reflexivity.
Qed.

(** ** The manifest, once more *)

(** X9. [hasPackage] answers [true] exactly for a [package.json] that
    exists and loads as an object whose [dependencies] is an object with
    a truthy [react-vr] entry; in particular an entry whose value is the
    empty string, [null], [false] or zero does not count. *)
Theorem hasPackage_true_iff :
  forall (w : world) (dir : string),
    (hasPackage w dir = Ok true
     <-> exists (n : Fs.node) (fields deps : list (string * Json.value))
                (v : Json.value),
           Fs.statSync (disk w) (Path.join [dir; "package.json"]) = Ok n /\
           requireJson w (Path.join [dir; "package.json"])
             = Some (Json.Object fields) /\
           Json.assoc "dependencies" fields = Some (Json.Object deps) /\
           Json.assoc "react-vr" deps = Some v /\ Json.truthy (Some v) = true)
    /\ (forall (fields deps : list (string * Json.value)) (v : Json.value),
           requireJson w (Path.join [dir; "package.json"])
             = Some (Json.Object fields) ->
           Json.assoc "dependencies" fields = Some (Json.Object deps) ->
           Json.assoc "react-vr" deps = Some v ->
           v = Json.Text "" \/ v = Json.Null \/ v = Json.Bool false
           \/ v = Json.Number (S754_zero false) ->
           hasPackage w dir = Ok false).
Proof.
  intros w dir. unfold hasPackage. split; [split|].
  - destruct (Fs.statSync (disk w) (Path.join [dir; "package.json"])) as [n|e];
      [|discriminate].
    destruct (requireJson w (Path.join [dir; "package.json"])) as [pkg|];
      [|discriminate].
    intro H. injection H as H.
    destruct (declaresReactVr_inv _ H) as (fields & deps & v & -> & Hd & Hv & Ht).
    now exists n, fields, deps, v.
  - intros (n & fields & deps & v & -> & -> & Hd & Hv & Ht).
    now rewrite (declaresReactVr_intro _ _ _ Hd Hv), Ht.
  - intros fields deps v -> Hd Hv Hfalsy.
    destruct (Fs.statSync _ _); [|reflexivity].
    rewrite (declaresReactVr_intro _ _ _ Hd Hv).
    now destruct Hfalsy as [->|[->|[->| ->]]].
Qed.

(** ** The search stops at the first ancestor that decides *)

(** X10. The search tests the ancestors nearest first and stops at the
    first one whose test is not [false]; what lies above it is never
    looked at.  If that test is [true] the directory is returned; if
    loading its manifest throws, the exception ends the process with
    status 1 and nothing is printed. *)
Theorem locate_stops_at_first_decisive_ancestor :
  forall (w : world) (names before after : list string) (dir : string)
         (fuel : nat) (order : list nat),
    processCwd w = absPath names ->
    Forall (fun f => isName f = true) names ->
    List.length names < fuel ->
    ancestors (rev names) = (before ++ dir :: after)%list ->
    (forall d, In d before -> hasPackage w d = Ok false) ->
    (hasPackage w dir = Ok true ->
       locate fuel w (processCwd w) = Some (Found dir))
    /\ (forall e : jsval,
           hasPackage w dir = Err e ->
           locate fuel w (processCwd w) = Some (Thrown e)
           /\ main fuel w order
              = Some {| console := []; exitStatus := Some 1%Z;
                        spawned := []; finalDisk := disk w |}).
Proof.
  intros w names before after dir fuel order Hcwd Hnames Hfuel Ha Hbefore.
  assert (Hrev : Forall (fun f => isName f = true) (rev names))
    by now apply Forall_rev.
  assert (Hlen : List.length (rev names) < fuel) by now rewrite length_rev.
  pose proof (locate_first_decisive w (rev names) Hrev fuel before after dir
                Hlen Ha Hbefore) as H.
  rewrite rev_involutive, <- Hcwd in H. split.
  - intro Ht. now rewrite H, Ht.
  - intros e He. rewrite He in H. split; [exact H|].
    unfold main. now rewrite H.
Qed.

Lemma locate_stops_at_first_decisive_ancestor_witness :
  let w := {| processCwd := "/home/dev/app";
              envCliLocation := None;
              disk := Scenario.root Scenario.indexHtml;
              requireJson := fun _ => None;
              closeCode := fun _ => Some 0%Z;
              denied := fun _ => false |} in
  let e := VError "Error" "Cannot load /home/dev/app/package.json" in
  processCwd w = absPath Scenario.projectNames
  /\ Forall (fun f => isName f = true) Scenario.projectNames
  /\ List.length Scenario.projectNames < 4
  /\ ancestors (rev Scenario.projectNames)
     = ([] ++ "/home/dev/app" :: ["/home/dev"; "/home"; "/"])%list
  /\ hasPackage w "/home/dev/app" = Err e
  /\ locate 4 w (processCwd w) = Some (Thrown e)
  /\ main 4 w []
     = Some {| console := []; exitStatus := Some 1%Z;
               spawned := []; finalDisk := disk w |}.
Proof.
  intros w e.
  assert (H1 : processCwd w = absPath Scenario.projectNames) by reflexivity.
  assert (H2 : Forall (fun f => isName f = true) Scenario.projectNames)
    by (repeat constructor).
  assert (H3 : List.length Scenario.projectNames < 4) by (simpl; lia).
  assert (H4 : ancestors (rev Scenario.projectNames)
               = ([] ++ "/home/dev/app" :: ["/home/dev"; "/home"; "/"])%list)
    by reflexivity.
  assert (H5 : hasPackage w "/home/dev/app" = Err e) by reflexivity.
  do 5 (split; [assumption|]).
  apply (proj2 (locate_stops_at_first_decisive_ancestor w Scenario.projectNames
                  [] ["/home/dev"; "/home"; "/"] "/home/dev/app" 4 [] H1 H2 H3 H4
                  (fun d (H : In d []) => match H with end))).
  exact H5.
Defined.

(** ** A build directory that is in the way *)

Lemma mkdirSegs_exists (segs : list string) :
  forall n m : Fs.node,
    Fs.lookupSegs segs n = Ok m -> Fs.mkdirSegs segs n = Err Fs.EEXIST.
Proof.
  induction segs as [|name rest IH]; intros n m H; [reflexivity|].
  cbn [Fs.lookupSegs] in H. cbn [Fs.mkdirSegs].
  destruct n as [d|entries]; [discriminate H|].
  destruct (Fs.assoc name entries) as [c|]; [|discriminate H].
  destruct rest as [|name2 rest]; [reflexivity|].
  now rewrite (IH c m H).
Qed.

(** X11. When the path of the build directory exists but is not a
    directory, [mkdir] fails: the run prints both messages and ends with
    status 1 without spawning anything, and the disk is left as it
    was. *)
Theorem build_path_taken_by_a_file :
  forall (w : world) (projectDir data : string) (buildDir : list string)
         (order : list nat),
    Fs.statSync (disk w) (Path.join buildDir) = Ok (Fs.File data) ->
    build w projectDir buildDir order
    = {| console := [mkdirFailedMessage; failureMessage (VNumber 1)];
         exitStatus := Some 1%Z;
         spawned := [];
         finalDisk := disk w |}.
Proof.
  intros w projectDir data buildDir order Hstat.
  assert (Hmk : exists e, mkdir w (disk w) (Path.join buildDir) = Err e).
  { unfold mkdir. destruct (denied w (Path.join buildDir)); [now eexists|].
    unfold Fs.mkdir. unfold Fs.statSync in Hstat.
    rewrite (mkdirSegs_exists _ _ _ Hstat). now eexists. }
  destruct Hmk as [e Hmk].
  unfold build, ensureBuildDir. rewrite Hstat, Hmk. reflexivity.
Qed.

Lemma build_path_taken_by_a_file_witness :
  let w := {| processCwd := Scenario.projectPath;
              envCliLocation := None;
              disk := Scenario.rootWith Scenario.indexHtml [("build", Fs.File "")];
              requireJson := fun _ => Some Scenario.manifest;
              closeCode := fun _ => Some 0%Z;
              denied := fun _ => false |} in
  Fs.statSync (disk w) (Path.join Scenario.buildDir) = Ok (Fs.File "")
  /\ build w Scenario.projectPath Scenario.buildDir [0; 1; 2; 3; 4]
     = {| console := [mkdirFailedMessage; failureMessage (VNumber 1)];
          exitStatus := Some 1%Z;
          spawned := [];
          finalDisk := disk w |}.
Proof.
  intro w.
  assert (H : Fs.statSync (disk w) (Path.join Scenario.buildDir) = Ok (Fs.File ""))
    by reflexivity.
  split; [exact H|].
  exact (build_path_taken_by_a_file w Scenario.projectPath "" Scenario.buildDir
           [0; 1; 2; 3; 4] H).
Defined.

(** ** What the exit status tells *)

Lemma commandsOf_In (ts : list task) (c : command) :
  In c (commandsOf ts) <-> In (Child c) ts.
Proof.
  unfold commandsOf. rewrite in_flat_map. split.
  - intros ([c'|f bd] & Ht & Hc); [|destruct Hc].
    destruct Hc as [<-|[]]. exact Ht.
  - intro H. exists (Child c). split; [exact H|now left].
Qed.

Lemma settleAll_fulfilled_children (w : world) (ts : list task) :
  forall (order finished : list nat) (fs fs' : Fs.node),
    settleAll w ts order finished fs = AllFulfilled fs' ->
    (forall i c, In i finished -> nth_error ts i = Some (Child c) ->
                 closeCode w c = Some 0%Z) ->
    forall c, In (Child c) ts -> closeCode w c = Some 0%Z.
Proof.
  induction order as [|i rest IH]; intros finished fs fs' H Hfin c Hc;
    cbn [settleAll] in H; destruct (allFinished ts finished) eqn:Ha.
  - apply In_nth_error in Hc as [j Hj]. apply (Hfin j c); [|exact Hj].
    apply (proj1 (allFinished_true ts finished) Ha).
    apply nth_error_Some. congruence.
  - discriminate H.
  - apply In_nth_error in Hc as [j Hj]. apply (Hfin j c); [|exact Hj].
    apply (proj1 (allFinished_true ts finished) Ha).
    apply nth_error_Some. congruence.
  - destruct (existsb (Nat.eqb i) finished); [now apply (IH _ _ _ H Hfin)|].
    destruct (nth_error ts i) as [t|] eqn:Ht; [|now apply (IH _ _ _ H Hfin)].
    destruct (complete w fs t) as [[| |reason] fs1|e] eqn:Hcomp;
      try discriminate H.
    + now apply (IH _ _ _ H Hfin).
    + apply (IH _ _ _ H); [|exact Hc].
      intros j c' [<-|Hj] Hnth; [|now apply (Hfin j)].
      rewrite Ht in Hnth. injection Hnth as ->.
      cbn [complete] in Hcomp. apply onClose_fulfilled_iff. congruence.
Qed.

Lemma successMessage_not_failure (procCwd : string) (buildDir : list string)
    (reason : jsval) :
  successMessage procCwd buildDir <> failureMessage reason.
Proof. discriminate. Qed.

(** X12. Whatever the children do, the process never ends with another
    status than 0 or 1 (a child's own code is only printed).  Status 0
    means that the success message was the last line printed and that
    every child that was spawned closed with code 0; with status 1 the
    success message is not printed. *)
Theorem run_status_is_zero_only_if_every_child_closed_zero :
  forall (fuel : nat) (w : world) (order : list nat) (o : outcome),
    main fuel w order = Some o ->
    (exitStatus o = None \/ exitStatus o = Some 0%Z \/ exitStatus o = Some 1%Z)
    /\ (exitStatus o = Some 0%Z ->
        (exists out : list string,
            console o
            = (out ++ [successMessage (processCwd w)
                          [processCwd w; buildDirName]])%list)
        /\ forall c, In c (spawned o) -> closeCode w c = Some 0%Z)
    /\ (exitStatus o = Some 1%Z ->
        ~ In (successMessage (processCwd w) [processCwd w; buildDirName])
             (console o)).
Proof.
  intros fuel w order o Hmain. unfold main in Hmain.
  destruct (locate fuel w (processCwd w)) as [[projectDir| |e]|];
    try discriminate Hmain; injection Hmain as <-.
  2:{ cbn. split; [auto|]. split; [discriminate|].
      intros _ [H|[]]. discriminate H. }
  2:{ cbn. split; [auto|]. split; [discriminate|]. intros _ []. }
  unfold build, ensureBuildDir.
  set (bd := [processCwd w; buildDirName]).
  assert (Hshape :
    exists p fs1 out1,
      match Fs.statSync (disk w) (Path.join bd) with
      | Ok stat =>
          if Fs.isDirectory stat
          then (Promise.resolve Promise.Pending, disk w, [])
          else
            match mkdir w (disk w) (Path.join bd) with
            | Ok fs' => (Promise.resolve Promise.Pending, fs', [])
            | Err _ => (Promise.reject (VNumber 1) Promise.Pending, disk w,
                        [mkdirFailedMessage])
            end
      | Err _ =>
          match mkdir w (disk w) (Path.join bd) with
          | Ok fs' => (Promise.resolve Promise.Pending, fs', [])
          | Err _ => (Promise.reject (VNumber 1) Promise.Pending, disk w,
                      [mkdirFailedMessage])
          end
      end = (p, fs1, out1)
      /\ ((p = Promise.Fulfilled /\ out1 = [])
          \/ (p = Promise.Rejected (VNumber 1) /\ out1 = [mkdirFailedMessage]))).
  { destruct (Fs.statSync (disk w) (Path.join bd)) as [stat|e];
      [destruct (Fs.isDirectory stat)|].
    - eexists _, _, _. split; [reflexivity|]. now left.
    - destruct (mkdir w (disk w) (Path.join bd)) eqn:E;
        eexists _, _, _; (split; [reflexivity|]); auto.
    - destruct (mkdir w (disk w) (Path.join bd)) eqn:E;
        eexists _, _, _; (split; [reflexivity|]); auto. }
  destruct Hshape as (p & fs1 & out1 & -> & [[-> ->]|[-> ->]]).
  2:{ cbn. split; [auto|]. split; [discriminate|].
      intros _ [H|[H|[]]]; [discriminate H|].
      now apply (successMessage_not_failure (processCwd w) bd (VNumber 1)). }
  destruct (startBuild w fs1 projectDir bd) as [ts|[e started]] eqn:Hstart.
  2:{ cbn. split; [auto|]. split; [discriminate|].
      intros _ [H|[]].
      now apply (successMessage_not_failure (processCwd w) bd e). }
  destruct (settleAll w ts order [] fs1) as [fs2|reason fs2|e fs2|fs2] eqn:Hs; cbn.
  - split; [auto|]. split.
    + intros _. split; [now exists []|].
      intros c Hc. apply commandsOf_In in Hc.
      apply (settleAll_fulfilled_children w ts order [] fs1 fs2 Hs);
        [intros i c' []|exact Hc].
    + discriminate.
  - split; [auto|]. split; [discriminate|].
    intros _ [H|[]].
    now apply (successMessage_not_failure (processCwd w) bd reason).
  - split; [auto|]. split; [discriminate|]. intros _ [].
  - split; [auto|]. split; discriminate.
Qed.

Lemma run_status_is_zero_only_if_every_child_closed_zero_witness :
  let w := Scenario.worldOf Scenario.indexHtml (fun _ => Some 0%Z) in
  let o := {| console := [successMessage Scenario.projectPath Scenario.buildDir];
              exitStatus := Some 0%Z;
              spawned := Scenario.commands;
              finalDisk :=
                Scenario.rootBuilt Scenario.indexHtml
                  [("index.html", Fs.File Scenario.indexHtmlRewritten)] |} in
  main 1 w [0; 1; 2; 3; 4] = Some o
  /\ forall c, In c (spawned o) -> closeCode w c = Some 0%Z.
Proof.
  intros w o.
  assert (H : main 1 w [0; 1; 2; 3; 4] = Some o) by (vm_compute; reflexivity).
  split; [exact H|].
  destruct (run_status_is_zero_only_if_every_child_closed_zero 1 w [0; 1; 2; 3; 4] o H)
    as (_ & Hzero & _).
  exact (proj2 (Hzero eq_refl)).
Defined.

(** ** The first rejection decides *)

Lemma allFinished_missing (ts : list task) (finished : list nat) (j : nat) :
  j < List.length ts -> ~ In j finished -> allFinished ts finished = false.
Proof.
  intros Hj Hnot. apply Bool.not_true_iff_false. intro H. apply Hnot.
  now apply (proj1 (allFinished_true ts finished) H).
Qed.

(** X13. When the operations that complete before a failing child are
    all fulfilled, the join is rejected with the code of that child:
    what completes afterwards, other failures included, is neither
    waited for nor reported.  [P] is any property of the disk that the
    operations completing before keep. *)
Theorem first_failing_child_decides_the_reason :
  forall (w : world) (ts : list task) (P : Fs.node -> Prop)
         (before after finished : list nat)
         (j : nat) (cj : command) (k : Z) (fs : Fs.node),
    nth_error ts j = Some (Child cj) ->
    closeCode w cj = Some k -> k <> 0%Z ->
    ~ In j finished ->
    P fs ->
    (forall i t fs0, In i before -> nth_error ts i = Some t -> P fs0 ->
       exists fs1, complete w fs0 t = Settled Promise.Fulfilled fs1 /\ P fs1) ->
    exists fs' : Fs.node,
      settleAll w ts (before ++ j :: after) finished fs
      = FirstRejected (VNumber k) fs'.
Proof.
  intros w ts P before after finished j cj k fs Hj Hcode Hk.
  assert (Hlen : j < List.length ts) by (apply nth_error_Some; congruence).
  assert (Hrej : forall fs0, complete w fs0 (Child cj)
                             = Settled (Promise.Rejected (VNumber k)) fs0).
  { intro fs0. cbn [complete]. now rewrite Hcode, (onClose_rejected _ Hk). }
  revert finished fs.
  induction before as [|i before IH]; intros finished fs Hnot HP Hbefore;
    cbn [List.app settleAll]; rewrite (allFinished_missing ts finished j Hlen Hnot).
  - destruct (existsb (Nat.eqb j) finished) eqn:E.
    + apply existsb_eqb_In in E. contradiction.
    + rewrite Hj, Hrej. now exists fs.
  - destruct (existsb (Nat.eqb i) finished) eqn:E.
    + apply IH; [exact Hnot|exact HP|].
      intros i' t fs0 Hi'. apply Hbefore. now right.
    + destruct (nth_error ts i) as [t|] eqn:Ht.
      * destruct (Hbefore i t fs (or_introl eq_refl) Ht HP) as (fs1 & Hc & HP1).
        rewrite Hc. apply IH.
        -- intros [->|H]; [|contradiction].
           rewrite Hj in Ht. injection Ht as <-. rewrite Hrej in Hc. discriminate Hc.
        -- exact HP1.
        -- intros i' t' fs0 Hi'. apply Hbefore. now right.
      * apply IH; [exact Hnot|exact HP|].
        intros i' t fs0 Hi'. apply Hbefore. now right.
Qed.

Lemma first_failing_child_decides_the_reason_witness :
  let codes := fun c : command =>
                 if String.eqb (file c) "cp" then Some 3%Z
                 else if List.existsb (String.eqb "/home/dev/app/B.vr.js") (args c)
                      then Some 127%Z
                      else if List.existsb (String.eqb "/home/dev/app/client.js") (args c)
                           then Some 2%Z else Some 0%Z in
  let w := Scenario.worldOf Scenario.indexHtml codes in
  let P := fun fs : Fs.node =>
             exists built,
               fs = Scenario.rootBuilt Scenario.indexHtml built /\
               (built = [] \/
                built = [("index.html", Fs.File Scenario.indexHtmlRewritten)]) in
  nth_error Scenario.tasks 1 = Some (Child (Scenario.bundleCommand "B"))
  /\ closeCode w (Scenario.bundleCommand "B") = Some 127%Z
  /\ 127%Z <> 0%Z
  /\ ~ In 1 (@nil nat)
  /\ P (Scenario.rootBuilt Scenario.indexHtml [])
  /\ exists fs' : Fs.node,
       settleAll w Scenario.tasks ([0; 2] ++ 1 :: [3; 4]) []
         (Scenario.rootBuilt Scenario.indexHtml [])
       = FirstRejected (VNumber 127) fs'.
Proof.
  intros codes w P.
  assert (H1 : nth_error Scenario.tasks 1 = Some (Child (Scenario.bundleCommand "B")))
    by reflexivity.
  assert (H2 : closeCode w (Scenario.bundleCommand "B") = Some 127%Z) by reflexivity.
  assert (H3 : 127%Z <> 0%Z) by discriminate.
  assert (H4 : ~ In 1 (@nil nat)) by (intros []).
  assert (H5 : P (Scenario.rootBuilt Scenario.indexHtml []))
    by (exists []; split; [reflexivity|now left]).
  do 5 (split; [assumption|]).
  apply (first_failing_child_decides_the_reason w Scenario.tasks P [0; 2] [3; 4] [] 1
           (Scenario.bundleCommand "B") 127
           (Scenario.rootBuilt Scenario.indexHtml []) H1 H2 H3 H4 H5).
  intros i t fs0 [<-|[<-|[]]] Ht HP; injection Ht as <-.
  - exists fs0. split; [reflexivity|exact HP].
  - destruct HP as (built & -> & Hbuilt). eexists. split.
    + now apply scenario_complete_rewrite.
    + eexists. split; [reflexivity|now right].
Defined.

(** ** [path.resolve] on normalized absolute paths *)

Lemma noSlash_noChar (s : string) : noSlash s = noChar "/" s.
Proof. induction s as [|c s IH]; [reflexivity|]. simpl. now rewrite IH. Qed.

Lemma fold_split_sep (b : bool) (x y : string) (kept : list string) :
  fold_left (Path.normalizeStep b) (Str.split "/" (x ++ String "/" y)) kept
  = fold_left (Path.normalizeStep b) (Str.split "/" y)
      (fold_left (Path.normalizeStep b) (Str.split "/" x) kept).
Proof. now rewrite split_app_sep_any, fold_left_app. Qed.

Lemma fold_split_absPath (b : bool) (names : list string) :
  Forall (fun f => isName f = true) names ->
  fold_left (Path.normalizeStep b) (Str.split "/" (absPath names)) []
  = rev names.
Proof.
  intro Hn. unfold absPath.
  change ("/" ++ Str.join "/" names) with ("" ++ String "/" (Str.join "/" names)).
  rewrite fold_split_sep. cbn [Str.split fold_left].
  change (Path.normalizeStep b [] "") with (@nil string).
  destruct names as [|x names]; [reflexivity|].
  rewrite split_join; [|now apply Forall_isName_noSlash|congruence].
  now rewrite (fold_normalizeStep_names _ _ _ Hn), app_nil_r.
Qed.

Lemma fold_split_one (b : bool) (x : string) (kept : list string) :
  noChar "/" x = true ->
  fold_left (Path.normalizeStep b) (Str.split "/" x) kept
  = Path.normalizeStep b kept x.
Proof. intro H. now rewrite (split_noChar _ _ H). Qed.

Lemma isAbsolute_noChar (x : string) :
  noChar "/" x = true -> Path.isAbsolute x = false.
Proof.
  destruct x as [|c x]; [reflexivity|]. simpl. intro H.
  apply andb_true_iff in H as [Hc _]. apply negb_true_iff in Hc.
  destruct (Ascii.eqb_spec c "/") as [->|Hne]; [discriminate Hc|].
  destruct c as [[] [] [] [] [] [] [] []]; try reflexivity. now elim Hne.
Qed.

(** [path.resolve(...buildDir, x)] for a build directory [<cwd>/build]. *)
Lemma resolve_in_build (c : string) (names : list string) (x : string) :
  Forall (fun f => isName f = true) names -> noChar "/" x = true ->
  Path.resolve c [absPath names; buildDirName; x]
  = "/" ++ Str.join "/"
             (rev (Path.normalizeStep false (buildDirName :: rev names) x)).
Proof.
  intros Hn Hx. unfold Path.resolve. cbn [rev List.app].
  assert (Hloop :
    Path.resolveLoop c [x; buildDirName; absPath names] ""
    = (absPath names ++ String "/" (buildDirName ++ String "/" (x ++ String "/" "")),
       true)
    \/ (x = "" /\
        Path.resolveLoop c [x; buildDirName; absPath names] ""
        = (absPath names ++ String "/" (buildDirName ++ String "/" ""), true))).
  { destruct x as [|a x]; [right; split; reflexivity|left].
    cbn [Path.resolveLoop Str.isEmpty].
    rewrite (isAbsolute_noChar _ Hx). reflexivity. }
  destruct Hloop as [-> |[-> ->]]; cbn [negb]; unfold Path.normalizeString.
  - rewrite !fold_split_sep, (fold_split_absPath _ _ Hn).
    rewrite (fold_split_one _ buildDirName) by reflexivity.
    rewrite (fold_split_one _ x) by exact Hx.
    rewrite (fold_split_one _ "") by reflexivity.
    reflexivity.
  - rewrite !fold_split_sep, (fold_split_absPath _ _ Hn).
    rewrite (fold_split_one _ buildDirName) by reflexivity.
    reflexivity.
Qed.

Lemma resolve_in_build_name (c : string) (names : list string) (x : string) :
  Forall (fun f => isName f = true) names -> isName x = true ->
  Path.resolve c [absPath names; buildDirName; x]
  = absPath (names ++ [buildDirName; x]).
Proof.
  intros Hn Hx. destruct (isName_parts _ Hx) as (_ & _ & _ & Hs).
  rewrite noSlash_noChar in Hs.
  rewrite (resolve_in_build c names x Hn Hs), (normalizeStep_name _ _ _ Hx).
  cbn [rev]. rewrite rev_involutive, <- !app_assoc. reflexivity.
Qed.

(** Whatever the base name, the path resolved in the build directory is
    the working directory, the build directory or a direct entry of the
    build directory. *)
Lemma resolve_in_build_segments (c : string) (names : list string) (x : string) :
  Forall (fun f => isName f = true) names -> noChar "/" x = true ->
  Fs.segments (Path.resolve c [absPath names; buildDirName; x]) = names
  \/ isBelow (names ++ [buildDirName])
       (Path.resolve c [absPath names; buildDirName; x]).
Proof.
  intros Hn Hx. rewrite (resolve_in_build c names x Hn Hx).
  unfold Path.normalizeStep.
  destruct (Str.isEmpty x || Path.isDot x) eqn:E1.
  - right. exists []. cbn [rev]. rewrite rev_involutive, app_nil_r.
    apply (segments_absPath (names ++ [buildDirName])).
    apply Forall_app. split; [exact Hn|now repeat constructor].
  - destruct (Path.isDotDot x) eqn:E2.
    + left. cbn [Path.isDotDot buildDirName String.eqb Ascii.eqb Bool.eqb].
      rewrite rev_involutive. now apply segments_absPath.
    + right. exists [x]. cbn [rev].
      rewrite rev_involutive, <- !app_assoc. cbn [List.app].
      apply orb_false_iff in E1 as [E0 E1].
      apply (segments_absPath (names ++ [buildDirName; x])).
      apply Forall_app. split; [exact Hn|]. repeat constructor.
      unfold isName. now rewrite E0, E1, E2, noSlash_noChar, Hx.
Qed.

(** An absolute normalized last argument is the result. *)
Lemma resolve_absolute_last (c : string) (before : list string)
    (names : list string) :
  Forall (fun f => isName f = true) names ->
  Path.resolve c (before ++ [absPath names]) = absPath names.
Proof.
  intro Hn. unfold Path.resolve. rewrite rev_app_distr.
  cbn [rev List.app Path.resolveLoop absPath append Str.isEmpty Path.isAbsolute].
  unfold Path.normalizeString. cbn [negb].
  change (String "/" (Str.join "/" names ++ "/"))
    with (absPath names ++ String "/" "").
  rewrite fold_split_sep, (fold_split_absPath _ _ Hn).
  cbn [Str.split fold_left].
  change (Path.normalizeStep false (rev names) "") with (rev names).
  now rewrite rev_involutive.
Qed.

(** ** What the run leaves untouched *)

Lemma assoc_setEntry_other (name other : string) (c : Fs.node)
    (entries : list (string * Fs.node)) :
  name <> other ->
  Fs.assoc other (Fs.setEntry name c entries) = Fs.assoc other entries.
Proof.
  intro Hne. induction entries as [|[n c0] rest IH]; simpl.
  - destruct (String.eqb_spec name other); [contradiction|reflexivity].
  - destruct (String.eqb_spec n name) as [->|Hn]; simpl.
    + destruct (String.eqb_spec name other); [contradiction|reflexivity].
    + destruct (String.eqb n other); [reflexivity|exact IH].
Qed.

Lemma assoc_app_found (other : string) (c : Fs.node)
    (entries more : list (string * Fs.node)) :
  Fs.assoc other entries = Some c ->
  Fs.assoc other (entries ++ more)%list = Some c.
Proof.
  induction entries as [|[n c0] rest IH]; simpl; [discriminate|].
  destruct (String.eqb n other); [trivial|exact IH].
Qed.

Lemma readFile_lookup (fs : Fs.node) (p d : string) :
  Fs.readFile fs p = Ok d <-> Fs.lookupSegs (Fs.segments p) fs = Ok (Fs.File d).
Proof.
  unfold Fs.readFile, Fs.statSync.
  destruct (Fs.lookupSegs (Fs.segments p) fs) as [[data|entries]|e];
    split; intro H; try discriminate H; congruence.
Qed.

(** Writing a file leaves every other file as it is. *)
Lemma writeSegs_frame (q : list string) (data : string) :
  forall (n n' : Fs.node) (p : list string) (d : string),
    Fs.writeSegs q data n = Ok n' -> p <> q ->
    Fs.lookupSegs p n = Ok (Fs.File d) -> Fs.lookupSegs p n' = Ok (Fs.File d).
Proof.
  induction q as [|name rest IH]; intros n n' p d Hw Hne Hl.
  - destruct n as [d0|entries]; [|discriminate Hw].
    destruct p as [|pn prest]; [congruence|discriminate Hl].
  - cbn [Fs.writeSegs] in Hw. destruct n as [d0|entries]; [discriminate Hw|].
    destruct p as [|pn prest]; [discriminate Hl|].
    cbn [Fs.lookupSegs] in Hl |- *.
    destruct (Fs.assoc pn entries) as [c0|] eqn:Ep; [|discriminate Hl].
    destruct (Fs.assoc name entries) as [c|] eqn:En.
    + destruct (Fs.writeSegs rest data c) as [c'|e] eqn:Ec; [|discriminate Hw].
      injection Hw as <-.
      destruct (String.eqb_spec name pn) as [->|Hnp].
      * rewrite assoc_setEntry. rewrite En in Ep. injection Ep as <-.
        apply (IH c c' prest d Ec); [congruence|exact Hl].
      * rewrite (assoc_setEntry_other _ _ _ _ Hnp), Ep. exact Hl.
    + destruct rest; [|discriminate Hw]. injection Hw as <-.
      now rewrite (assoc_app_found _ _ _ _ Ep).
Qed.

(** Creating a directory leaves every file as it is. *)
Lemma mkdirSegs_frame (q : list string) :
  forall (n n' : Fs.node) (p : list string) (d : string),
    Fs.mkdirSegs q n = Ok n' ->
    Fs.lookupSegs p n = Ok (Fs.File d) -> Fs.lookupSegs p n' = Ok (Fs.File d).
Proof.
  induction q as [|name rest IH]; intros n n' p d Hm Hl; [discriminate Hm|].
  cbn [Fs.mkdirSegs] in Hm. destruct n as [d0|entries]; [discriminate Hm|].
  destruct p as [|pn prest]; [discriminate Hl|].
  cbn [Fs.lookupSegs] in Hl |- *.
  destruct (Fs.assoc pn entries) as [c0|] eqn:Ep; [|discriminate Hl].
  destruct rest as [|name2 rest].
  - destruct (Fs.assoc name entries); [discriminate Hm|]. injection Hm as <-.
    now rewrite (assoc_app_found _ _ _ _ Ep).
  - destruct (Fs.assoc name entries) as [c|] eqn:En; [|discriminate Hm].
    destruct (Fs.mkdirSegs (name2 :: rest) c) as [c'|e] eqn:Ec; [|discriminate Hm].
    injection Hm as <-.
    destruct (String.eqb_spec name pn) as [->|Hnp].
    + rewrite assoc_setEntry. rewrite En in Ep. injection Ep as <-.
      exact (IH c c' prest d Ec Hl).
    + rewrite (assoc_setEntry_other _ _ _ _ Hnp), Ep. exact Hl.
Qed.

Lemma performWrites_frame (w : world) (path d : string) :
  forall (writes : list (string * string)) (p0 : Promise.state) (fs : Fs.node),
    (forall wr, In wr writes -> Fs.segments path <> Fs.segments (fst wr)) ->
    Fs.readFile fs path = Ok d ->
    Fs.readFile (snd (performWrites w writes p0 fs)) path = Ok d.
Proof.
  induction writes as [|[q data] rest IH]; intros p0 fs Hne Hr; [exact Hr|].
  cbn [performWrites]. apply IH; [intros wr Hwr; apply Hne; now right|].
  unfold writeFile. destruct (denied w q); [exact Hr|].
  destruct (Fs.writeFile fs q data) as [fs1|e] eqn:Ew; [|exact Hr].
  apply readFile_lookup. apply readFile_lookup in Hr.
  apply (writeSegs_frame _ _ _ _ _ _ Ew); [|exact Hr].
  apply (Hne (q, data)). now left.
Qed.

Lemma complete_frame (w : world) (fs fs' : Fs.node) (t : task)
    (p : Promise.state) (path d : string) :
  complete w fs t = Settled p fs' ->
  (forall f bd, t = Rewrite f bd ->
     Fs.segments path
     <> Fs.segments (Path.resolve (processCwd w) (List.app bd [Path.basename f]))) ->
  Fs.readFile fs path = Ok d -> Fs.readFile fs' path = Ok d.
Proof.
  intros Hc Hne Hr. destruct t as [c|f bd]; cbn [complete] in Hc.
  - injection Hc as _ <-. exact Hr.
  - destruct (replaceBundleExtensionsInHtml (processCwd w) f bd (Fs.readFile fs f))
      as [e|writes] eqn:Ecb; [discriminate Hc|].
    destruct (performWrites w writes Promise.Pending fs) as [p1 fs1] eqn:Ew.
    injection Hc as _ <-.
    change fs1 with (snd (p1, fs1)). rewrite <- Ew.
    apply performWrites_frame; [|exact Hr].
    intros wr Hwr. unfold replaceBundleExtensionsInHtml in Ecb.
    destruct (Fs.readFile fs f) as [data|e]; [|discriminate Ecb].
    destruct (Regex.jsMatch bundleRegex (Buffer.toString data)) as [l|]; [|discriminate Ecb].
    injection Ecb as <-.
    assert (Hfst : fst wr
                   = Path.resolve (processCwd w) (List.app bd [Path.basename f])).
    { apply in_app_or in Hwr as [Hwr|[<-|[]]]; [|reflexivity].
      destruct (Nat.eqb (List.length l) 0); [|destruct Hwr].
      destruct Hwr as [<-|[]]. reflexivity. }
    rewrite Hfst. now apply (Hne f bd).
Qed.

Lemma settleAll_frame (w : world) (ts : list task) (path d : string) :
  (forall f bd, In (Rewrite f bd) ts ->
     Fs.segments path
     <> Fs.segments (Path.resolve (processCwd w) (List.app bd [Path.basename f]))) ->
  forall (order finished : list nat) (fs : Fs.node),
    Fs.readFile fs path = Ok d ->
    Fs.readFile (diskOf (settleAll w ts order finished fs)) path = Ok d.
Proof.
  intro Hne. induction order as [|i rest IH]; intros finished fs Hr;
    cbn [settleAll]; destruct (allFinished ts finished); try exact Hr.
  destruct (existsb (Nat.eqb i) finished); [now apply IH|].
  destruct (nth_error ts i) as [t|] eqn:Ht; [|now apply IH].
  destruct (complete w fs t) as [p fs1|e] eqn:Hc; [|exact Hr].
  assert (Hr1 : Fs.readFile fs1 path = Ok d).
  { apply (complete_frame w fs fs1 t p path d Hc); [|exact Hr].
    intros f bd ->. apply Hne. now apply (nth_error_In ts i). }
  destruct p; [now apply IH|now apply IH|exact Hr1].
Qed.

Lemma startBuild_rewrites (w : world) (fs : Fs.node) (projectDir : string)
    (buildDir : list string) (ts : list task) :
  startBuild w fs projectDir buildDir = Ok ts ->
  forall f bd, In (Rewrite f bd) ts -> bd = buildDir.
Proof.
  unfold startBuild. destruct (Fs.statSync fs projectDir) as [n|e]; [|discriminate].
  destruct (walkDirSync projectDir n walkExclude) as [p|l]; [discriminate|].
  destruct (find _ l) as [client|]; [|discriminate].
  intro H. injection H as <-. intros f bd Hin.
  apply in_app_or in Hin as [Hin|Hin].
  - apply in_map_iff in Hin as (g & Hg & _). discriminate Hg.
  - apply in_app_or in Hin as [Hin|[Hin|[Hin|[]]]]; try discriminate Hin.
    apply in_map_iff in Hin as (g & Hg & _). now injection Hg.
Qed.

Lemma run_frame (fuel : nat) (w : world) (order : list nat) (o : outcome)
    (path d : string) :
  main fuel w order = Some o ->
  Fs.readFile (disk w) path = Ok d ->
  (forall f : string,
      Fs.segments path
      <> Fs.segments (Path.resolve (processCwd w)
                        [processCwd w; buildDirName; Path.basename f])) ->
  Fs.readFile (finalDisk o) path = Ok d.
Proof.
  intros Hmain Hr Hne. unfold main in Hmain.
  destruct (locate fuel w (processCwd w)) as [[projectDir| |e]|];
    try discriminate Hmain; injection Hmain as <-; [|exact Hr|exact Hr].
  unfold build. set (bd := [processCwd w; buildDirName]).
  destruct (ensureBuildDir w (disk w) bd) as [[p fs1] out1] eqn:He.
  assert (Hr1 : Fs.readFile fs1 path = Ok d).
  { unfold ensureBuildDir in He.
    assert (Hmk : forall p' fs' out',
              match mkdir w (disk w) (Path.join bd) with
              | Ok fs2 => (Promise.resolve Promise.Pending, fs2, [])
              | Err _ => (Promise.reject (VNumber 1) Promise.Pending, disk w,
                          [mkdirFailedMessage])
              end = (p', fs', out') -> Fs.readFile fs' path = Ok d).
    { intros p' fs' out'. unfold mkdir.
      destruct (denied w (Path.join bd)); [intro H; now injection H as _ <- _|].
      destruct (Fs.mkdir (disk w) (Path.join bd)) as [fs2|e] eqn:Em;
        intro H; injection H as _ <- _; [|exact Hr].
      apply readFile_lookup. apply readFile_lookup in Hr.
      exact (mkdirSegs_frame _ _ _ _ _ Em Hr). }
    destruct (Fs.statSync (disk w) (Path.join bd)) as [stat|e];
      [destruct (Fs.isDirectory stat)|]; try (now apply (Hmk p fs1 out1)).
    now injection He as _ <- _. }
  destruct p; cbn [finalDisk]; try exact Hr1.
  destruct (startBuild w fs1 projectDir bd) as [ts|[e started]] eqn:Hs;
    [|exact Hr1].
  assert (Hframe : Fs.readFile (diskOf (settleAll w ts order [] fs1)) path = Ok d).
  { apply settleAll_frame; [|exact Hr1].
    intros f bd' Hin. rewrite (startBuild_rewrites _ _ _ _ _ Hs f bd' Hin).
    apply Hne. }
  destruct (settleAll w ts order [] fs1); exact Hframe.
Qed.

(** X14. The run changes no file that was there before, except pages
    directly inside the build directory: started in a directory [<cwd>],
    whatever the children answer and however the run ends, a file that
    does not lie in [<cwd>/build] still holds its content when the
    script ends. *)
Theorem run_keeps_files_outside_build :
  forall (fuel : nat) (w : world) (cwdNames : list string)
         (order : list nat) (o : outcome) (path d : string),
    processCwd w = absPath cwdNames ->
    Forall (fun f => isName f = true) cwdNames ->
    isDirectoryAt (disk w) (processCwd w) = true ->
    main fuel w order = Some o ->
    Fs.readFile (disk w) path = Ok d ->
    ~ isBelow (cwdNames ++ [buildDirName]) path ->
    Fs.readFile (finalDisk o) path = Ok d.
Proof.
  intros fuel w cwdNames order o path d Hcwd Hnames Hdir Hmain Hr Hout.
  apply (run_frame fuel w order o path d Hmain Hr).
  intros f Heq. rewrite Hcwd in Heq.
  destruct (resolve_in_build_segments (absPath cwdNames) cwdNames (Path.basename f)
              Hnames (basename_noSlash f)) as [Hsame|(rel & Hbelow)].
  - rewrite Hsame in Heq. apply readFile_lookup in Hr. rewrite Heq in Hr.
    unfold isDirectoryAt, Fs.statSync in Hdir.
    rewrite Hcwd, (segments_absPath _ Hnames), Hr in Hdir. discriminate Hdir.
  - apply Hout. exists rel. now rewrite Heq.
Qed.

Lemma run_keeps_files_outside_build_witness :
  let w := Scenario.worldOf Scenario.indexHtml (fun _ => Some 2%Z) in
  let path := "/home/dev/app/index.html" in
  processCwd w = absPath Scenario.projectNames
  /\ Forall (fun f => isName f = true) Scenario.projectNames
  /\ isDirectoryAt (disk w) (processCwd w) = true
  /\ Fs.readFile (disk w) path = Ok Scenario.indexHtml
  /\ ~ isBelow (Scenario.projectNames ++ [buildDirName]) path
  /\ exists o, main 1 w [4; 2; 0; 3; 1] = Some o
               /\ Fs.readFile (finalDisk o) path = Ok Scenario.indexHtml.
Proof.
  intros w path.
  assert (H1 : processCwd w = absPath Scenario.projectNames) by reflexivity.
  assert (H2 : Forall (fun f => isName f = true) Scenario.projectNames)
    by (repeat constructor).
  assert (H3 : isDirectoryAt (disk w) (processCwd w) = true) by reflexivity.
  assert (H4 : Fs.readFile (disk w) path = Ok Scenario.indexHtml) by reflexivity.
  assert (H5 : ~ isBelow (Scenario.projectNames ++ [buildDirName]) path).
  { intros (rel & Hrel). vm_compute in Hrel. discriminate Hrel. }
  do 5 (split; [assumption|]).
  destruct (main 1 w [4; 2; 0; 3; 1]) as [o|] eqn:Hmain.
  - exists o. split; [reflexivity|].
    exact (run_keeps_files_outside_build 1 w Scenario.projectNames [4; 2; 0; 3; 1] o
             path Scenario.indexHtml H1 H2 H3 Hmain H4 H5).
  - vm_compute in Hmain. discriminate Hmain.
Defined.

(** ** The targets of a run *)

Lemma startBuild_shape (w : world) (fs : Fs.node) (projectDir : string)
    (buildDir : list string) (ts : list task) :
  startBuild w fs projectDir buildDir = Ok ts ->
  exists (n : Fs.node) (l : list string) (client : string),
    Fs.statSync fs projectDir = Ok n
    /\ walkDirSync projectDir n walkExclude = Paths l
    /\ In client l /\ Str.includes "client.js" client = true
    /\ ts = List.app
               (map (fun f =>
                       buildScript w projectDir buildDir
                         (Path.resolve (processCwd w) [projectDir; f])
                         (Path.resolve (processCwd w)
                            (List.app buildDir
                               [Path.basenameExt f ".vr.js" ++ ".bundle.js"])))
                    (filter vrJsRegex l))
               (List.app
                  (map (fun f => Rewrite f buildDir)
                     (filter (fun f => String.eqb (Path.extname f) ".html") l))
                  [buildScript w projectDir buildDir
                     (Path.resolve (processCwd w) [client])
                     (Path.resolve (processCwd w)
                        (List.app buildDir ["client.bundle.js"]));
                   copyDirRecursive projectDir
                     (Path.resolve (processCwd w) [projectDir; staticAssetsDir])
                     (Path.resolve (processCwd w)
                        (List.app buildDir [staticAssetsDir]))]).
Proof.
  unfold startBuild.
  destruct (Fs.statSync fs projectDir) as [n|e] eqn:Es; [|discriminate].
  destruct (walkDirSync projectDir n walkExclude) as [p|l] eqn:Ew; [discriminate|].
  destruct (find (fun f => Str.includes "client.js" f) l) as [client|] eqn:Ef;
    [|discriminate].
  intro H. injection H as <-. apply find_some in Ef as [Hin Hc].
  exists n, l, client. repeat split; assumption.
Qed.

Lemma noChar_take (c : ascii) (k : nat) (s : string) :
  noChar c s = true -> noChar c (Str.take k s) = true.
Proof.
  revert s. induction k as [|k IH]; intros s H; [reflexivity|].
  destruct s as [|a s]; [reflexivity|]. simpl in H |- *.
  apply andb_true_iff in H as [Ha Hs]. now rewrite Ha, (IH s Hs).
Qed.

Lemma isName_bundle (x : string) :
  noChar "/" x = true -> isName (x ++ ".bundle.js") = true.
Proof.
  intro Hx. unfold isName.
  assert (Hlen : 10 <= String.length (x ++ ".bundle.js"))
    by (rewrite slength_app; simpl; lia).
  assert (He : Str.isEmpty (x ++ ".bundle.js") = false)
    by (destruct (x ++ ".bundle.js"); [simpl in Hlen; lia|reflexivity]).
  assert (Hd : Path.isDot (x ++ ".bundle.js") = false).
  { unfold Path.isDot. apply String.eqb_neq. intro E. rewrite E in Hlen.
    simpl in Hlen. lia. }
  assert (Hdd : Path.isDotDot (x ++ ".bundle.js") = false).
  { unfold Path.isDotDot. apply String.eqb_neq. intro E. rewrite E in Hlen.
    simpl in Hlen. lia. }
  rewrite He, Hd, Hdd, noSlash_noChar, noChar_app, Hx. reflexivity.
Qed.

Lemma basenameExt_noSlash (f ext : string) :
  noChar "/" (Path.basenameExt f ext) = true.
Proof.
  unfold Path.basenameExt.
  destruct (negb (Str.isEmpty ext) && (f =? ext)%string); [reflexivity|].
  destruct (Str.endsWith ext (Path.basename f) && negb (Path.basename f =? ext)%string).
  - apply noChar_take, basename_noSlash.
  - apply basename_noSlash.
Qed.

(** X15. Every bundle and the copy of the assets are directed into
    [<cwd>/build], the build directory of the directory the script was
    started in, while every child runs in the project directory that the
    search has found: started below the project directory, the script
    builds into the directory it was started in. *)
Theorem outputs_go_to_the_build_directory_of_cwd :
  forall (w : world) (fs : Fs.node) (projectDir : string)
         (cwdNames : list string) (ts : list task) (c : command),
    processCwd w = absPath cwdNames ->
    Forall (fun f => isName f = true) cwdNames ->
    startBuild w fs projectDir [processCwd w; buildDirName] = Ok ts ->
    In c (commandsOf ts) ->
    cwd c = projectDir
    /\ ((file c = "node"
         /\ exists x : string,
              noChar "/" x = true
              /\ nth_error (args c) 7
                 = Some (absPath (cwdNames ++ [buildDirName; x ++ ".bundle.js"])))
        \/ (file c = "cp"
            /\ nth_error (args c) 2
               = Some (absPath (cwdNames ++ [buildDirName; staticAssetsDir])))).
Proof.
  intros w fs projectDir cwdNames ts c Hcwd Hnames Hstart Hc.
  destruct (startBuild_shape _ _ _ _ _ Hstart)
    as (n & l & client & _ & _ & _ & _ & ->).
  rewrite Hcwd in Hc. cbn [List.app] in Hc.
  apply commandsOf_In in Hc.
  apply in_app_or in Hc as [Hc|Hc]; [|apply in_app_or in Hc as [Hc|Hc]].
  - apply in_map_iff in Hc as (f & Hf & _). injection Hf as <-.
    split; [reflexivity|]. left. split; [reflexivity|].
    exists (Path.basenameExt f ".vr.js"). split; [apply basenameExt_noSlash|].
    cbn [args nth_error]. f_equal.
    apply resolve_in_build_name; [exact Hnames|].
    apply isName_bundle, basenameExt_noSlash.
  - apply in_map_iff in Hc as (f & Hf & _). discriminate Hf.
  - destruct Hc as [Hc|[Hc|[]]]; injection Hc as <-; (split; [reflexivity|]).
    + left. split; [reflexivity|]. exists "client". split; [reflexivity|].
      cbn [args nth_error]. f_equal.
      now apply resolve_in_build_name.
    + right. split; [reflexivity|]. cbn [args nth_error]. f_equal.
      now apply resolve_in_build_name.
Qed.

Lemma outputs_go_to_the_build_directory_of_cwd_witness :
  let w := Scenario.worldAt "/home/dev/app/static_assets" Scenario.indexHtml
             (fun _ => Some 0%Z) in
  let cwdNames := ["home"; "dev"; "app"; "static_assets"] in
  processCwd w = absPath cwdNames
  /\ Forall (fun f => isName f = true) cwdNames
  /\ (exists ts,
        startBuild w (disk w) Scenario.projectPath [processCwd w; buildDirName]
        = Ok ts
        /\ forall c, In c (commandsOf ts) ->
             cwd c = Scenario.projectPath
             /\ ((file c = "node"
                  /\ exists x : string,
                       noChar "/" x = true
                       /\ nth_error (args c) 7
                          = Some (absPath (cwdNames
                                           ++ [buildDirName; x ++ ".bundle.js"])))
                 \/ (file c = "cp"
                     /\ nth_error (args c) 2
                        = Some (absPath (cwdNames
                                         ++ [buildDirName; staticAssetsDir]))))).
Proof.
  intros w cwdNames.
  assert (H1 : processCwd w = absPath cwdNames) by reflexivity.
  assert (H2 : Forall (fun f => isName f = true) cwdNames) by (repeat constructor).
  do 2 (split; [assumption|]).
  destruct (startBuild w (disk w) Scenario.projectPath [processCwd w; buildDirName])
    as [ts|e] eqn:Hs.
  - exists ts. split; [reflexivity|]. intros c Hc.
    exact (outputs_go_to_the_build_directory_of_cwd w (disk w) Scenario.projectPath
             cwdNames ts c H1 H2 Hs Hc).
  - vm_compute in Hs. discriminate Hs.
Defined.

(** X16. Whatever is bundled or rewritten is a path that the walk of the
    project has returned: it lies below the project directory and none
    of its components below it is an excluded name ([node_modules],
    [build], [static_assets], ...).  A bundler entry ends in [.vr.js] or
    is the client entry, whose path contains [client.js]; a rewritten
    page has the extension [.html]. *)
Theorem targets_come_from_the_walk :
  forall (w : world) (fs n : Fs.node) (projectNames buildDir : list string)
         (ts : list task),
    Forall (fun f => isName f = true) projectNames ->
    Fs.statSync fs (absPath projectNames) = Ok n ->
    wfTree n = true ->
    startBuild w fs (absPath projectNames) buildDir = Ok ts ->
    (forall f bd, In (Rewrite f bd) ts ->
       Path.extname f = ".html"
       /\ exists rel, f = absPath (projectNames ++ rel)
                      /\ Forall (fun c => ~ In c walkExclude) rel)
    /\ (forall c, In c (commandsOf ts) -> file c = "node" ->
          exists (f : string) (rel : list string),
            nth_error (args c) 3 = Some f
            /\ f = absPath (projectNames ++ rel)
            /\ Forall (fun x => ~ In x walkExclude) rel
            /\ (vrJsRegex f = true \/ occursIn "client.js" f)).
Proof.
  intros w fs n projectNames buildDir ts Hnames Hstat Hwf Hstart.
  destruct (startBuild_shape _ _ _ _ _ Hstart)
    as (n' & l & client & Hstat' & Hwalk & Hclient & Hinc & ->).
  rewrite Hstat in Hstat'. injection Hstat' as <-.
  assert (Hbelow : forall f, In f l ->
            exists rel, f = absPath (projectNames ++ rel)
                        /\ Forall (fun g => isName g = true) rel
                        /\ Forall (fun x => ~ In x walkExclude) rel).
  { intros f Hf.
    apply (walkDirSync_paths_below walkExclude n projectNames f Hnames Hwf).
    now rewrite Hwalk. }
  split.
  - intros f bd Hin.
    apply in_app_or in Hin as [Hin|Hin]; [|apply in_app_or in Hin as [Hin|Hin]].
    + apply in_map_iff in Hin as (g & Hg & _). discriminate Hg.
    + apply in_map_iff in Hin as (g & Hg & Hgl). injection Hg as -> _.
      apply filter_In in Hgl as [Hgl Hext]. apply String.eqb_eq in Hext.
      split; [exact Hext|].
      destruct (Hbelow f Hgl) as (rel & Hf & _ & Hnot). now exists rel.
    + destruct Hin as [Hin|[Hin|[]]]; discriminate Hin.
  - intros c Hc Hnode. apply commandsOf_In in Hc.
    apply in_app_or in Hc as [Hc|Hc]; [|apply in_app_or in Hc as [Hc|Hc]].
    + apply in_map_iff in Hc as (f & Hf & Hfl). injection Hf as <-.
      apply filter_In in Hfl as [Hfl Hvr].
      destruct (Hbelow f Hfl) as (rel & Hf & Hrel & Hnot).
      exists f, rel. cbn [args nth_error]. repeat split; try assumption.
      * f_equal. rewrite Hf.
        apply (resolve_absolute_last _ [absPath projectNames]).
        apply Forall_app. now split.
      * now left.
    + apply in_map_iff in Hc as (f & Hf & _). discriminate Hf.
    + destruct Hc as [Hc|[Hc|[]]]; injection Hc as <-; [|discriminate Hnode].
      destruct (Hbelow client Hclient) as (rel & Hf & Hrel & Hnot).
      exists client, rel. cbn [args nth_error]. repeat split; try assumption.
      * f_equal. rewrite Hf. apply (resolve_absolute_last _ []).
        apply Forall_app. now split.
      * right. now apply includes_occursIn.
Qed.

Lemma targets_come_from_the_walk_witness :
  let w := Scenario.worldOf Scenario.indexHtml (fun _ => Some 0%Z) in
  let fs := Scenario.rootBuilt Scenario.indexHtml [] in
  let n := Scenario.projectWith Scenario.indexHtml [("build", Fs.Dir [])] in
  Forall (fun f => isName f = true) Scenario.projectNames
  /\ Fs.statSync fs (absPath Scenario.projectNames) = Ok n
  /\ wfTree n = true
  /\ startBuild w fs (absPath Scenario.projectNames) Scenario.buildDir
     = Ok Scenario.tasks
  /\ forall f bd, In (Rewrite f bd) Scenario.tasks ->
       Path.extname f = ".html"
       /\ exists rel, f = absPath (Scenario.projectNames ++ rel)
                      /\ Forall (fun c => ~ In c walkExclude) rel.
Proof.
  intros w fs n.
  assert (H1 : Forall (fun f => isName f = true) Scenario.projectNames)
    by (repeat constructor).
  assert (H2 : Fs.statSync fs (absPath Scenario.projectNames) = Ok n) by reflexivity.
  assert (H3 : wfTree n = true) by reflexivity.
  assert (H4 : startBuild w fs (absPath Scenario.projectNames) Scenario.buildDir
               = Ok Scenario.tasks) by (vm_compute; reflexivity).
  do 4 (split; [assumption|]).
  exact (proj1 (targets_come_from_the_walk w fs n Scenario.projectNames
                  Scenario.buildDir Scenario.tasks H1 H2 H3 H4)).
Defined.

(** ** Where a page is written *)

Lemma basename_absPath (dirNames : list string) (x : string) :
  isName x = true -> Path.basename (absPath (dirNames ++ [x])) = x.
Proof.
  intro Hx. destruct (isName_parts _ Hx) as (He & _ & _ & Hs).
  rewrite noSlash_noChar in Hs. apply isEmpty_false in He.
  unfold absPath. destruct dirNames as [|y l].
  - cbn [List.app Str.join].
    exact (proj1 (basename_after_sep "" x Hs He)).
  - rewrite join_snoc by discriminate.
    change ("/" ++ Str.join "/" (y :: l) ++ "/" ++ x)
      with (("/" ++ Str.join "/" (y :: l)) ++ String "/" x).
    exact (proj1 (basename_after_sep _ x Hs He)).
Qed.

(** X17. A page is written directly into [<cwd>/build] under its own
    base name, whatever directory of the project it was found in: the
    directory part is dropped, so that two pages of the same name in
    different directories are written to the same file. *)
Theorem pages_are_flattened_into_build :
  forall (cwdNames dirNames : list string) (x data : string)
         (writes : list (string * string)),
    Forall (fun f => isName f = true) cwdNames ->
    isName x = true ->
    replaceBundleExtensionsInHtml (absPath cwdNames) (absPath (dirNames ++ [x]))
      [absPath cwdNames; buildDirName] (Ok data)
    = Returned writes ->
    forall wr, In wr writes ->
      fst wr = absPath (cwdNames ++ [buildDirName; x]).
Proof.
  intros cwdNames dirNames x data writes Hcwd Hx Hret wr Hwr.
  unfold replaceBundleExtensionsInHtml in Hret.
  destruct (Regex.jsMatch bundleRegex (Buffer.toString data)) as [l|]; [|discriminate Hret].
  injection Hret as <-. rewrite (basename_absPath dirNames x Hx) in Hwr.
  cbn [List.app] in Hwr.
  rewrite (resolve_in_build_name _ _ _ Hcwd Hx) in Hwr.
  apply in_app_or in Hwr as [Hwr|[<-|[]]]; [|reflexivity].
  destruct (Nat.eqb (List.length l) 0); [|destruct Hwr].
  destruct Hwr as [<-|[]]. reflexivity.
Qed.

Lemma pages_are_flattened_into_build_witness :
  Forall (fun f => isName f = true) Scenario.projectNames
  /\ isName "index.html" = true
  /\ replaceBundleExtensionsInHtml (absPath Scenario.projectNames)
       (absPath (["home"; "dev"; "app"; "vr"] ++ ["index.html"]))
       [absPath Scenario.projectNames; buildDirName] (Ok Scenario.indexHtml)
     = Returned [("/home/dev/app/build/index.html", Scenario.indexHtmlRewritten)]
  /\ forall wr,
       In wr [("/home/dev/app/build/index.html", Scenario.indexHtmlRewritten)] ->
       fst wr = absPath (Scenario.projectNames ++ [buildDirName; "index.html"]).
Proof.
  assert (H1 : Forall (fun f => isName f = true) Scenario.projectNames)
    by (repeat constructor).
  assert (H2 : isName "index.html" = true) by reflexivity.
  assert (H3 : replaceBundleExtensionsInHtml (absPath Scenario.projectNames)
                 (absPath (["home"; "dev"; "app"; "vr"] ++ ["index.html"]))
                 [absPath Scenario.projectNames; buildDirName]
                 (Ok Scenario.indexHtml)
               = Returned [("/home/dev/app/build/index.html",
                            Scenario.indexHtmlRewritten)])
    by (vm_compute; reflexivity).
  do 3 (split; [assumption|]).
  exact (pages_are_flattened_into_build Scenario.projectNames
           ["home"; "dev"; "app"; "vr"] "index.html" Scenario.indexHtml _ H1 H2 H3).
Defined.

(** ** The end of the run *)

Lemma performWrites_settles (w : world) :
  forall (writes : list (string * string)) (p : Promise.state) (fs : Fs.node),
    (writes <> [] \/ p <> Promise.Pending) ->
    fst (performWrites w writes p fs) <> Promise.Pending.
Proof.
  induction writes as [|[q data] rest IH]; intros p fs H.
  - destruct H as [H|H]; [congruence|exact H].
  - cbn [performWrites]. apply IH. right.
    unfold onWritten. destruct (writeFile w fs q data); destruct p; discriminate.
Qed.

Lemma complete_settles (w : world) (fs fs' : Fs.node) (t : task)
    (p : Promise.state) :
  complete w fs t = Settled p fs' -> p <> Promise.Pending.
Proof.
  destruct t as [c|f bd]; cbn [complete].
  - intro H. injection H as <- _. rewrite onClose_pending.
    destruct (closeCode w c) as [[| |]|]; discriminate.
  - destruct (replaceBundleExtensionsInHtml (processCwd w) f bd (Fs.readFile fs f))
      as [e|writes] eqn:E; [discriminate|].
    destruct (performWrites w writes Promise.Pending fs) as [p1 fs1] eqn:Ew.
    intro H. injection H as <- _.
    change p1 with (fst (p1, fs1)). rewrite <- Ew.
    apply performWrites_settles. left.
    unfold replaceBundleExtensionsInHtml in E.
    destruct (Fs.readFile fs f); [|discriminate E].
    destruct (Regex.jsMatch bundleRegex _); [|discriminate E].
    injection E as <-. intro H. apply app_eq_nil in H as [_ H]. discriminate H.
Qed.

Lemma settleAll_ends (w : world) (ts : list task) :
  forall (order finished : list nat) (fs : Fs.node),
    (forall i, i < List.length ts -> In i finished \/ In i order) ->
    forall fs', settleAll w ts order finished fs <> Waiting fs'.
Proof.
  induction order as [|i rest IH]; intros finished fs Hall fs';
    cbn [settleAll]; destruct (allFinished ts finished) eqn:Hfin;
    try discriminate.
  - exfalso. apply Bool.not_true_iff_false in Hfin. apply Hfin.
    apply allFinished_true. intros i Hi. destruct (Hall i Hi) as [H|[]]. exact H.
  - destruct (existsb (Nat.eqb i) finished) eqn:Hin.
    + apply IH. intros j Hj. destruct (Hall j Hj) as [H|[<-|H]]; auto.
      left. now apply existsb_eqb_In.
    + destruct (nth_error ts i) as [t|] eqn:Ht.
      * destruct (complete w fs t) as [p fs1|e] eqn:Hc; [|discriminate].
        pose proof (complete_settles w fs fs1 t p Hc) as Hp.
        destruct p; [congruence| |discriminate].
        apply IH. intros j Hj.
        destruct (Hall j Hj) as [H|[<-|H]]; auto; left; [now right|now left].
      * apply IH. intros j Hj. destruct (Hall j Hj) as [H|[<-|H]]; auto.
        apply nth_error_None in Ht. lia.
Qed.

(** X18. Once the build directory is there and the operations are
    started, a run in which every one of them completes does end: the
    process exits with status 0 or 1.  No operation can complete without
    settling its promise, so the join cannot stay open. *)
Theorem run_ends_when_every_operation_completes :
  forall (w : world) (projectDir : string) (buildDir : list string)
         (order : list nat) (fs1 : Fs.node) (out1 : list string)
         (ts : list task),
    ensureBuildDir w (disk w) buildDir = (Promise.Fulfilled, fs1, out1) ->
    startBuild w fs1 projectDir buildDir = Ok ts ->
    (forall i, i < List.length ts -> In i order) ->
    exitStatus (build w projectDir buildDir order) = Some 0%Z
    \/ exitStatus (build w projectDir buildDir order) = Some 1%Z.
Proof.
  intros w projectDir buildDir order fs1 out1 ts He Hs Hall.
  unfold build. rewrite He, Hs.
  pose proof (settleAll_ends w ts order [] fs1
                (fun i Hi => or_intror (Hall i Hi))) as Hends.
  destruct (settleAll w ts order [] fs1) as [fs2|r fs2|e fs2|fs2];
    [now left|now right|now right|].
  now elim (Hends fs2).
Qed.

Lemma run_ends_when_every_operation_completes_witness :
  let w := Scenario.worldOf Scenario.indexHtml
             (fun c => if String.eqb (file c) "cp" then None else Some 0%Z) in
  ensureBuildDir w (disk w) Scenario.buildDir
  = (Promise.Fulfilled, Scenario.rootBuilt Scenario.indexHtml [], [])
  /\ startBuild w (Scenario.rootBuilt Scenario.indexHtml []) Scenario.projectPath
       Scenario.buildDir = Ok Scenario.tasks
  /\ (forall i, i < List.length Scenario.tasks -> In i [3; 1; 4; 0; 2])
  /\ (exitStatus (build w Scenario.projectPath Scenario.buildDir [3; 1; 4; 0; 2])
      = Some 0%Z
      \/ exitStatus (build w Scenario.projectPath Scenario.buildDir [3; 1; 4; 0; 2])
         = Some 1%Z).
Proof.
  intro w.
  assert (H1 : ensureBuildDir w (disk w) Scenario.buildDir
               = (Promise.Fulfilled, Scenario.rootBuilt Scenario.indexHtml [], []))
    by (vm_compute; reflexivity).
  assert (H2 : startBuild w (Scenario.rootBuilt Scenario.indexHtml [])
                 Scenario.projectPath Scenario.buildDir = Ok Scenario.tasks)
    by (vm_compute; reflexivity).
  assert (H3 : forall i, i < List.length Scenario.tasks -> In i [3; 1; 4; 0; 2]).
  { intros i Hi. simpl in Hi |- *. lia. }
  do 3 (split; [assumption|]).
  exact (run_ends_when_every_operation_completes w Scenario.projectPath
           Scenario.buildDir [3; 1; 4; 0; 2] _ _ _ H1 H2 H3).
Defined.

(** ** A page with a single reference *)

Lemma updatedPath_plain (p : string) :
  noChar "$" p = true -> noChar "$" (updatedPath p) = true.
Proof.
  intro Hp. unfold updatedPath, Path.sep.
  rewrite !noChar_app. cbn [noChar Ascii.eqb Bool.eqb negb andb].
  rewrite andb_true_r.
  apply (hd_Forall (fun x => noChar "$" x = true)); [reflexivity|].
  apply split_keeps_noChar. unfold Path.basename.
  apply (lastNonEmpty_Forall (fun x => noChar "$" x = true)); [reflexivity|].
  now apply split_keeps_noChar.
Qed.

(** X19. In a page of well-formed UTF-8 whose only match is one
    reference between quotes, and whose reference holds no [$], exactly
    that reference is replaced by its normalized path: everything before
    and after it, the quotes included, is written unchanged. *)
Theorem single_reference_is_replaced_in_place :
  forall (procCwd htmlFile pre post p : string) (buildDir : list string)
         (q1 q2 : ascii),
    isQuote q1 = true -> isQuote q2 = true ->
    Buffer.wellFormed (pre ++ String q1 (p ++ String q2 post)) = true ->
    Regex.jsMatch bundleRegex p = Some [p] ->
    noChar "$" p = true ->
    Regex.jsMatch bundleRegex pre = None ->
    Regex.jsMatch bundleRegex post = None ->
    replaceBundleExtensionsInHtml procCwd htmlFile buildDir
      (Ok (pre ++ String q1 (p ++ String q2 post)))
    = Returned
        [(Path.resolve procCwd (List.app buildDir [Path.basename htmlFile]),
          pre ++ String q1 (updatedPath p ++ String q2 post))].
Proof.
  intros procCwd htmlFile pre post p buildDir q1 q2 H1 H2 Hwf Hp Hd Hpre Hpost.
  apply jsMatch_none in Hpre, Hpost.
  destruct (jsMatch_whole p Hp) as (Hq & out & Hm).
  assert (Hscan : scanAll (pre ++ String q1 (p ++ String q2 post)) = [p]).
  { rewrite (scanAll_quoted p pre post out q1 q2 H1 H2 Hq Hm).
    now rewrite Hpre, Hpost. }
  unfold replaceBundleExtensionsInHtml.
  rewrite (toString_wellFormed _ Hwf), jsMatch_scanAll, Hscan.
  cbn [List.length Nat.eqb List.app replaceAll fold_left].
  do 3 f_equal.
  exact (replace_quoted p pre (String q2 post) out (updatedPath p) q1
           H1 Hq Hm Hpre (updatedPath_plain p Hd)).
Qed.

Lemma single_reference_is_replaced_in_place_witness :
  let pre :=
    "<title>caf" ++ String "195"%char (String "169"%char "</title>")
    ++ "<script>ReactVR.init(" in
  let post := ", document.body);</script>" in
  let p := "../index.vr.bundle?platform=vr&dev=true" in
  isQuote squote = true /\ isQuote squote = true
  /\ Buffer.wellFormed (pre ++ String squote (p ++ String squote post)) = true
  /\ Regex.jsMatch bundleRegex p = Some [p]
  /\ noChar "$" p = true
  /\ Regex.jsMatch bundleRegex pre = None
  /\ Regex.jsMatch bundleRegex post = None
  /\ replaceBundleExtensionsInHtml Scenario.projectPath "/home/dev/app/index.html"
       Scenario.buildDir (Ok (pre ++ String squote (p ++ String squote post)))
     = Returned
         [("/home/dev/app/build/index.html",
           pre ++ "'/index.bundle.js', document.body);</script>")].
Proof.
  intros pre post p.
  assert (H0 : Buffer.wellFormed (pre ++ String squote (p ++ String squote post))
               = true) by (vm_compute; reflexivity).
  assert (H3 : Regex.jsMatch bundleRegex p = Some [p]) by (vm_compute; reflexivity).
  assert (H4 : noChar "$" p = true) by reflexivity.
  assert (H5 : Regex.jsMatch bundleRegex pre = None) by (vm_compute; reflexivity).
  assert (H6 : Regex.jsMatch bundleRegex post = None) by (vm_compute; reflexivity).
  do 2 (split; [reflexivity|]). do 5 (split; [assumption|]).
  exact (single_reference_is_replaced_in_place Scenario.projectPath
           "/home/dev/app/index.html" pre post p Scenario.buildDir squote squote
           eq_refl eq_refl H0 H3 H4 H5 H6).
Defined.
